(** * python_scaffold.py: a shallow embedding and its verified properties

  The program is a command-line tool that creates a project directory
  and writes a fixed set of text files into it.  The embedding has
  three layers:

  - [Py]: the string built-ins the program calls ([str.replace],
    [str.lower], [str(int)]) and [os.path.join] in its POSIX form;
  - [Os]: a file system (a finite map from canonical paths to nodes),
    kernel path resolution, and the calls [os.path.exists],
    [os.makedirs(..., exist_ok=True)], [open(..., "w")] and
    [venv.create];
  - [Program]: the class [ProjectScaffolder] and the function [main],
    written in a state-and-exception monad over the process state.

  Python strings are modelled by [string]; a character stands for a
  code point in U+0000..U+00FF.  Symbolic links, permissions and
  Windows paths are not modelled. *)

From Stdlib Require Import ZArith Ascii DecimalString Lia.
From stdpp Require Import base option list strings gmap.

Local Open Scope Z_scope.

(* ================================================================== *)
(** ** Python string built-ins *)
(* ================================================================== *)

Module Py.

Definition chr (n : nat) : string := String (ascii_of_nat n) EmptyString.

(** Characters that cannot be written inside a literal here. *)
Definition dq : string := chr 34.
Definition nl : string := chr 10.
Definition tab : string := chr 9.

(** [s.startswith(p)] *)
Fixpoint startswith (p s : string) : bool :=
  match p, s with
  | EmptyString, _ => true
  | String a p', String b s' => if decide (a = b) then startswith p' s' else false
  | String _ _, EmptyString => false
  end.

(** [s.endswith(p)] for a one-character [p]. *)
Fixpoint endswith_char (c : ascii) (s : string) : bool :=
  match s with
  | EmptyString => false
  | String a EmptyString => if decide (a = c) then true else false
  | String _ s' => endswith_char c s'
  end.

(** [s.replace(old, new)] for a non-empty [old]: scan from the left,
    and after a match continue behind it ([skip] counts the characters
    of the match that are still to be dropped). *)
Fixpoint replace_from (old new : string) (skip : nat) (s : string) : string :=
  match s with
  | EmptyString => EmptyString
  | String c r =>
      match skip with
      | S k => replace_from old new k r
      | O =>
          if startswith old s
          then new +:+ replace_from old new (String.length old - 1) r
          else String c (replace_from old new 0 r)
      end
  end.

(** For an empty [old] Python puts [new] before every character and at
    the end. *)
Fixpoint intersperse_str (new s : string) : string :=
  match s with
  | EmptyString => new
  | String c r => new +:+ String c (intersperse_str new r)
  end.

Definition replace (old new s : string) : string :=
  match old with
  | EmptyString => intersperse_str new s
  | String _ _ => replace_from old new 0 s
  end.

(** [str.lower] on the code points below 256: the capitals A-Z and the
    Latin-1 capitals U+00C0..U+00DE (without the sign U+00D7) move up
    by 32, every other character stays. *)
Definition is_upper (c : ascii) : bool :=
  let n := nat_of_ascii c in
  ((65 <=? n)%nat && (n <=? 90)%nat)
  || ((192 <=? n)%nat && (n <=? 222)%nat && negb (n =? 215)%nat).

Definition lower_char (c : ascii) : ascii :=
  if is_upper c then ascii_of_nat (nat_of_ascii c + 32) else c.

Fixpoint lower (s : string) : string :=
  match s with
  | EmptyString => EmptyString
  | String c r => String (lower_char c) (lower r)
  end.

(** [str(n)] for an integer. *)
Definition str_of_int (n : Z) : string := NilZero.string_of_int (Z.to_int n).

(** [c in s] for a character. *)
Fixpoint contains_char (c : ascii) (s : string) : bool :=
  match s with
  | EmptyString => false
  | String a r => if decide (a = c) then true else contains_char c r
  end.

(** [''.join(chunks)] *)
Definition concat (chunks : list string) : string :=
  foldr String.append EmptyString chunks.

(** posixpath.join(a, b): an absolute [b] discards [a]; otherwise the
    two are put together with exactly one separator between them. *)
Definition path_join (a b : string) : string :=
  if startswith "/" b then b
  else if decide (a = EmptyString) then b
  else if endswith_char "/" a then a +:+ b
  else a +:+ "/" +:+ b.

End Py.

(* ================================================================== *)
(** ** Exceptions and the file system *)
(* ================================================================== *)

(** The exceptions that can end a run: the [OSError] subclasses raised
  by the file-system calls (each carries the offending path), the
  failure of the external environment builder, and [SystemExit]. *)
Inductive exn : Type :=
| FileExistsError (p : string)
| FileNotFoundError (p : string)
| NotADirectoryError (p : string)
| IsADirectoryError (p : string)
| CalledProcessError
| SystemExit (code : Z).

Definition is_SystemExit (e : exn) : bool :=
match e with SystemExit _ => true | _ => false end.

Module Os.

(** A canonical path is the list of directory-entry names from the
    root; the root itself is the empty list. *)
Abbreviation path := (list string).

Inductive node : Type :=
  | File (content : string)
  | Dir.

Global Instance node_eq_dec : EqDecision node.
Proof. solve_decision. Defined.

Abbreviation FS := (gmap (list string) node).

(** The root always exists and is a directory. *)
Definition node_at (fs : FS) (q : path) : option node :=
  match q with
  | [] => Some Dir
  | _ => fs !! q
  end.

Definition is_dir (fs : FS) (q : path) : bool :=
  match node_at fs q with Some Dir => true | _ => false end.

Definition is_file (fs : FS) (q : path) : bool :=
  match node_at fs q with Some (File _) => true | _ => false end.

(** [s.split("/")] *)
Fixpoint components (s : string) : list string :=
  match s with
  | EmptyString => [EmptyString]
  | String c r =>
      if decide (c = "/"%char) then EmptyString :: components r
      else match components r with
           | h :: t => String c h :: t
           | [] => [String c EmptyString]
           end
  end.

Definition stays (c : string) : bool :=
  bool_decide (c = EmptyString) || bool_decide (c = ".").

(** Kernel path resolution without symbolic links: every step is
    taken from an existing directory; an empty component and [.] stay,
    [..] goes to the parent (the root is its own parent), a name goes
    to that entry, which need not exist when it is the last one. *)
Fixpoint walk (fs : FS) (cur : path) (comps : list string) : option path :=
  match comps with
  | [] => Some cur
  | c :: rest =>
      if is_dir fs cur then
        if stays c then walk fs cur rest
        else if bool_decide (c = "..") then walk fs (removelast cur) rest
        else walk fs (cur ++ [c]) rest
      else None
  end.

(** Resolution of a path string.  The program only passes absolute
    paths (they start with [os.getcwd()]), so the walk starts at the
    root; the empty string resolves to nothing. *)
Definition resolve (fs : FS) (s : string) : option path :=
  if decide (s = EmptyString) then None else walk fs [] (components s).

(** [os.path.exists(s)] *)
Definition path_exists (fs : FS) (s : string) : bool :=
  match resolve fs s with
  | Some q => bool_decide (is_Some (node_at fs q))
  | None => false
  end.

(** [os.path.isdir(s)] *)
Definition path_isdir (fs : FS) (s : string) : bool :=
  match resolve fs s with
  | Some q => is_dir fs q
  | None => false
  end.

(** The content of a regular file, [None] when [s] is not one. *)
Definition read_file (fs : FS) (s : string) : option string :=
  match resolve fs s with
  | Some q => match node_at fs q with Some (File c) => Some c | _ => None end
  | None => None
  end.

(** A call leaves a file system behind and may raise: what was done
    before the failure stays done. *)
Abbreviation outcome := (FS * option exn)%type.

(** [os.makedirs(s, exist_ok=True)]: walk along [s] and create every
    directory that is missing.  It fails on a component that exists
    and is not a directory.  The exception carries the argument [s]
    (the interpreter names the component it was making). *)
Fixpoint makedirs_walk (s : string) (fs : FS) (cur : path)
    (comps : list string) : outcome :=
  match comps with
  | [] => (fs, if is_dir fs cur then None else Some (FileExistsError s))
  | c :: rest =>
      if is_dir fs cur then
        if stays c then makedirs_walk s fs cur rest
        else if bool_decide (c = "..") then makedirs_walk s fs (removelast cur) rest
        else match node_at fs (cur ++ [c]) with
             | None => makedirs_walk s (<[cur ++ [c] := Dir]> fs) (cur ++ [c]) rest
             | Some _ => makedirs_walk s fs (cur ++ [c]) rest
             end
      else (fs, Some (NotADirectoryError s))
  end.

Definition makedirs (s : string) (fs : FS) : outcome :=
  if decide (s = EmptyString) then (fs, Some (FileNotFoundError s))
  else makedirs_walk s fs [] (components s).

(** [with open(s, "w") as f: f.write(...)]: the file is created or
    truncated and ends up holding [content].  A path that does not
    resolve gives [FileNotFoundError]: a regular file in the place of
    a directory of the path, for which the kernel reports ENOTDIR, is
    not told apart from a missing directory. *)
Definition write_file (s content : string) (fs : FS) : outcome :=
  match resolve fs s with
  | None => (fs, Some (FileNotFoundError s))
  | Some q =>
      match node_at fs q with
      | Some Dir => (fs, Some (IsADirectoryError s))
      | _ => (<[q := File content]> fs, None)
      end
  end.

(** One entry of a tree that is installed below a directory: a
    directory is kept when it is there, a file is (over)written; the
    parent has to be a directory and the kinds have to agree. *)
Definition put (s : string) (q : path) (n : node) (fs : FS) : outcome :=
  if is_dir fs (removelast q) then
    match n, node_at fs q with
    | Dir, None => (<[q := Dir]> fs, None)
    | Dir, Some Dir => (fs, None)
    | Dir, Some (File _) => (fs, Some (FileExistsError s))
    | File _, Some Dir => (fs, Some (IsADirectoryError s))
    | File c, _ => (<[q := File c]> fs, None)
    end
  else (fs, Some (NotADirectoryError s)).

Fixpoint install (s : string) (q : path) (tree : list (path * node))
    (fs : FS) : outcome :=
  match tree with
  | [] => (fs, None)
  | (rel, n) :: rest =>
      match put s (q ++ rel) n fs with
      | (fs', None) => install s q rest fs'
      | failed => failed
      end
  end.

(** [venv.create(s, with_pip=True)].  What the builder puts into the
    environment directory depends on the Python installation, so it is
    a parameter: [Some tree] lists the entries (paths relative to the
    environment directory) in the order they are made, [None] stands
    for a builder whose pip bootstrap fails after the directory was
    made.  Of such a failure the model keeps that the call raises:
    the exception is the [CalledProcessError] of the bootstrap
    subprocess, and what an installation prints or leaves in the
    directory on the way, or an installation that ends the process
    there, is not modelled. *)
Definition venv_create (payload : option (list (path * node)))
    (s : string) (fs : FS) : outcome :=
  match makedirs s fs with
  | (fs1, None) =>
      match payload, resolve fs1 s with
      | Some tree, Some q => install s q tree fs1
      | None, _ => (fs1, Some CalledProcessError)
      | _, None => (fs1, Some (FileNotFoundError s))
      end
  | failed => failed
  end.

End Os.

(* ================================================================== *)
(** ** The process state and the monad of the program *)
(* ================================================================== *)

(** What a run can observe and change: the file system, the working
  directory, the calendar year of the clock, [os.name], the lines
  printed so far, and the record of the text files emitted so far (the
  path given to [open] and the text written, in the order of the
  blocks). *)
Record World : Type := mkWorld {
fs : gmap (list string) Os.node;
cwd : string;
year : Z;
os_name : string;
stdout : list string;
emitted : list (string * string)
}.

Definition set_fs (f : gmap (list string) Os.node) (w : World) : World :=
mkWorld f (cwd w) (year w) (os_name w) (stdout w) (emitted w).

Definition add_stdout (line : string) (w : World) : World :=
mkWorld (fs w) (cwd w) (year w) (os_name w) (stdout w ++ [line]) (emitted w).

Definition add_emitted (s content : string) (w : World) : World :=
mkWorld (fs w) (cwd w) (year w) (os_name w) (stdout w) (emitted w ++ [(s, content)]).

(** A computation over a state [S] either returns or raises; in both
  cases it leaves a state behind. *)
Definition M (S A : Type) : Type := S -> S * (exn + A).

Definition ret {S A} (a : A) : M S A := fun s => (s, inr a).

Definition raise {S A} (e : exn) : M S A := fun s => (s, inl e).

Definition bind {S A B} (m : M S A) (k : A -> M S B) : M S B :=
fun s =>
  match m s with
  | (s', inr a) => k a s'
  | (s', inl e) => (s', inl e)
  end.

Declare Scope prog_scope.
Delimit Scope prog_scope with prog.
Notation "x ← y ; z" := (bind y (fun x => z))
(at level 20, y at level 100, z at level 200, only parsing) : prog_scope.
Notation "y ;; z" := (bind y (fun _ => z))
(at level 100, z at level 200, only parsing, right associativity) : prog_scope.

Definition when {S} (b : bool) (m : M S unit) : M S unit :=
if b then m else ret tt.

(** The system calls of the program. *)
Module Sys.

Definition getcwd : M World string := fun w => (w, inr (cwd w)).

Definition now_year : M World Z := fun w => (w, inr (year w)).

Definition get_os_name : M World string := fun w => (w, inr (os_name w)).

Definition print (line : string) : M World unit :=
  fun w => (add_stdout line w, inr tt).

Definition path_exists (s : string) : M World bool :=
  fun w => (w, inr (Os.path_exists (fs w) s)).

Definition fs_call (op : gmap (list string) Os.node -> Os.outcome) : M World unit :=
  fun w =>
    match op (fs w) with
    | (f, None) => (set_fs f w, inr tt)
    | (f, Some e) => (set_fs f w, inl e)
    end.

Definition makedirs (s : string) : M World unit := fs_call (Os.makedirs s).

(** A [with open(s, "w")] block; [chunks] are the arguments of its
    [f.write] calls in order.  A block that was entered is recorded. *)
Definition open_w (s : string) (chunks : list string) : M World unit :=
  fun w =>
    match Os.write_file s (Py.concat chunks) (fs w) with
    | (f, None) => (add_emitted s (Py.concat chunks) (set_fs f w), inr tt)
    | (f, Some e) => (set_fs f w, inl e)
    end.

Definition venv_create (payload : option (list (list string * Os.node)))
    (s : string) : M World unit :=
  fs_call (Os.venv_create payload s).

Definition exit {A} (code : Z) : M World A := raise (SystemExit code).

End Sys.

(** The exit status of the interpreter: 0 after a normal return, the
  code of a [SystemExit], and 1 after any other uncaught exception. *)
Definition exit_status {A} (r : exn + A) : Z :=
match r with
| inr _ => 0
| inl (SystemExit code) => code
| inl _ => 1
end.

(* ================================================================== *)
(** ** class ProjectScaffolder and main *)
(* ================================================================== *)

(** The attributes of a [ProjectScaffolder] object. *)
Record ProjectScaffolder : Type := mkScaffolder {
project_name : string;
use_tests : bool;
use_docs : bool;
use_venv : bool;
author : string;
email : string;
description : string;
package_name : string;
base_dir : string
}.

(** A method runs on the object it was called on and on the world. *)
Record Machine : Type := mkMachine {
self_obj : ProjectScaffolder;
world : World
}.

Definition get_self : M Machine ProjectScaffolder :=
fun st => (st, inr (self_obj st)).

(** A system call made from inside a method. *)
Definition io {A} (m : M World A) : M Machine A :=
fun st =>
  match m (world st) with
  | (w, r) => (mkMachine (self_obj st) w, r)
  end.

(** [obj.method()] from outside the class. *)
Definition call {A} (obj : ProjectScaffolder) (m : M Machine A) : M World A :=
fun w =>
  match m (mkMachine obj w) with
  | (st, r) => (world st, r)
  end.

(** The parsed command line (the namespace that [parse_args] returns). *)
Record Args : Type := mkArgs {
arg_project_name : string;
arg_no_tests : bool;
arg_no_docs : bool;
arg_no_venv : bool;
arg_author : string;
arg_email : string;
arg_description : string
}.

(* ================================================================== *)
(** ** Notions used to state the properties *)
(* ================================================================== *)

(** [s] with [f] applied to each of its characters. *)
Fixpoint string_map (f : ascii -> ascii) (s : string) : string :=
match s with
| EmptyString => EmptyString
| String c r => String (f c) (string_map f r)
end.

Definition hyphen_to_underscore (c : ascii) : ascii :=
if decide (c = "-"%char) then "_"%char else c.

(** The derivation one character at a time, with the embedding of
  [str.lower] on each. *)
Definition derive_spec (s : string) : string :=
string_map (fun c => Py.lower_char (hyphen_to_underscore c)) s.

(** Lower case in the words of the specification, written out without
  reference to the embedding of [str.lower]: a capital of the alphabet
  goes to the letter at the same place of the small alphabet; a
  Latin-1 capital (U+00C0..U+00DE without the multiplication sign
  U+00D7) goes to the code point 32 above; every other character
  stays. *)
Definition capitals : string := "ABCDEFGHIJKLMNOPQRSTUVWXYZ".

Definition small_letters : string := "abcdefghijklmnopqrstuvwxyz".

Fixpoint translate (from to : string) (c : ascii) : option ascii :=
match from, to with
| String a from', String b to' =>
    if decide (c = a) then Some b else translate from' to' c
| _, _ => None
end.

Definition lowercase (c : ascii) : ascii :=
match translate capitals small_letters c with
| Some d => d
| None =>
    let n := nat_of_ascii c in
    if ((192 <=? n)%nat && (n <=? 222)%nat && negb (n =? 215)%nat)
    then ascii_of_nat (n + 32)
    else c
end.

(** The package name in the words of the specification: every hyphen
  is replaced with an underscore, and the result is put in lower
  case. *)
Definition package_name_spec (s : string) : string :=
string_map lowercase (string_map hyphen_to_underscore s).

(** The derivation the constructor performs. *)
Definition derive (s : string) : string := Py.lower (Py.replace "-" "_" s).

(** A name that is one directory entry: not empty, not [.] or [..], and
  without a separator. *)
Definition simple_name (c : string) : bool :=
negb (bool_decide (c = EmptyString))
&& negb (bool_decide (c = "."))
&& negb (bool_decide (c = ".."))
&& negb (Py.contains_char "/" c).

(** [sub in s] *)
Fixpoint contains (sub s : string) : bool :=
Py.startswith sub s ||
match s with
| EmptyString => false
| String _ r => contains sub r
end.

(** [s.split("\n")] *)
Fixpoint lines (s : string) : list string :=
match s with
| EmptyString => [EmptyString]
| String c r =>
    if decide (c = ascii_of_nat 10) then EmptyString :: lines r
    else match lines r with
         | h :: t => String c h :: t
         | [] => [String c EmptyString]
         end
end.

Module Fs.
Import Os.

(** [f'] has everything [f] has, with the same kind: directories stay
    directories and files stay files (their content may change). *)
Definition extends (f f' : FS) : Prop :=
  forall q,
    match f !! q with
    | Some Dir => f' !! q = Some Dir
    | Some (File _) => exists c, f' !! q = Some (File c)
    | None => True
    end.

(** Every entry lies in a directory. *)
Definition tree_shaped (f : FS) : Prop :=
  forall q c, is_Some (f !! (q ++ [c])) -> is_dir f q = true.

Definition same_kind (o : option node) (n : node) : bool :=
  match o, n with
  | Some Dir, Dir => true
  | Some (File _), File _ => true
  | _, _ => false
  end.

(** Every entry of [tree] is present below [b] with its kind. *)
Definition fits (b : path) (tree : list (path * node)) (f : FS) : Prop :=
  Forall (fun e => is_dir f (removelast (b ++ e.1)) = true
                   /\ same_kind (node_at f (b ++ e.1)) e.2 = true) tree.

(** The names of the entries of directory [q]. *)
Definition listdir (f : FS) (q : path) : gset string :=
  list_to_set (omap (fun k => match last k with
                              | Some c => if decide (k = q ++ [c]) then Some c else None
                              | None => None
                              end) (elements (dom f))).

(** [os.path.join(b, c1, ..., cn)] *)
Definition join_all (b : string) (rel : list string) : string :=
  foldl Py.path_join b rel.

(** Two outcomes agree when they leave the same file system and fail
    together (the exceptions may name different paths). *)
Definition agree (o1 o2 : outcome) : Prop :=
  o1.1 = o2.1 /\ (o1.2 = None <-> o2.2 = None).

(** The paths of a tree with the kind of each entry. *)
Definition shape (tree : list (list string * node)) : list (list string * bool) :=
  map (fun e => (e.1, match e.2 with Dir => true | File _ => false end)) tree.

End Fs.

(** The emitted files as they are recorded: under the project
  directory [base]. *)
Definition emitted_under (base : string) (l : list (list string * string))
  : list (string * string) :=
map (fun e => (Fs.join_all base e.1, e.2)) l.

(** Two objects with the same configuration: they may differ in the
  project directory only, which depends on where they were made. *)
Definition same_config (o1 o2 : ProjectScaffolder) : Prop :=
project_name o1 = project_name o2 /\ package_name o1 = package_name o2
/\ use_tests o1 = use_tests o2 /\ use_docs o1 = use_docs o2
/\ use_venv o1 = use_venv o2 /\ author o1 = author o2
/\ email o1 = email o2 /\ description o1 = description o2.

(** The path that [main] checks, and the line it prints when the check
  fails. *)
Definition target (args : Args) (w : World) : string :=
Py.path_join (cwd w) (arg_project_name args).

Definition error_line (args : Args) : string :=
"Error: Directory " +:+ arg_project_name args +:+ " already exists.".

(* ================================================================== *)
(** ** Notions used in the proofs *)
(* ================================================================== *)

(** One character of the derivation. *)
Definition derive_char (c : ascii) : ascii := Py.lower_char (hyphen_to_underscore c).

(** The file-system calls raise [OSError]s and the builder's error,
  never [SystemExit]. *)
Definition os_error (o : Os.outcome) : Prop :=
forall e, o.2 = Some e -> is_SystemExit e = false.

(** A system call is calm when it only extends the file system, only
  appends to the output, leaves the rest of the world alone and does
  not raise [SystemExit]. *)
Definition quiet (w w' : World) : Prop :=
Fs.extends (fs w) (fs w') /\ cwd w' = cwd w /\ year w' = year w
/\ os_name w' = os_name w /\ (exists out, stdout w' = stdout w ++ out).

Definition no_exit {A} (r : exn + A) : Prop :=
match r with inl e => is_SystemExit e = false | inr _ => True end.

Definition calm {A} (m : M World A) : Prop :=
forall w, quiet w (m w).1 /\ no_exit (m w).2.

(** A method is steady when, in addition, it leaves the object as it
  found it. *)
Definition steady {A} (m : M Machine A) : Prop :=
forall st, self_obj (m st).1 = self_obj st
           /\ quiet (world st) (world (m st).1)
           /\ no_exit (m st).2.

Definition ok {A} (r : exn + A) : bool :=
match r with inr _ => true | inl _ => false end.

(** The project directory of the object resolves to [b], and [b] is a
  directory. *)
Definition at_base (b : list string) (st : Machine) : Prop :=
Os.resolve (fs (world st)) (base_dir (self_obj st)) = Some b
/\ Os.is_dir (fs (world st)) b = true.

(** Started on object [o] in year [y] with the project directory at
  [b], the method [m] leaves the file system that installing [tree]
  below [b] leaves, and it returns exactly when that installation
  succeeds and the method is not [broken] otherwise. *)
Definition realizes (o : ProjectScaffolder) (y : Z) (b : list string)
  (m : M Machine unit) (tree : list (list string * Os.node)) (broken : bool) : Prop :=
forall st, self_obj st = o -> year (world st) = y -> at_base b st ->
  fs (world (m st).1) = (Os.install EmptyString b tree (fs (world st))).1
  /\ (ok (m st).2 = true <->
      (Os.install EmptyString b tree (fs (world st))).2 = None /\ broken = false).

(** When [m] returns, it has emitted exactly the files of [l]. *)
Definition emits (o : ProjectScaffolder) (y : Z) {A} (m : M Machine A)
  (l : list (list string * string)) : Prop :=
forall st, self_obj st = o -> year (world st) = y -> ok (m st).2 = true ->
  emitted (world (m st).1) = emitted (world st) ++ emitted_under (base_dir o) l.

(** The state after the first two steps of [create_directory_structure]:
  the announcement is printed and [os.makedirs] has left [f]. *)
Definition announced (st : Machine) (f : gmap (list string) Os.node) : Machine :=
mkMachine (self_obj st)
  (set_fs f (add_stdout ("Creating project: " +:+ project_name (self_obj st)) (world st))).

(* ================================================================== *)
(** ** A sample environment, to run the program on concrete inputs *)
(* ================================================================== *)

Module Sample.

(** [str.title] on ASCII text: a letter that follows a letter is put
    in lower case, every other letter in upper case. *)
Definition is_letter (c : ascii) : bool :=
  let n := nat_of_ascii c in
  ((65 <=? n)%nat && (n <=? 90)%nat) || ((97 <=? n)%nat && (n <=? 122)%nat).

Definition upper_char (c : ascii) : ascii :=
  let n := nat_of_ascii c in
  if ((97 <=? n)%nat && (n <=? 122)%nat) then ascii_of_nat (n - 32) else c.

Fixpoint title_from (cased : bool) (s : string) : string :=
  match s with
  | EmptyString => EmptyString
  | String c r =>
      String (if cased then Py.lower_char c else upper_char c) (title_from (is_letter c) r)
  end.

Definition title (s : string) : string := title_from false s.

(** A small environment tree. *)
Definition payload : option (list (list string * Os.node)) :=
  Some [ (["pyvenv.cfg"], Os.File "include-system-site-packages = false");
         (["bin"], Os.Dir);
         (["bin"; "activate"], Os.File "# source this file") ].

Definition world_of (f : gmap (list string) Os.node) (c : string) (y : Z) : World :=
  mkWorld f c y "posix" [] [].

Definition args_of (name : string) (no_tests no_docs no_venv : bool) : Args :=
  mkArgs name no_tests no_docs no_venv "Ann" "ann@example.org" "A Python package".

(** An empty disk with the root as working directory, and a disk with
    a home directory as working directory. *)
Definition at_root (y : Z) : World := world_of ∅ "/" y.

Definition at_home (y : Z) : World := world_of (<[ ["home"] := Os.Dir ]> ∅) "/home" y.

(** The command lines used below. *)
Definition my_app : Args := args_of "My-App" false false false.

Definition bare (name : string) : Args := args_of name true true true.

End Sample.

Create HintDb steady discriminated.

(** Membership in a list that is written out. *)
Ltac in_list :=
cbn [app];
first [ apply list_elem_of_here
      | apply list_elem_of_further; in_list
      | apply elem_of_app; first [ left; in_list | right; in_list ] ].

(** A path that is in none of the listed places. *)
Ltac absent H :=
repeat (apply elem_of_cons in H as [H|H]; [first [discriminate H | by injection H]|]);
by apply elem_of_nil in H.

Ltac not_in_list :=
rewrite ?not_elem_of_cons; repeat split; first [done | apply not_elem_of_nil].

(* ================================================================== *)
(** ** The program *)
(* ================================================================== *)

Section Program.

(** [str.title] leaves the code points below 256 (the title case of
    U+00FF is U+0178), so it is a parameter of the embedding. *)
Variable str_title : string -> string.

(** What [venv.create] installs, see [Os.venv_create]. *)
Variable venv_payload : option (list (list string * Os.node)).

Import Py Os Fs.
Local Open Scope prog_scope.

Definition tq : string := dq +:+ dq +:+ dq.

(** [ProjectScaffolder.__init__] *)
Definition init (name : string) (tests docs venv : bool)
    (auth mail descr : string) : M World ProjectScaffolder :=
  c ← Sys.getcwd;
  ret {| project_name := name;
         use_tests := tests;
         use_docs := docs;
         use_venv := venv;
         author := auth;
         email := mail;
         description := descr;
         package_name := lower (replace "-" "_" name);
         base_dir := path_join c name |}.

Definition package_init_chunks (self : ProjectScaffolder) : list string :=
  [ tq +:+ "Main package for " +:+ project_name self +:+ "." +:+ tq +:+ nl +:+ nl;
    "__version__ = " +:+ dq +:+ "0.1.0" +:+ dq +:+ nl ].

Definition tests_init_chunks : list string :=
  [ tq +:+ "Test package for {self.package_name}." +:+ tq +:+ nl ].

Definition test_module_chunks (self : ProjectScaffolder) : list string :=
  [ tq +:+ "Tests for `" +:+ package_name self +:+ "` package." +:+ tq +:+ nl +:+ nl;
    "import pytest" +:+ nl;
    "from " +:+ package_name self +:+ " import __version__" +:+ nl +:+ nl +:+ nl;
    "def test_version():" +:+ nl;
    "    " +:+ tq +:+ "Test version is a string." +:+ tq +:+ nl;
    "    assert isinstance(__version__, str)" +:+ nl ].

Definition docs_index_chunks (self : ProjectScaffolder) : list string :=
  [ "# " +:+ str_title (project_name self) +:+ nl +:+ nl;
    description self +:+ nl +:+ nl;
    "## Installation" +:+ nl +:+ nl;
    "```bash" +:+ nl +:+ "pip install ." +:+ nl +:+ "```" +:+ nl +:+ nl;
    "## Usage" +:+ nl +:+ nl;
    "```python" +:+ nl;
    "import " +:+ package_name self +:+ nl;
    "```" +:+ nl ].

(** [ProjectScaffolder.create_directory_structure] *)
Definition create_directory_structure : M Machine unit :=
  self ← get_self;
  io (Sys.print ("Creating project: " +:+ project_name self));;
  io (Sys.makedirs (base_dir self));;
  let package_dir := path_join (base_dir self) (package_name self) in
  io (Sys.makedirs package_dir);;
  io (Sys.open_w (path_join package_dir "__init__.py") (package_init_chunks self));;
  when (use_tests self) (
    let tests_dir := path_join (base_dir self) "tests" in
    io (Sys.makedirs tests_dir);;
    io (Sys.open_w (path_join tests_dir "__init__.py") tests_init_chunks);;
    io (Sys.open_w (path_join tests_dir ("test_" +:+ package_name self +:+ ".py"))
          (test_module_chunks self)));;
  when (use_docs self) (
    let docs_dir := path_join (base_dir self) "docs" in
    io (Sys.makedirs docs_dir);;
    io (Sys.open_w (path_join docs_dir "index.md") (docs_index_chunks self))).

Definition setup_py_chunks (self : ProjectScaffolder) : list string :=
  [ "#!/usr/bin/env python3" +:+ nl +:+ nl;
    "from setuptools import setup, find_packages" +:+ nl +:+ nl;
    "with open(" +:+ dq +:+ "README.md" +:+ dq +:+ ", " +:+ dq +:+ "r" +:+ dq
      +:+ ", encoding=" +:+ dq +:+ "utf-8" +:+ dq +:+ ") as f:" +:+ nl;
    "    long_description = f.read()" +:+ nl +:+ nl;
    "setup(" +:+ nl;
    "    name=" +:+ dq +:+ project_name self +:+ dq +:+ "," +:+ nl;
    "    version=" +:+ dq +:+ "0.1.0" +:+ dq +:+ "," +:+ nl;
    "    author=" +:+ dq +:+ author self +:+ dq +:+ "," +:+ nl;
    "    author_email=" +:+ dq +:+ email self +:+ dq +:+ "," +:+ nl;
    "    description=" +:+ dq +:+ description self +:+ dq +:+ "," +:+ nl;
    "    long_description=long_description," +:+ nl;
    "    long_description_content_type=" +:+ dq +:+ "text/markdown" +:+ dq +:+ "," +:+ nl;
    "    url=" +:+ dq +:+ "https://github.com/" +:+ author self +:+ "/"
      +:+ project_name self +:+ dq +:+ "," +:+ nl;
    "    packages=find_packages()," +:+ nl;
    "    classifiers=[" +:+ nl;
    "        " +:+ dq +:+ "Programming Language :: Python :: 3" +:+ dq +:+ "," +:+ nl;
    "        " +:+ dq +:+ "License :: OSI Approved :: MIT License" +:+ dq +:+ "," +:+ nl;
    "        " +:+ dq +:+ "Operating System :: OS Independent" +:+ dq +:+ "," +:+ nl;
    "    ]," +:+ nl;
    "    python_requires=" +:+ dq +:+ ">=3.6" +:+ dq +:+ "," +:+ nl;
    "    install_requires=[" +:+ nl;
    "        # Add your dependencies here" +:+ nl;
    "    ]," +:+ nl;
    ")" +:+ nl ].

Definition pyproject_chunks : list string :=
  [ "[build-system]" +:+ nl;
    "requires = [" +:+ dq +:+ "setuptools>=42" +:+ dq +:+ ", " +:+ dq +:+ "wheel"
      +:+ dq +:+ "]" +:+ nl;
    "build-backend = " +:+ dq +:+ "setuptools.build_meta" +:+ dq +:+ nl ].

Definition setup_cfg_chunks : list string :=
  [ "[metadata]" +:+ nl;
    "name = {self.project_name}" +:+ nl;
    "description = {self.description}" +:+ nl;
    "author = {self.author}" +:+ nl;
    "license = MIT" +:+ nl;
    "license_file = LICENSE" +:+ nl;
    "platforms = unix, linux, osx, win32" +:+ nl;
    "classifiers =" +:+ nl;
    "    Programming Language :: Python :: 3" +:+ nl;
    "    Programming Language :: Python :: 3 :: Only" +:+ nl;
    "    Programming Language :: Python :: 3.6" +:+ nl;
    "    Programming Language :: Python :: 3.7" +:+ nl;
    "    Programming Language :: Python :: 3.8" +:+ nl;
    "    Programming Language :: Python :: 3.9" +:+ nl;
    nl +:+ "[options]" +:+ nl;
    "packages =" +:+ nl;
    "    {self.package_name}" +:+ nl;
    "install_requires =" +:+ nl;
    "python_requires = >=3.6" +:+ nl;
    "zip_safe = no" +:+ nl ].

(** [ProjectScaffolder.create_setup_files] *)
Definition create_setup_files : M Machine unit :=
  self ← get_self;
  io (Sys.open_w (path_join (base_dir self) "setup.py") (setup_py_chunks self));;
  io (Sys.open_w (path_join (base_dir self) "pyproject.toml") pyproject_chunks);;
  io (Sys.open_w (path_join (base_dir self) "setup.cfg") setup_cfg_chunks).

Definition readme_chunks (self : ProjectScaffolder) : list string :=
  [ "# " +:+ str_title (project_name self) +:+ nl +:+ nl;
    description self +:+ nl +:+ nl;
    "## Features" +:+ nl +:+ nl;
    "* TODO" +:+ nl +:+ nl;
    "## Installation" +:+ nl +:+ nl;
    "```bash" +:+ nl;
    "pip install ." +:+ nl;
    "```" +:+ nl +:+ nl;
    "## Quick Start" +:+ nl +:+ nl;
    "```python" +:+ nl;
    "import " +:+ package_name self +:+ nl +:+ nl;
    "# Add example usage" +:+ nl;
    "```" +:+ nl +:+ nl;
    "## License" +:+ nl +:+ nl;
    "This project is licensed under the MIT License - see the LICENSE file for details." +:+ nl ].

(** [ProjectScaffolder.create_readme] *)
Definition create_readme : M Machine unit :=
  self ← get_self;
  io (Sys.open_w (path_join (base_dir self) "README.md") (readme_chunks self)).

(** [ProjectScaffolder.get_current_year]: [datetime.now().year] *)
Definition get_current_year : M Machine Z := io Sys.now_year.

Definition license_chunks (self : ProjectScaffolder) (y : Z) : list string :=
  [ "MIT License" +:+ nl +:+ nl;
    "Copyright (c) " +:+ str_of_int y +:+ " " +:+ author self +:+ nl +:+ nl;
    "Permission is hereby granted, free of charge, to any person obtaining a copy" +:+ nl;
    "of this software and associated documentation files (the " +:+ dq +:+ "Software"
      +:+ dq +:+ "), to deal" +:+ nl;
    "in the Software without restriction, including without limitation the rights" +:+ nl;
    "to use, copy, modify, merge, publish, distribute, sublicense, and/or sell" +:+ nl;
    "copies of the Software, and to permit persons to whom the Software is" +:+ nl;
    "furnished to do so, subject to the following conditions:" +:+ nl +:+ nl;
    "The above copyright notice and this permission notice shall be included in all" +:+ nl;
    "copies or substantial portions of the Software." +:+ nl +:+ nl;
    "THE SOFTWARE IS PROVIDED " +:+ dq +:+ "AS IS" +:+ dq
      +:+ ", WITHOUT WARRANTY OF ANY KIND, EXPRESS OR" +:+ nl;
    "IMPLIED, INCLUDING BUT NOT LIMITED TO THE WARRANTIES OF MERCHANTABILITY," +:+ nl;
    "FITNESS FOR A PARTICULAR PURPOSE AND NONINFRINGEMENT. IN NO EVENT SHALL THE" +:+ nl;
    "AUTHORS OR COPYRIGHT HOLDERS BE LIABLE FOR ANY CLAIM, DAMAGES OR OTHER" +:+ nl;
    "LIABILITY, WHETHER IN AN ACTION OF CONTRACT, TORT OR OTHERWISE, ARISING FROM," +:+ nl;
    "OUT OF OR IN CONNECTION WITH THE SOFTWARE OR THE USE OR OTHER DEALINGS IN THE" +:+ nl;
    "SOFTWARE." +:+ nl ].

(** [ProjectScaffolder.create_license].  Reading the clock changes
    nothing and cannot fail, so it is done before the block. *)
Definition create_license : M Machine unit :=
  self ← get_self;
  y ← get_current_year;
  io (Sys.open_w (path_join (base_dir self) "LICENSE") (license_chunks self y)).

Definition gitignore_chunks : list string :=
  [ "# Byte-compiled / optimized / DLL files" +:+ nl;
    "__pycache__/" +:+ nl;
    "*.py[cod]" +:+ nl;
    "*$py.class" +:+ nl +:+ nl;
    "# Distribution / packaging" +:+ nl;
    "dist/" +:+ nl;
    "build/" +:+ nl;
    "*.egg-info/" +:+ nl +:+ nl;
    "# Unit test / coverage reports" +:+ nl;
    ".coverage" +:+ nl;
    "htmlcov/" +:+ nl;
    ".pytest_cache/" +:+ nl +:+ nl;
    "# Environments" +:+ nl;
    ".env" +:+ nl;
    ".venv" +:+ nl;
    "env/" +:+ nl;
    "venv/" +:+ nl;
    "ENV/" +:+ nl +:+ nl;
    "# IDE specific files" +:+ nl;
    ".idea/" +:+ nl;
    ".vscode/" +:+ nl;
    "*.swp" +:+ nl;
    "*.swo" +:+ nl ].

(** [ProjectScaffolder.create_gitignore] *)
Definition create_gitignore : M Machine unit :=
  self ← get_self;
  io (Sys.open_w (path_join (base_dir self) ".gitignore") gitignore_chunks).

(** [ProjectScaffolder.create_venv] *)
Definition create_venv : M Machine unit :=
  self ← get_self;
  when (use_venv self) (
    io (Sys.print "Creating virtual environment...");;
    io (Sys.venv_create venv_payload (path_join (base_dir self) "venv"));;
    io (Sys.print "Virtual environment created at ./venv");;
    io (Sys.print "Activate it with:");;
    name ← io Sys.get_os_name;
    if bool_decide (name = "nt")
    then io (Sys.print ("cd " +:+ project_name self +:+ " && .\venv\Scripts\activate"))
    else io (Sys.print ("cd " +:+ project_name self +:+ " && source venv/bin/activate"))).

Definition makefile_chunks : list string :=
  [ ".PHONY: clean clean-test clean-pyc clean-build help" +:+ nl +:+ nl;
    "help:" +:+ nl;
    tab +:+ "@echo " +:+ dq +:+ "clean - remove all build, test, coverage and Python artifacts" +:+ dq +:+ nl;
    tab +:+ "@echo " +:+ dq +:+ "clean-build - remove build artifacts" +:+ dq +:+ nl;
    tab +:+ "@echo " +:+ dq +:+ "clean-pyc - remove Python file artifacts" +:+ dq +:+ nl;
    tab +:+ "@echo " +:+ dq +:+ "clean-test - remove test and coverage artifacts" +:+ dq +:+ nl;
    tab +:+ "@echo " +:+ dq +:+ "lint - check style with flake8" +:+ dq +:+ nl;
    tab +:+ "@echo " +:+ dq +:+ "test - run tests quickly with the default Python" +:+ dq +:+ nl;
    tab +:+ "@echo " +:+ dq +:+ "coverage - check code coverage quickly with the default Python" +:+ dq +:+ nl;
    tab +:+ "@echo " +:+ dq +:+ "build - build the package" +:+ dq +:+ nl;
    tab +:+ "@echo " +:+ dq +:+ "install - install the package to the active Python site-packages" +:+ dq +:+ nl +:+ nl;
    "clean: clean-build clean-pyc clean-test" +:+ nl +:+ nl;
    "clean-build:" +:+ nl;
    tab +:+ "rm -fr build/" +:+ nl;
    tab +:+ "rm -fr dist/" +:+ nl;
    tab +:+ "rm -fr .eggs/" +:+ nl;
    tab +:+ "find . -name " +:+ dq +:+ "*.egg-info" +:+ dq +:+ " -exec rm -fr {} +" +:+ nl;
    tab +:+ "find . -name " +:+ dq +:+ "*.egg" +:+ dq +:+ " -exec rm -f {} +" +:+ nl +:+ nl;
    "clean-pyc:" +:+ nl;
    tab +:+ "find . -name " +:+ dq +:+ "*.pyc" +:+ dq +:+ " -exec rm -f {} +" +:+ nl;
    tab +:+ "find . -name " +:+ dq +:+ "*.pyo" +:+ dq +:+ " -exec rm -f {} +" +:+ nl;
    tab +:+ "find . -name " +:+ dq +:+ "*~" +:+ dq +:+ " -exec rm -f {} +" +:+ nl;
    tab +:+ "find . -name " +:+ dq +:+ "__pycache__" +:+ dq +:+ " -exec rm -fr {} +" +:+ nl +:+ nl;
    "clean-test:" +:+ nl;
    tab +:+ "rm -fr .coverage" +:+ nl;
    tab +:+ "rm -fr htmlcov/" +:+ nl;
    tab +:+ "rm -fr .pytest_cache" +:+ nl +:+ nl;
    "lint:" +:+ nl;
    tab +:+ "flake8 {self.package_name} tests" +:+ nl +:+ nl;
    "test:" +:+ nl;
    tab +:+ "pytest" +:+ nl +:+ nl;
    "coverage:" +:+ nl;
    tab +:+ "coverage run --source {self.package_name} -m pytest" +:+ nl;
    tab +:+ "coverage report -m" +:+ nl;
    tab +:+ "coverage html" +:+ nl +:+ nl;
    "build:" +:+ nl;
    tab +:+ "python setup.py sdist bdist_wheel" +:+ nl +:+ nl;
    "install:" +:+ nl;
    tab +:+ "pip install ." +:+ nl ].

(** [ProjectScaffolder.create_makefile] *)
Definition create_makefile : M Machine unit :=
  self ← get_self;
  io (Sys.open_w (path_join (base_dir self) "Makefile") makefile_chunks).

(** [ProjectScaffolder.scaffold] *)
Definition scaffold : M Machine unit :=
  create_directory_structure;;
  create_setup_files;;
  create_readme;;
  create_license;;
  create_gitignore;;
  create_makefile;;
  self ← get_self;
  when (use_venv self) create_venv;;
  self ← get_self;
  io (Sys.print (nl +:+ "Project " +:+ project_name self +:+ " created successfully!"));;
  io (Sys.print ("Get started with: cd " +:+ project_name self)).

(** The object that [main] constructs in world [w]. *)
Definition scaffolder_for (args : Args) (w : World) : ProjectScaffolder :=
  match init (arg_project_name args)
             (negb (arg_no_tests args))
             (negb (arg_no_docs args))
             (negb (arg_no_venv args))
             (arg_author args) (arg_email args) (arg_description args) w with
  | (_, inr obj) => obj
  | (_, inl _) => mkScaffolder EmptyString false false false EmptyString
                    EmptyString EmptyString EmptyString EmptyString
  end.

(** [main], from the point where [parse_args] has returned. *)
Definition main (args : Args) : M World unit :=
  c ← Sys.getcwd;
  e ← Sys.path_exists (path_join c (arg_project_name args));
  (if e
   then Sys.print ("Error: Directory " +:+ arg_project_name args +:+ " already exists.");;
        Sys.exit 1
   else ret tt);;
  scaffolder ← init (arg_project_name args)
                    (negb (arg_no_tests args))
                    (negb (arg_no_docs args))
                    (negb (arg_no_venv args))
                    (arg_author args) (arg_email args) (arg_description args);
  call scaffolder scaffold.

(** The process: the world it leaves behind and its exit status. *)
Definition run_main (args : Args) (w : World) : World * Z :=
  match main args w with
  | (w', r) => (w', exit_status r)
  end.

(** The tree that [scaffold] builds below the project directory, as a
    list of entries in the order the calls are made; the paths are
    relative to the project directory. *)

Definition text (chunks : list string) : node := File (Py.concat chunks).

Definition structure_entries (self : ProjectScaffolder) : list (path * node) :=
  [ ([package_name self], Dir);
    ([package_name self; "__init__.py"], text (package_init_chunks self)) ]
  ++ (if use_tests self
      then [ (["tests"], Dir);
             (["tests"; "__init__.py"], text tests_init_chunks);
             (["tests"; "test_" +:+ package_name self +:+ ".py"],
              text (test_module_chunks self)) ]
      else [])
  ++ (if use_docs self
      then [ (["docs"], Dir);
             (["docs"; "index.md"], text (docs_index_chunks self)) ]
      else []).

Definition top_file_entries (self : ProjectScaffolder) (y : Z) : list (path * node) :=
  [ (["setup.py"], text (setup_py_chunks self));
    (["pyproject.toml"], text pyproject_chunks);
    (["setup.cfg"], text setup_cfg_chunks);
    (["README.md"], text (readme_chunks self));
    (["LICENSE"], text (license_chunks self y));
    ([".gitignore"], text gitignore_chunks);
    (["Makefile"], text makefile_chunks) ].

Definition below (c : string) (tree : list (path * node)) : list (path * node) :=
  map (fun e => (c :: e.1, e.2)) tree.

Definition venv_entries (self : ProjectScaffolder) : list (path * node) :=
  if use_venv self
  then (["venv"], Dir) :: match venv_payload with
                          | Some tree => below "venv" tree
                          | None => []
                          end
  else [].

Definition plan (self : ProjectScaffolder) (y : Z) : list (path * node) :=
  structure_entries self ++ top_file_entries self y ++ venv_entries self.

(** The text files of the project, as paths relative to the project
    directory. *)
Definition text_files (self : ProjectScaffolder) : list path :=
  [ [package_name self; "__init__.py"] ]
  ++ (if use_tests self
      then [ ["tests"; "__init__.py"];
             ["tests"; "test_" +:+ package_name self +:+ ".py"] ]
      else [])
  ++ (if use_docs self then [ ["docs"; "index.md"] ] else [])
  ++ [ ["setup.py"]; ["pyproject.toml"]; ["setup.cfg"]; ["README.md"];
       ["LICENSE"]; [".gitignore"]; ["Makefile"] ].

(** The names that the project directory holds. *)
Definition top_names (self : ProjectScaffolder) : list string :=
  [ package_name self; "setup.py"; "pyproject.toml"; "setup.cfg"; "README.md";
    "LICENSE"; ".gitignore"; "Makefile" ]
  ++ (if use_tests self then ["tests"] else [])
  ++ (if use_docs self then ["docs"] else [])
  ++ (if use_venv self then ["venv"] else []).

(** The text files that [scaffold] emits for an object in year [y]: the
    path relative to the project directory and the text, in the order of
    the [with open] blocks. *)

Definition structure_emission (self : ProjectScaffolder) : list (list string * string) :=
  [ ([package_name self; "__init__.py"], Py.concat (package_init_chunks self)) ]
  ++ (if use_tests self
      then [ (["tests"; "__init__.py"], Py.concat tests_init_chunks);
             (["tests"; "test_" +:+ package_name self +:+ ".py"],
              Py.concat (test_module_chunks self)) ]
      else [])
  ++ (if use_docs self
      then [ (["docs"; "index.md"], Py.concat (docs_index_chunks self)) ]
      else []).

Definition top_emission (self : ProjectScaffolder) (y : Z) : list (list string * string) :=
  [ (["setup.py"], Py.concat (setup_py_chunks self));
    (["pyproject.toml"], Py.concat pyproject_chunks);
    (["setup.cfg"], Py.concat setup_cfg_chunks);
    (["README.md"], Py.concat (readme_chunks self));
    (["LICENSE"], Py.concat (license_chunks self y));
    ([".gitignore"], Py.concat gitignore_chunks);
    (["Makefile"], Py.concat makefile_chunks) ].

Definition emission (self : ProjectScaffolder) (y : Z) : list (list string * string) :=
  structure_emission self ++ top_emission self y.

(** The three texts that do not depend on the object. *)
Definition setup_cfg_text : string := Py.concat setup_cfg_chunks.
Definition makefile_text : string := Py.concat makefile_chunks.
Definition tests_init_text : string := Py.concat tests_init_chunks.

(** What [create_directory_structure] does after it has made the
    project directory. *)
Definition structure_rest (self : ProjectScaffolder) : M Machine unit :=
  (let package_dir := Py.path_join (base_dir self) (package_name self) in
   io (Sys.makedirs package_dir);;
   io (Sys.open_w (Py.path_join package_dir "__init__.py") (package_init_chunks self));;
   when (use_tests self) (
     let tests_dir := Py.path_join (base_dir self) "tests" in
     io (Sys.makedirs tests_dir);;
     io (Sys.open_w (Py.path_join tests_dir "__init__.py") tests_init_chunks);;
     io (Sys.open_w (Py.path_join tests_dir ("test_" +:+ package_name self +:+ ".py"))
           (test_module_chunks self)));;
   when (use_docs self) (
     let docs_dir := Py.path_join (base_dir self) "docs" in
     io (Sys.makedirs docs_dir);;
     io (Sys.open_w (Py.path_join docs_dir "index.md") (docs_index_chunks self))))%prog.

(** What [scaffold] does after [create_directory_structure]. *)
Definition after_structure : M Machine unit :=
  (create_setup_files;;
   create_readme;;
   create_license;;
   create_gitignore;;
   create_makefile;;
   self ← get_self;
   when (use_venv self) create_venv;;
   self ← get_self;
   io (Sys.print (Py.nl +:+ "Project " +:+ project_name self +:+ " created successfully!"));;
   io (Sys.print ("Get started with: cd " +:+ project_name self)))%prog.

(** [venv.create] is asked for and its pip bootstrap fails. *)
Definition broken (self : ProjectScaffolder) : bool :=
  use_venv self && bool_decide (venv_payload = None).

(** The lines that [create_venv] prints when [os.name] is [name]. *)
Definition venv_lines (self : ProjectScaffolder) (name : string) : list string :=
  if use_venv self
  then [ "Creating virtual environment...";
         "Virtual environment created at ./venv";
         "Activate it with:";
         if bool_decide (name = "nt")
         then "cd " +:+ project_name self +:+ " && .\venv\Scripts\activate"
         else "cd " +:+ project_name self +:+ " && source venv/bin/activate" ]
  else [].

(** The lines that a run of [scaffold] prints. *)
Definition printed (self : ProjectScaffolder) (name : string) : list string :=
  [ "Creating project: " +:+ project_name self ]
  ++ venv_lines self name
  ++ [ Py.nl +:+ "Project " +:+ project_name self +:+ " created successfully!";
       "Get started with: cd " +:+ project_name self ].

(** When [m] returns, it has printed exactly the lines of [l]. *)
Definition prints (o : ProjectScaffolder) (name : string) {A} (m : M Machine A)
    (l : list string) : Prop :=
  forall st, self_obj st = o -> os_name (world st) = name -> ok (m st).2 = true ->
    stdout (world (m st).1) = stdout (world st) ++ l.

(** The system calls of a run that change the world, as data. *)
Inductive op : Type :=
| Print (line : string)
| Makedirs (s : string)
| OpenW (s : string) (chunks : list string)
| VenvCreate (s : string).

Definition perform (c : op) : M World unit :=
  match c with
  | Print line => Sys.print line
  | Makedirs s => Sys.makedirs s
  | OpenW s chunks => Sys.open_w s chunks
  | VenvCreate s => Sys.venv_create venv_payload s
  end.

(** The calls of [ops] one after the other; the first one that raises
    ends the sequence with its exception. *)
Fixpoint run (ops : list op) : M World unit :=
  match ops with
  | [] => ret tt
  | c :: rest => perform c;; run rest
  end.

(** Every call of [ops] returns when they are made one after the
    other from [w]. *)
Fixpoint all_succeed (ops : list op) (w : World) : bool :=
  match ops with
  | [] => true
  | c :: rest =>
      match perform c w with
      | (w', inr _) => all_succeed rest w'
      | (_, inl _) => false
      end
  end.

Definition is_print (c : op) : bool :=
  match c with Print _ => true | _ => false end.

Definition is_file_operation (c : op) : bool :=
  match c with Makedirs _ | OpenW _ _ => true | _ => false end.

(** The calls that [scaffold] makes for an object, in year [y] and
    with [os.name] equal to [name], when none of them raises. *)
Definition structure_script (self : ProjectScaffolder) : list op :=
  let package_dir := path_join (base_dir self) (package_name self) in
  let tests_dir := path_join (base_dir self) "tests" in
  let docs_dir := path_join (base_dir self) "docs" in
  [ Makedirs (base_dir self);
    Makedirs package_dir;
    OpenW (path_join package_dir "__init__.py") (package_init_chunks self) ]
  ++ (if use_tests self
      then [ Makedirs tests_dir;
             OpenW (path_join tests_dir "__init__.py") tests_init_chunks;
             OpenW (path_join tests_dir ("test_" +:+ package_name self +:+ ".py"))
               (test_module_chunks self) ]
      else [])
  ++ (if use_docs self
      then [ Makedirs docs_dir;
             OpenW (path_join docs_dir "index.md") (docs_index_chunks self) ]
      else []).

Definition top_script (self : ProjectScaffolder) (y : Z) : list op :=
  [ OpenW (path_join (base_dir self) "setup.py") (setup_py_chunks self);
    OpenW (path_join (base_dir self) "pyproject.toml") pyproject_chunks;
    OpenW (path_join (base_dir self) "setup.cfg") setup_cfg_chunks;
    OpenW (path_join (base_dir self) "README.md") (readme_chunks self);
    OpenW (path_join (base_dir self) "LICENSE") (license_chunks self y);
    OpenW (path_join (base_dir self) ".gitignore") gitignore_chunks;
    OpenW (path_join (base_dir self) "Makefile") makefile_chunks ].

Definition venv_script (self : ProjectScaffolder) (name : string) : list op :=
  if use_venv self
  then [ Print "Creating virtual environment...";
         VenvCreate (path_join (base_dir self) "venv");
         Print "Virtual environment created at ./venv";
         Print "Activate it with:";
         Print (if bool_decide (name = "nt")
                then "cd " +:+ project_name self +:+ " && .\venv\Scripts\activate"
                else "cd " +:+ project_name self +:+ " && source venv/bin/activate") ]
  else [].

Definition script (self : ProjectScaffolder) (y : Z) (name : string) : list op :=
  Print ("Creating project: " +:+ project_name self)
  :: structure_script self
  ++ top_script self y
  ++ venv_script self name
  ++ [ Print (nl +:+ "Project " +:+ project_name self +:+ " created successfully!");
       Print ("Get started with: cd " +:+ project_name self) ].

(** A method makes the calls of [ops]: its outcome is the outcome of
    their sequence. *)
Definition performs (o : ProjectScaffolder) (y : Z) (name : string)
    (m : M Machine unit) (ops : list op) : Prop :=
  forall st, self_obj st = o -> year (world st) = y -> os_name (world st) = name ->
    m st = io (run ops) st.






(* ================================================================== *)
(** ** The built-ins on sample inputs *)
(* ================================================================== *)

Example replace_hyphens : Py.replace "-" "_" "My-Cool-App" = "My_Cool_App".
Proof. reflexivity. Qed.

Example replace_longer : Py.replace "aa" "b" "aaa" = "ba".
Proof. reflexivity. Qed.

Example replace_empty_old : Py.replace EmptyString "-" "ab" = "-a-b-".
Proof. reflexivity. Qed.

Example lower_mixed : Py.lower "My_Cool_App2" = "my_cool_app2".
Proof. reflexivity. Qed.

Example str_of_year : Py.str_of_int 2024 = "2024".
Proof. reflexivity. Qed.

Example join_plain : Py.path_join "/home/u" "proj" = "/home/u/proj".
Proof. reflexivity. Qed.

Example join_absolute : Py.path_join "/home/u" "/tmp/x" = "/tmp/x".
Proof. reflexivity. Qed.

Example join_root : Py.path_join "/" "proj" = "/proj".
Proof. reflexivity. Qed.

(* ================================================================== *)
(** ** Facts about the string built-ins *)
(* ================================================================== *)

Section StringFacts.

Lemma app_String (c : ascii) (a b : string) :
  String c a +:+ b = String c (a +:+ b).
Proof. reflexivity. Qed.

Lemma app_empty_l (b : string) : EmptyString +:+ b = b.
Proof. reflexivity. Qed.

Lemma app_empty_r (a : string) : a +:+ EmptyString = a.
Proof. induction a as [|c a IH]; [done|]. by rewrite app_String, IH. Qed.

Lemma app_assoc_str (a b c : string) : (a +:+ b) +:+ c = a +:+ (b +:+ c).
Proof. induction a as [|x a IH]; [done|]. by rewrite !app_String, IH. Qed.

Lemma app_nonempty_r (a : string) (c : ascii) (b : string) :
  a +:+ String c b <> EmptyString.
Proof. by destruct a. Qed.

(** Replacing the one-character string [-] by [_] acts on each
    character. *)
Lemma replace_hyphen (s : string) :
  Py.replace "-" "_" s = string_map hyphen_to_underscore s.
Proof.
  unfold Py.replace.
  induction s as [|c r IH]; [done|].
  cbn [Py.replace_from Py.startswith string_map].
  unfold hyphen_to_underscore at 1.
  destruct (decide ("-"%char = c)) as [<-|Hne].
  - rewrite decide_True by done. cbn. by rewrite IH.
  - rewrite decide_False by congruence. by rewrite IH.
Qed.

Lemma lower_string_map (s : string) : Py.lower s = string_map Py.lower_char s.
Proof. induction s as [|c r IH]; [done|]. cbn. by rewrite IH. Qed.

Lemma string_map_compose (f g : ascii -> ascii) (s : string) :
  string_map f (string_map g s) = string_map (fun c => f (g c)) s.
Proof. induction s as [|c r IH]; [done|]. cbn. by rewrite IH. Qed.

Lemma string_map_ext (f g : ascii -> ascii) (s : string) :
  (forall c, f c = g c) -> string_map f s = string_map g s.
Proof. intros H. induction s as [|c r IH]; [done|]. cbn. by rewrite H, IH. Qed.

Lemma derive_refines (s : string) : derive s = derive_spec s.
Proof.
  unfold derive, derive_spec.
  by rewrite replace_hyphen, lower_string_map, string_map_compose.
Qed.

(** Facts about single characters, by enumeration of the 256 cases. *)
Lemma lower_char_idem (c : ascii) : Py.lower_char (Py.lower_char c) = Py.lower_char c.
Proof. by destruct c as [[] [] [] [] [] [] [] []]. Qed.

Lemma lower_char_hyphen (c : ascii) : Py.lower_char c = "-"%char -> c = "-"%char.
Proof. by destruct c as [[] [] [] [] [] [] [] []]. Qed.

Lemma lower_char_slash (c : ascii) : Py.lower_char c = "/"%char -> c = "/"%char.
Proof. by destruct c as [[] [] [] [] [] [] [] []]. Qed.

Lemma lower_char_dot (c : ascii) : Py.lower_char c = "."%char -> c = "."%char.
Proof. by destruct c as [[] [] [] [] [] [] [] []]. Qed.

Lemma derive_char_idem (c : ascii) : derive_char (derive_char c) = derive_char c.
Proof. by destruct c as [[] [] [] [] [] [] [] []]. Qed.

Lemma derive_char_not_hyphen (c : ascii) : derive_char c <> "-"%char.
Proof. by destruct c as [[] [] [] [] [] [] [] []]. Qed.

Lemma derive_char_slash (c : ascii) : derive_char c = "/"%char -> c = "/"%char.
Proof. by destruct c as [[] [] [] [] [] [] [] []]. Qed.

Lemma derive_char_dot (c : ascii) : derive_char c = "."%char -> c = "."%char.
Proof. by destruct c as [[] [] [] [] [] [] [] []]. Qed.

Lemma derive_idem (s : string) : derive (derive s) = derive s.
Proof.
  rewrite !derive_refines. unfold derive_spec.
  rewrite string_map_compose.
  apply string_map_ext. intros c. apply derive_char_idem.
Qed.

Lemma derive_no_hyphen (s : string) : Py.contains_char "-" (derive s) = false.
Proof.
  rewrite derive_refines. unfold derive_spec.
  induction s as [|c r IH]; [done|].
  cbn [string_map Py.contains_char].
  destruct (decide _) as [Hd|_]; [|done].
  by apply derive_char_not_hyphen in Hd.
Qed.

Lemma contains_char_app (c : ascii) (a b : string) :
  Py.contains_char c (a +:+ b) = Py.contains_char c a || Py.contains_char c b.
Proof.
  induction a as [|x a IH]; [done|].
  rewrite app_String. cbn [Py.contains_char]. by destruct (decide (x = c)).
Qed.

Lemma simple_name_spec (c : string) :
  simple_name c = true <->
  c <> EmptyString /\ c <> "." /\ c <> ".." /\ Py.contains_char "/" c = false.
Proof.
  unfold simple_name.
  rewrite !andb_true_iff, !negb_true_iff, !bool_decide_eq_false. tauto.
Qed.

Lemma string_map_no_slash (s : string) :
  Py.contains_char "/" s = false ->
  Py.contains_char "/" (string_map derive_char s) = false.
Proof.
  induction s as [|c r IH]; [done|].
  cbn [string_map Py.contains_char].
  destruct (decide (c = "/"%char)) as [->|Hc]; [done|].
  intros Hr.
  destruct (decide (derive_char c = "/"%char)) as [Hd|_]; [|by apply IH].
  by apply derive_char_slash in Hd.
Qed.

Lemma derive_simple (s : string) : simple_name s = true -> simple_name (derive s) = true.
Proof.
  rewrite derive_refines. unfold derive_spec.
  change (fun c => Py.lower_char (hyphen_to_underscore c)) with derive_char.
  rewrite !simple_name_spec. intros (H0 & H1 & H2 & H3).
  repeat split.
  - by destruct s.
  - destruct s as [|c [|c' r]]; try done.
    cbn. intros [= Hc]. apply derive_char_dot in Hc. by subst.
  - destruct s as [|c [|c' [|c'' r]]]; try done.
    cbn. intros [= Hc Hc']. apply derive_char_dot in Hc, Hc'. by subst.
  - by apply string_map_no_slash.
Qed.

End StringFacts.

(* ================================================================== *)
(** ** Facts about the file system *)
(* ================================================================== *)

Section FsFacts.

Import Os Fs.
Implicit Types (f : gmap (list string) node) (q b cur : list string) (n : node).

Lemma node_at_snoc f q c : node_at f (q ++ [c]) = f !! (q ++ [c]).
Proof. by destruct q. Qed.

Lemma node_at_ne f q : q <> [] -> node_at f q = f !! q.
Proof. by destruct q. Qed.

Lemma removelast_snoc q c : removelast (q ++ [c]) = q.
Proof. by rewrite removelast_app, app_nil_r. Qed.

Lemma extends_refl f : extends f f.
Proof. intros q. destruct (f !! q) as [[c|]|] eqn:E; eauto. Qed.

Lemma extends_trans f1 f2 f3 : extends f1 f2 -> extends f2 f3 -> extends f1 f3.
Proof.
  intros H12 H23 q. specialize (H12 q). specialize (H23 q).
  destruct (f1 !! q) as [[c|]|]; [| |done].
  - destruct H12 as [c' E]. by rewrite E in H23.
  - by rewrite H12 in H23.
Qed.

Lemma extends_insert f q n :
  (f !! q = None \/ same_kind (f !! q) n = true) -> extends f (<[q := n]> f).
Proof.
  intros H q'. destruct (decide (q = q')) as [<-|Hne].
  - rewrite lookup_insert_eq.
    destruct (f !! q) as [[c|]|] eqn:E; [| |done]; destruct H as [H|H]; try done;
      destruct n; try done; eauto.
  - rewrite lookup_insert_ne by done.
    destruct (f !! q') as [[c|]|]; eauto.
Qed.

Lemma extends_node_at f f' q :
  extends f f' ->
  match node_at f q with
  | Some Dir => node_at f' q = Some Dir
  | Some (File _) => exists c, node_at f' q = Some (File c)
  | None => True
  end.
Proof. intros H. destruct q; [done|]. apply H. Qed.

Lemma extends_is_dir f f' q : extends f f' -> is_dir f q = true -> is_dir f' q = true.
Proof.
  intros H. apply (extends_node_at _ _ q) in H. unfold is_dir.
  destruct (node_at f q) as [[c|]|]; try done. by rewrite H.
Qed.

Lemma extends_is_Some f f' q :
  extends f f' -> is_Some (node_at f q) -> is_Some (node_at f' q).
Proof.
  intros H. apply (extends_node_at _ _ q) in H.
  destruct (node_at f q) as [[c|]|]; intros [x Hx]; [| |done].
  - destruct H as [c' ->]. eauto.
  - rewrite H. eauto.
Qed.

Lemma extends_same_kind f f' q n :
  extends f f' -> same_kind (node_at f q) n = true -> same_kind (node_at f' q) n = true.
Proof.
  intros H. apply (extends_node_at _ _ q) in H.
  destruct (node_at f q) as [[c|]|]; try done.
  - destruct H as [c' ->]. done.
  - by rewrite H.
Qed.

Lemma walk_mono f f' cur l q :
  extends f f' -> walk f cur l = Some q -> walk f' cur l = Some q.
Proof.
  intros H. revert cur. induction l as [|c l IH]; intros cur; [done|].
  cbn [walk]. destruct (is_dir f cur) eqn:E; [|done].
  rewrite (extends_is_dir _ _ _ H E).
  destruct (stays c); [apply IH|]. destruct (bool_decide _); apply IH.
Qed.

Lemma walk_app f cur l1 l2 :
  walk f cur (l1 ++ l2) = walk f cur l1 ≫= fun q => walk f q l2.
Proof.
  revert cur. induction l1 as [|c l1 IH]; intros cur; [done|].
  cbn [walk app]. destruct (is_dir f cur); [|done].
  destruct (stays c); [apply IH|]. destruct (bool_decide _); apply IH.
Qed.

Lemma resolve_mono f f' s q : extends f f' -> resolve f s = Some q -> resolve f' s = Some q.
Proof. unfold resolve. intros H. destruct (decide _); [done|]. by apply walk_mono. Qed.

Lemma path_exists_mono f f' s :
  extends f f' -> path_exists f s = true -> path_exists f' s = true.
Proof.
  unfold path_exists. intros H. destruct (resolve f s) as [q|] eqn:E; [|done].
  rewrite (resolve_mono _ _ _ _ H E).
  rewrite !bool_decide_eq_true. by apply extends_is_Some.
Qed.

Lemma path_isdir_mono f f' s :
  extends f f' -> path_isdir f s = true -> path_isdir f' s = true.
Proof.
  unfold path_isdir. intros H. destruct (resolve f s) as [q|] eqn:E; [|done].
  rewrite (resolve_mono _ _ _ _ H E). by apply extends_is_dir.
Qed.

Lemma path_isdir_exists f s : path_isdir f s = true -> path_exists f s = true.
Proof.
  unfold path_isdir, path_exists, is_dir. destruct (resolve f s) as [q|]; [|done].
  destruct (node_at f q) as [[c|]|]; try done; intros _; apply bool_decide_eq_true; eauto.
Qed.

(** *** os.makedirs *)

Lemma makedirs_walk_extends s f cur l : extends f (makedirs_walk s f cur l).1.
Proof.
  revert f cur. induction l as [|c l IH]; intros f cur; cbn [makedirs_walk].
  - apply extends_refl.
  - destruct (is_dir f cur); [|apply extends_refl].
    destruct (stays c); [apply IH|]. destruct (bool_decide _); [apply IH|].
    destruct (node_at f (cur ++ [c])) eqn:E; [apply IH|].
    eapply extends_trans; [|apply IH].
    apply extends_insert. left. by rewrite <- node_at_snoc.
Qed.

Lemma makedirs_walk_post s f cur l f' :
  makedirs_walk s f cur l = (f', None) ->
  exists q, walk f' cur l = Some q /\ is_dir f' q = true.
Proof.
  revert f cur. induction l as [|c l IH]; intros f cur Hm.
  - cbn in *. destruct (is_dir f cur) eqn:E; [|done].
    injection Hm as <-. eauto.
  - assert (extends f f') as Hext.
    { pose proof (makedirs_walk_extends s f cur (c :: l)) as X. by rewrite Hm in X. }
    cbn [makedirs_walk walk] in *.
    destruct (is_dir f cur) eqn:E; [|done].
    rewrite (extends_is_dir _ _ _ Hext E).
    destruct (stays c); [by eapply IH|]. destruct (bool_decide _); [by eapply IH|].
    destruct (node_at f (cur ++ [c])); by eapply IH.
Qed.

Lemma makedirs_extends s f : extends f (makedirs s f).1.
Proof.
  unfold makedirs. destruct (decide _); [apply extends_refl|apply makedirs_walk_extends].
Qed.

Lemma makedirs_post s f f' :
  makedirs s f = (f', None) -> exists q, resolve f' s = Some q /\ is_dir f' q = true.
Proof.
  unfold makedirs, resolve. destruct (decide _); [done|]. apply makedirs_walk_post.
Qed.

(** On a path that is a directory already, nothing happens. *)
Lemma makedirs_walk_existing s f cur l q :
  walk f cur l = Some q -> is_dir f q = true -> makedirs_walk s f cur l = (f, None).
Proof.
  revert cur. induction l as [|c l IH]; intros cur; cbn [walk makedirs_walk].
  - intros [= ->] ->. done.
  - destruct (is_dir f cur); [|done].
    destruct (stays c); [apply IH|]. destruct (bool_decide _); [apply IH|].
    intros Hw Hq. destruct (node_at f (cur ++ [c])) eqn:E; [by eapply IH|].
    exfalso. destruct l as [|c' l]; cbn [walk] in Hw.
    + injection Hw as <-. unfold is_dir in Hq. by rewrite E in Hq.
    + unfold is_dir in Hw. by rewrite E in Hw.
Qed.

Lemma makedirs_existing s f : path_isdir f s = true -> makedirs s f = (f, None).
Proof.
  unfold path_isdir, makedirs, resolve. destruct (decide _); [done|].
  destruct (walk f [] (components s)) as [q|] eqn:E; [|done].
  by apply makedirs_walk_existing.
Qed.

(** *** open(..., "w") *)

Lemma write_file_extends s c f : extends f (write_file s c f).1.
Proof.
  unfold write_file. destruct (resolve f s) as [q|] eqn:E; [|apply extends_refl].
  destruct (node_at f q) as [[c'|]|] eqn:En; cbn; try apply extends_refl;
    apply extends_insert; destruct q; try done; cbn in En; rewrite En; auto.
Qed.

Lemma write_file_read s c f f' :
  write_file s c f = (f', None) -> read_file f' s = Some c.
Proof.
  intros Hw. assert (extends f f') as Hext.
  { pose proof (write_file_extends s c f) as X. by rewrite Hw in X. }
  unfold write_file in Hw. unfold read_file.
  destruct (resolve f s) as [q|] eqn:E; [|done].
  rewrite (resolve_mono _ _ _ _ Hext E).
  destruct q as [|x q]; [done|].
  assert (f' = <[x :: q := File c]> f) as ->.
  { destruct (node_at f (x :: q)) as [[?|]|]; congruence. }
  cbn. by rewrite lookup_insert_eq.
Qed.

Lemma write_file_over s c0 c f :
  read_file f s = Some c0 -> exists f', write_file s c f = (f', None).
Proof.
  unfold read_file, write_file. destruct (resolve f s) as [q|]; [|done].
  destruct (node_at f q) as [[?|]|]; [eauto|done|done].
Qed.

(** *** venv.create *)

Lemma put_extends s q n f : extends f (put s q n f).1.
Proof.
  unfold put. destruct (is_dir f (removelast q)); [|apply extends_refl].
  destruct n as [c|], (node_at f q) as [[c'|]|] eqn:E; cbn; try apply extends_refl;
    apply extends_insert; destruct q; try done; cbn in E; rewrite E; auto.
Qed.

Lemma install_extends s b tree f : extends f (install s b tree f).1.
Proof.
  revert f. induction tree as [|[rel n] tree IH]; intros f; cbn [install].
  - apply extends_refl.
  - pose proof (put_extends s (b ++ rel) n f) as X.
    destruct (put s (b ++ rel) n f) as [f1 [e|]]; [done|].
    eapply extends_trans; [exact X|apply IH].
Qed.

Lemma venv_create_extends payload s f : extends f (venv_create payload s f).1.
Proof.
  unfold venv_create. pose proof (makedirs_extends s f) as X.
  destruct (makedirs s f) as [f1 [e|]]; [done|].
  destruct payload as [tree|]; [|done].
  destruct (resolve f1 s) as [q|]; [|done].
  eapply extends_trans; [exact X|apply install_extends].
Qed.

End FsFacts.

Section JoinFacts.

Import Os Fs.
Implicit Types (f : gmap (list string) node) (q b cur : list string) (n : node).

Lemma components_nonempty (s : string) : components s <> [].
Proof.
  destruct s as [|c r]; [done|]. cbn.
  destruct (decide _); [done|]. by destruct (components r).
Qed.

Lemma components_app_slash (a b : string) :
  components (a +:+ "/" +:+ b) = components a ++ components b.
Proof.
  induction a as [|c a IH]; [done|].
  rewrite app_String. cbn [components].
  destruct (decide _); [by rewrite IH|].
  rewrite IH. pose proof (components_nonempty a).
  by destruct (components a).
Qed.

Lemma components_simple (c : string) :
  Py.contains_char "/" c = false -> components c = [c].
Proof.
  induction c as [|x c IH]; [done|]. cbn.
  destruct (decide (x = "/"%char)); [done|]. intros H. by rewrite IH.
Qed.

Lemma endswith_slash (a : string) :
  Py.endswith_char "/" a = true -> exists a', a = a' +:+ "/".
Proof.
  induction a as [|x a IH]; [done|]. cbn.
  destruct a as [|y a].
  - destruct (decide _) as [->|]; [|done]. by exists EmptyString.
  - intros H. destruct (IH H) as [a' ->]. by exists (String x a').
Qed.

Lemma startswith_slash_simple (c : string) :
  simple_name c = true -> Py.startswith "/" c = false.
Proof.
  rewrite simple_name_spec. intros (H0 & _ & _ & H3).
  destruct c as [|x c]; [done|]. cbn in *.
  destruct (decide (x = "/"%char)) as [->|]; [done|].
  by rewrite decide_False by congruence.
Qed.

Lemma walk_step f q (c : string) :
  simple_name c = true ->
  walk f q [c] = if is_dir f q then Some (q ++ [c]) else None.
Proof.
  rewrite simple_name_spec. intros (H0 & H1 & H2 & _). cbn.
  destruct (is_dir f q); [|done].
  unfold stays. rewrite !bool_decide_eq_false_2 by done. done.
Qed.

(** The components of [os.path.join(a, c)] are those of [a], walked
    up to the place [a] resolves to, and then [c]. *)
Lemma join_components f (a c : string) q :
  resolve f a = Some q -> simple_name c = true ->
  Py.path_join a c <> EmptyString /\
  exists L, components (Py.path_join a c) = L ++ [c] /\ walk f [] L = Some q.
Proof.
  intros Hr Hc. unfold Py.path_join.
  rewrite (startswith_slash_simple _ Hc).
  pose proof Hc as Hc'. apply simple_name_spec in Hc' as (H0 & _ & _ & H3).
  unfold resolve in Hr. destruct (decide (a = EmptyString)) as [|Ha]; [done|].
  destruct (Py.endswith_char "/" a) eqn:E.
  - apply endswith_slash in E as [a' ->]. split.
    { destruct c; [done|]. rewrite app_assoc_str. apply app_nonempty_r. }
    exists (components a'). rewrite app_assoc_str, components_app_slash.
    rewrite (components_simple c H3). split; [done|].
    replace (a' +:+ "/") with (a' +:+ "/" +:+ EmptyString) in Hr by done.
    rewrite components_app_slash, walk_app in Hr. cbn in Hr.
    destruct (walk f [] (components a')) as [q0|]; [|done]. cbn in Hr.
    destruct (is_dir f q0); [|done]. done.
  - split; [apply app_nonempty_r|].
    exists (components a). rewrite components_app_slash.
    by rewrite (components_simple c H3).
Qed.

Lemma resolve_join f (a c : string) q :
  resolve f a = Some q -> simple_name c = true ->
  resolve f (Py.path_join a c) = if is_dir f q then Some (q ++ [c]) else None.
Proof.
  intros Hr Hc. destruct (join_components _ _ _ _ Hr Hc) as (Hne & L & HL & Hw).
  unfold resolve. rewrite decide_False by done.
  rewrite HL, walk_app, Hw. cbn [mbind option_bind]. by apply walk_step.
Qed.

Lemma makedirs_walk_app s f cur l1 l2 q :
  walk f cur l1 = Some q -> is_dir f q = true ->
  makedirs_walk s f cur (l1 ++ l2) = makedirs_walk s f q l2.
Proof.
  revert cur. induction l1 as [|c l1 IH]; intros cur; cbn [walk makedirs_walk app].
  - by intros [= ->].
  - destruct (is_dir f cur); [|done].
    destruct (stays c); [apply IH|]. destruct (bool_decide _); [apply IH|].
    intros Hw Hq. destruct (node_at f (cur ++ [c])) eqn:E; [by apply IH|].
    exfalso. destruct l1 as [|c' l1]; cbn [walk] in Hw.
    + injection Hw as <-. unfold is_dir in Hq. by rewrite E in Hq.
    + unfold is_dir in Hw. by rewrite E in Hw.
Qed.

Lemma agree_refl o : agree o o.
Proof. by split. Qed.

Lemma makedirs_join s f (a c : string) q :
  resolve f a = Some q -> is_dir f q = true -> simple_name c = true ->
  agree (makedirs (Py.path_join a c) f) (put s (q ++ [c]) Dir f).
Proof.
  intros Hr Hq Hc. destruct (join_components _ _ _ _ Hr Hc) as (Hne & L & HL & Hw).
  unfold makedirs, put. rewrite decide_False by done.
  rewrite HL, (makedirs_walk_app _ _ _ _ _ _ Hw Hq).
  rewrite removelast_snoc, Hq.
  apply simple_name_spec in Hc as (H0 & H1 & H2 & _).
  cbn [makedirs_walk]. rewrite Hq. unfold stays.
  rewrite !bool_decide_eq_false_2 by done. cbn.
  destruct (node_at f (q ++ [c])) as [[x|]|] eqn:E.
  - unfold is_dir. rewrite E. by split.
  - unfold is_dir. rewrite E. by split.
  - unfold is_dir. rewrite node_at_snoc, lookup_insert_eq. by split.
Qed.

Lemma write_join s f (a c x : string) q :
  resolve f a = Some q -> simple_name c = true ->
  agree (write_file (Py.path_join a c) x f) (put s (q ++ [c]) (File x) f).
Proof.
  intros Hr Hc. unfold write_file, put.
  rewrite (resolve_join _ _ _ _ Hr Hc), removelast_snoc.
  destruct (is_dir f q); [|by split].
  destruct (node_at f (q ++ [c])) as [[y|]|]; by split.
Qed.

End JoinFacts.

Section InstallFacts.

Import Os Fs.
Implicit Types (f : gmap (list string) node) (q b cur rel : list string) (n : node).
Implicit Types (tree : list (list string * node)).

Lemma install_app s b tree1 tree2 f :
  install s b (tree1 ++ tree2) f =
  match install s b tree1 f with
  | (f1, None) => install s b tree2 f1
  | failed => failed
  end.
Proof.
  revert f. induction tree1 as [|[rel n] tree1 IH]; intros f; [done|].
  cbn [install app]. destruct (put s (b ++ rel) n f) as [f1 [e|]]; [done|]. apply IH.
Qed.

Lemma install_below s b (c : string) tree f :
  install s (b ++ [c]) tree f = install s b (below c tree) f.
Proof.
  revert f. induction tree as [|[rel n] tree IH]; intros f; [done|].
  cbn [install below map fst snd]. rewrite <- app_assoc. cbn [app].
  destruct (put s (b ++ c :: rel) n f) as [f1 [e|]]; [done|]. apply IH.
Qed.

(** Outcomes that agree entry by entry agree as a whole: the path in
    the error message plays no role. *)
Lemma install_message s s' b tree f : agree (install s b tree f) (install s' b tree f).
Proof.
  revert f. induction tree as [|[rel n] tree IH]; intros f; [by split|].
  cbn [install]. unfold put.
  destruct (is_dir f (removelast (b ++ rel))); [|by split].
  destruct n as [c|], (node_at f (b ++ rel)) as [[c'|]|]; try apply IH; by split.
Qed.

Lemma put_result s q n f f' :
  put s q n f = (f', None) ->
  is_dir f (removelast q) = true /\ same_kind (node_at f' q) n = true
  /\ (forall k, k <> q -> f' !! k = f !! k).
Proof.
  unfold put. destruct (is_dir f (removelast q)); [|done].
  destruct n as [c|], (node_at f q) as [[c'|]|] eqn:E; intros [= <-];
    (split; [done|]); split;
    try (destruct q; [done|]; cbn; by rewrite lookup_insert_eq);
    try (intros k Hk; by rewrite lookup_insert_ne);
    try done; by rewrite E.
Qed.

Lemma put_node s q n f f' : put s q n f = (f', None) -> node_at f' q = Some n.
Proof.
  unfold put. destruct (is_dir f (removelast q)); [|done].
  destruct n as [c|], (node_at f q) as [[c'|]|] eqn:E; intros [= <-]; try done;
    destruct q; try done; cbn; by rewrite lookup_insert_eq.
Qed.

Lemma fits_mono b tree f f' : extends f f' -> fits b tree f -> fits b tree f'.
Proof.
  intros H Hf. unfold fits. eapply Forall_impl; [exact Hf|]. intros [rel n] [H1 H2]. split.
  - by eapply extends_is_dir.
  - by eapply extends_same_kind.
Qed.

(** After a successful installation every entry is in place. *)
Lemma install_fits s b tree f f' : install s b tree f = (f', None) -> fits b tree f'.
Proof.
  revert f. induction tree as [|[rel n] tree IH]; intros f Hi; [constructor|].
  assert (extends f f') as Hext0.
  { pose proof (install_extends s b ((rel, n) :: tree) f) as X. by rewrite Hi in X. }
  cbn [install] in Hi.
  destruct (put s (b ++ rel) n f) as [f1 [e|]] eqn:Hp; [done|].
  assert (extends f1 f') as Hext.
  { pose proof (install_extends s b tree f1) as X. by rewrite Hi in X. }
  constructor; [|by eapply IH].
  apply put_result in Hp as (Hd & Hk & _). cbn. split.
  - exact (extends_is_dir _ _ _ Hext0 Hd).
  - exact (extends_same_kind _ _ _ _ Hext Hk).
Qed.

Lemma put_fits s q n f :
  is_dir f (removelast q) = true -> same_kind (node_at f q) n = true ->
  exists f', put s q n f = (f', None).
Proof.
  unfold put. intros -> H.
  destruct n as [c|], (node_at f q) as [[c'|]|]; try done; eauto.
Qed.

(** A tree whose entries are all in place can be installed again, with
    other file contents. *)
Lemma fits_install s b tree f : fits b tree f -> exists f', install s b tree f = (f', None).
Proof.
  revert f. induction tree as [|[rel n] tree IH]; intros f Hf; [by eexists|].
  apply Forall_cons in Hf as [[H1 H2] Hf]. cbn in H1, H2.
  destruct (put_fits s _ _ _ H1 H2) as [f1 Hp].
  cbn [install]. rewrite Hp. apply IH.
  eapply fits_mono; [|exact Hf].
  pose proof (put_extends s (b ++ rel) n f) as X. by rewrite Hp in X.
Qed.

Lemma fits_shape b tree tree' f : shape tree = shape tree' -> fits b tree f -> fits b tree' f.
Proof.
  revert tree'. induction tree as [|[rel n] tree IH]; intros [|[rel' n'] tree'] Hs Hf;
    try done; try by constructor.
  cbn in Hs. injection Hs as -> Hn Hs.
  apply Forall_cons in Hf as [[H1 H2] Hf]. constructor; [|by apply IH].
  cbn in *. split; [done|].
  destruct (node_at f (b ++ rel')) as [[?|]|], n, n'; done.
Qed.

(** What is not named by the tree is not touched. *)
Lemma install_frame s b tree f k :
  k ∉ map (fun e => b ++ e.1) tree -> (install s b tree f).1 !! k = f !! k.
Proof.
  revert f. induction tree as [|[rel n] tree IH]; intros f Hk; [done|].
  cbn [map fst] in Hk. apply not_elem_of_cons in Hk as [Hk1 Hk2].
  cbn [install]. destruct (put s (b ++ rel) n f) as [f1 [e|]] eqn:Hp.
  - cbn. unfold put in Hp. destruct (is_dir f _); [|congruence].
    destruct n, (node_at f (b ++ rel)) as [[?|]|]; congruence.
  - rewrite IH by done. apply put_result in Hp as (_ & _ & Hp). by apply Hp.
Qed.

(** The last entry for a path decides what is found there. *)
Lemma install_last s b tree1 rel n tree2 f f' :
  install s b (tree1 ++ (rel, n) :: tree2) f = (f', None) ->
  rel ∉ map fst tree2 ->
  node_at f' (b ++ rel) = Some n.
Proof.
  rewrite install_app. destruct (install s b tree1 f) as [f1 [e|]]; [done|].
  cbn [install]. destruct (put s (b ++ rel) n f1) as [f2 [e|]] eqn:Hp; [done|].
  intros Hi Hrel. apply put_node in Hp.
  destruct (b ++ rel) as [|x k] eqn:Ek; [done|]. cbn in *.
  rewrite <- Hp. replace f' with (install s b tree2 f2).1 by by rewrite Hi.
  apply install_frame. rewrite <- Ek. intros Hin.
  apply list_elem_of_fmap in Hin as ([rel' n'] & Heq & Hin). cbn in Heq.
  apply app_inv_head in Heq as ->.
  apply Hrel. apply list_elem_of_fmap. by exists (rel', n').
Qed.

Lemma last_occurrence rel tree :
  rel ∈ map fst tree ->
  exists tree1 n tree2, tree = tree1 ++ (rel, n) :: tree2 /\ rel ∉ map fst tree2.
Proof.
  induction tree as [|[rel' n'] tree IH]; [by intros ?%elem_of_nil|].
  intros Hin. destruct (decide (rel ∈ map fst tree)) as [Hl|Hl].
  - destruct (IH Hl) as (t1 & n & t2 & -> & Hn). by exists ((rel', n') :: t1), n, t2.
  - cbn in Hin. apply elem_of_cons in Hin as [->|]; [|done].
    by exists [], n', tree.
Qed.

(** Two installations of the same tree, anywhere, leave the same node
    at every path the tree names. *)
Lemma install_same s1 s2 b1 b2 tree f1 f2 f1' f2' rel :
  install s1 b1 tree f1 = (f1', None) ->
  install s2 b2 tree f2 = (f2', None) ->
  rel ∈ map fst tree ->
  node_at f1' (b1 ++ rel) = node_at f2' (b2 ++ rel).
Proof.
  intros H1 H2 Hin. destruct (last_occurrence _ _ Hin) as (t1 & n & t2 & -> & Hn).
  by rewrite (install_last _ _ _ _ _ _ _ _ H1 Hn), (install_last _ _ _ _ _ _ _ _ H2 Hn).
Qed.

End InstallFacts.

(* ================================================================== *)
(** ** What every step of the program preserves *)
(* ================================================================== *)

Section Steady.

Import Os Fs.

Lemma makedirs_os_error s f : os_error (makedirs s f).
Proof.
  unfold makedirs. destruct (decide _); [by intros ? [= <-]|].
  generalize (@nil string) as cur. revert f.
  induction (components s) as [|c l IH]; intros f cur; cbn [makedirs_walk].
  - destruct (is_dir f cur); by intros ? [= <-].
  - destruct (is_dir f cur); [|by intros ? [= <-]].
    destruct (stays c); [apply IH|]. destruct (bool_decide _); [apply IH|].
    destruct (node_at f (cur ++ [c])); apply IH.
Qed.

Lemma write_file_os_error s c f : os_error (write_file s c f).
Proof.
  unfold write_file. destruct (resolve f s) as [q|]; [|by intros ? [= <-]].
  destruct (node_at f q) as [[?|]|]; by intros ? [= <-].
Qed.

Lemma put_os_error s q n f : os_error (put s q n f).
Proof.
  unfold put. destruct (is_dir f _); [|by intros ? [= <-]].
  destruct n, (node_at f q) as [[?|]|]; by intros ? [= <-].
Qed.

Lemma install_os_error s b tree f : os_error (install s b tree f).
Proof.
  revert f. induction tree as [|[rel n] tree IH]; intros f; [by intros ? [=]|].
  cbn [install]. pose proof (put_os_error s (b ++ rel) n f) as X.
  destruct (put s (b ++ rel) n f) as [f1 [e|]]; [exact X|apply IH].
Qed.

Lemma venv_create_os_error payload s f : os_error (venv_create payload s f).
Proof.
  unfold venv_create. pose proof (makedirs_os_error s f) as X.
  destruct (makedirs s f) as [f1 [e|]]; [exact X|].
  destruct payload as [tree|]; [|by intros ? [= <-]].
  destruct (resolve f1 s); [apply install_os_error|by intros ? [= <-]].
Qed.

Lemma quiet_refl w : quiet w w.
Proof. repeat split; try done; [apply extends_refl|]. exists []. by rewrite app_nil_r. Qed.

Lemma quiet_trans w1 w2 w3 : quiet w1 w2 -> quiet w2 w3 -> quiet w1 w3.
Proof.
  intros (E1 & C1 & Y1 & O1 & [o1 S1]) (E2 & C2 & Y2 & O2 & [o2 S2]).
  repeat split; try congruence; [by eapply extends_trans|].
  exists (o1 ++ o2). by rewrite S2, S1, app_assoc.
Qed.

Lemma calm_getcwd : calm Sys.getcwd.
Proof. intros w. split; [apply quiet_refl|done]. Qed.

Lemma calm_now_year : calm Sys.now_year.
Proof. intros w. split; [apply quiet_refl|done]. Qed.

Lemma calm_get_os_name : calm Sys.get_os_name.
Proof. intros w. split; [apply quiet_refl|done]. Qed.

Lemma calm_path_exists s : calm (Sys.path_exists s).
Proof. intros w. split; [apply quiet_refl|done]. Qed.

Lemma calm_print line : calm (Sys.print line).
Proof.
  intros w. split; [|done]. repeat split; try done; [apply extends_refl|].
  by exists [line].
Qed.

Lemma calm_fs_call op :
  (forall f, extends f (op f).1) -> (forall f, os_error (op f)) -> calm (Sys.fs_call op).
Proof.
  intros He Ho w. unfold Sys.fs_call.
  specialize (He (fs w)). specialize (Ho (fs w)).
  destruct (op (fs w)) as [f [e|]]; cbn in *.
  - split; [|by apply Ho]. repeat split; try done. exists []. by rewrite app_nil_r.
  - split; [|done]. repeat split; try done. exists []. by rewrite app_nil_r.
Qed.

Lemma calm_makedirs s : calm (Sys.makedirs s).
Proof. apply calm_fs_call; [apply makedirs_extends|apply makedirs_os_error]. Qed.

Lemma calm_open_w s chunks : calm (Sys.open_w s chunks).
Proof.
  intros w. unfold Sys.open_w.
  pose proof (write_file_extends s (Py.concat chunks) (fs w)) as He.
  pose proof (write_file_os_error s (Py.concat chunks) (fs w)) as Ho.
  destruct (write_file s (Py.concat chunks) (fs w)) as [f [e|]]; cbn in *.
  - split; [|by apply Ho]. repeat split; try done. exists []. by rewrite app_nil_r.
  - split; [|done]. repeat split; try done. exists []. by rewrite app_nil_r.
Qed.

Lemma calm_venv_create payload s : calm (Sys.venv_create payload s).
Proof. apply calm_fs_call; [apply venv_create_extends|apply venv_create_os_error]. Qed.

Lemma steady_io {A} (m : M World A) : calm m -> steady (io m).
Proof.
  intros H st. unfold io. specialize (H (world st)).
  destruct (m (world st)) as [w r]. done.
Qed.

Lemma steady_get_self : steady get_self.
Proof. intros st. split; [done|]. split; [apply quiet_refl|done]. Qed.

Lemma steady_ret {A} (a : A) : steady (ret a).
Proof. intros st. split; [done|]. split; [apply quiet_refl|done]. Qed.

Lemma steady_bind {A B} (m : M Machine A) (k : A -> M Machine B) :
  steady m -> (forall a, steady (k a)) -> steady (bind m k).
Proof.
  intros Hm Hk st. unfold bind. specialize (Hm st).
  destruct (m st) as [st1 [e|a]]; [done|].
  specialize (Hk a st1). cbn in Hm. destruct Hm as (S1 & Q1 & _).
  destruct (k a st1) as [st2 r]. cbn in *. destruct Hk as (S2 & Q2 & N2).
  split; [congruence|]. split; [by eapply quiet_trans|done].
Qed.

Lemma steady_when (b : bool) (m : M Machine unit) : steady m -> steady (when b m).
Proof. destruct b; [done|]. intros _. apply steady_ret. Qed.

Lemma steady_if {A} (b : bool) (m1 m2 : M Machine A) :
  steady m1 -> steady m2 -> steady (if b then m1 else m2).
Proof. by destruct b. Qed.

End Steady.

#[local] Hint Resolve calm_getcwd calm_now_year calm_get_os_name calm_path_exists
calm_print calm_makedirs calm_open_w calm_venv_create
steady_io steady_get_self steady_ret steady_when steady_if : steady.

Ltac steady :=
repeat first
  [ apply steady_bind; [|intros ?]
  | apply steady_when
  | apply steady_if
  | solve [auto with steady] ].

Section SteadyMethods.

Lemma steady_create_directory_structure : steady (create_directory_structure).
Proof. unfold create_directory_structure. steady. Qed.

Lemma steady_create_setup_files : steady create_setup_files.
Proof. unfold create_setup_files. steady. Qed.

Lemma steady_create_readme : steady (create_readme).
Proof. unfold create_readme. steady. Qed.

Lemma steady_get_current_year : steady get_current_year.
Proof. unfold get_current_year. steady. Qed.

Lemma steady_create_license : steady create_license.
Proof. unfold create_license, get_current_year. steady. Qed.

Lemma steady_create_gitignore : steady create_gitignore.
Proof. unfold create_gitignore. steady. Qed.

Lemma steady_create_venv : steady (create_venv).
Proof. unfold create_venv. steady. Qed.

Lemma steady_create_makefile : steady create_makefile.
Proof. unfold create_makefile. steady. Qed.

Lemma steady_scaffold : steady (scaffold).
Proof.
  unfold scaffold.
  pose proof steady_create_directory_structure. pose proof steady_create_setup_files.
  pose proof steady_create_readme. pose proof steady_create_license.
  pose proof steady_create_gitignore. pose proof steady_create_makefile.
  pose proof steady_create_venv.
  repeat first [ assumption | apply steady_bind; [|intros ?] | apply steady_when
               | solve [auto with steady] ].
Qed.

End SteadyMethods.

(* ================================================================== *)
(** ** The methods build the planned tree *)
(* ================================================================== *)

Section Realizes.

Import Os Fs.

Context (o : ProjectScaffolder) (y : Z) (b : list string).

Lemma at_base_steady {A} (m : M Machine A) st :
  steady m -> at_base b st -> at_base b (m st).1.
Proof.
  intros Hs [Hr Hd]. destruct (Hs st) as (Hself & (Hext & _) & _).
  split; [rewrite Hself; by eapply resolve_mono|by eapply extends_is_dir].
Qed.

Lemma realizes_ret : realizes o y b (ret tt) [] false.
Proof. intros st _ _ _. by cbn. Qed.

Lemma realizes_bind {A} (m : M Machine A) (k : A -> M Machine unit) tree1 tree2 broken
    (tree : list (list string * node)) :
  tree = tree1 ++ tree2 ->
  steady m ->
  (forall st, self_obj st = o -> year (world st) = y -> at_base b st ->
     fs (world (m st).1) = (install EmptyString b tree1 (fs (world st))).1
     /\ (ok (m st).2 = true <-> (install EmptyString b tree1 (fs (world st))).2 = None)) ->
  (forall a, realizes o y b (k a) tree2 broken) ->
  realizes o y b (bind m k) tree broken.
Proof.
  intros -> Hs Hm Hk st Ho Hy Hb.
  specialize (Hm st Ho Hy Hb). pose proof (at_base_steady m st Hs Hb) as Hb1.
  destruct (Hs st) as (Hself & (_ & _ & Hyear & _) & _).
  unfold bind. rewrite install_app.
  destruct (m st) as [st1 [e|a]]; cbn in *.
  - destruct Hm as [Hf Hok].
    destruct (install EmptyString b tree1 (fs (world st))) as [f1 [e1|]]; cbn in *.
    + split; [done|]. split; [done|]. by intros [? _].
    + destruct Hok as [_ Hok]. by specialize (Hok eq_refl).
  - destruct Hm as [Hf Hok].
    destruct (install EmptyString b tree1 (fs (world st))) as [f1 [e1|]]; cbn in *.
    + destruct Hok as [Hok _]. by specialize (Hok eq_refl).
    + rewrite <- Hf. apply Hk; congruence.
Qed.

(** Once the builder is broken, nothing after it runs. *)
Lemma realizes_broken {A} (m : M Machine A) (k : A -> M Machine unit) tree :
  (forall st, self_obj st = o -> year (world st) = y -> at_base b st ->
     fs (world (m st).1) = (install EmptyString b tree (fs (world st))).1
     /\ ok (m st).2 = false) ->
  realizes o y b (bind m k) tree true.
Proof.
  intros Hm st Ho Hy Hb. specialize (Hm st Ho Hy Hb). unfold bind.
  destruct (m st) as [st1 [e|a]]; cbn in *; [|by destruct Hm].
  split; [by destruct Hm|]. split; [done|]. by intros [_ ?].
Qed.

Lemma realizes_get_self (k : ProjectScaffolder -> M Machine unit) tree broken :
  realizes o y b (k o) tree broken -> realizes o y b (bind get_self k) tree broken.
Proof. intros Hk st Ho Hy Hb. unfold bind, get_self. rewrite Ho. by apply Hk. Qed.

Lemma realizes_when_true m tree broken :
  realizes o y b m tree broken -> realizes o y b (when true m) tree broken.
Proof. done. Qed.

Lemma realizes_when_false m : realizes o y b (when false m) [] false.
Proof. apply realizes_ret. Qed.

(** A file-system call that agrees with an installation. *)
Lemma fs_call_agrees op tree st :
  agree (op (fs (world st))) (install EmptyString b tree (fs (world st))) ->
  fs (world (io (Sys.fs_call op) st).1) = (install EmptyString b tree (fs (world st))).1
  /\ (ok (io (Sys.fs_call op) st).2 = true <->
      (install EmptyString b tree (fs (world st))).2 = None).
Proof.
  unfold io, Sys.fs_call, agree. intros [H1 H2].
  destruct (op (fs (world st))) as [f [e|]]; cbn in *.
  - split; [done|]. split; [done|]. intros H. by apply H2 in H.
  - split; [done|]. split; [|done]. intros _. by apply H2.
Qed.

Lemma open_w_agrees s chunks tree st :
  agree (write_file s (Py.concat chunks) (fs (world st)))
        (install EmptyString b tree (fs (world st))) ->
  fs (world (io (Sys.open_w s chunks) st).1) = (install EmptyString b tree (fs (world st))).1
  /\ (ok (io (Sys.open_w s chunks) st).2 = true <->
      (install EmptyString b tree (fs (world st))).2 = None).
Proof.
  unfold io, Sys.open_w, agree. intros [H1 H2].
  destruct (write_file s (Py.concat chunks) (fs (world st))) as [f [e|]]; cbn in *.
  - split; [done|]. split; [done|]. intros H. by apply H2 in H.
  - split; [done|]. split; [|done]. intros _. by apply H2.
Qed.

Lemma print_agrees line st :
  fs (world (io (Sys.print line) st).1) = (install EmptyString b [] (fs (world st))).1
  /\ (ok (io (Sys.print line) st).2 = true <->
      (install EmptyString b [] (fs (world st))).2 = None).
Proof. by cbn. Qed.

Lemma install_one s q n f : install s b [(q, n)] f = put s (b ++ q) n f.
Proof. cbn. by destruct (put s (b ++ q) n f) as [f1 [e|]]. Qed.

(** [os.makedirs] of an entry of the project directory. *)
Lemma makedirs_agrees (c : string) st :
  self_obj st = o -> at_base b st -> simple_name c = true ->
  agree (makedirs (Py.path_join (base_dir o) c) (fs (world st)))
        (install EmptyString b [([c], Dir)] (fs (world st))).
Proof.
  intros Ho [Hr Hd] Hc. rewrite Ho in Hr. rewrite install_one.
  by apply makedirs_join.
Qed.

(** Writing a file of the project directory. *)
Lemma write_agrees (c x : string) st :
  self_obj st = o -> at_base b st -> simple_name c = true ->
  agree (write_file (Py.path_join (base_dir o) c) x (fs (world st)))
        (install EmptyString b [([c], File x)] (fs (world st))).
Proof.
  intros Ho [Hr Hd] Hc. rewrite Ho in Hr. rewrite install_one.
  by apply write_join.
Qed.

(** Writing a file of a subdirectory. *)
Lemma write_sub_agrees (d c x : string) st :
  self_obj st = o -> at_base b st -> simple_name d = true -> simple_name c = true ->
  agree (write_file (Py.path_join (Py.path_join (base_dir o) d) c) x (fs (world st)))
        (install EmptyString b [([d; c], File x)] (fs (world st))).
Proof.
  intros Ho [Hr Hd] Hdn Hc. rewrite Ho in Hr. rewrite install_one.
  replace (b ++ [d; c]) with ((b ++ [d]) ++ [c]) by by rewrite <- app_assoc.
  apply write_join; [|done].
  by rewrite (resolve_join _ _ _ _ Hr Hdn), Hd.
Qed.

End Realizes.

Section Steps.

Import Os Fs.
Context (o : ProjectScaffolder) (y : Z) (b : list string).

Lemma realizes_ext (m m' : M Machine unit) tree broken :
  (forall st, m st = m' st) -> realizes o y b m tree broken -> realizes o y b m' tree broken.
Proof. intros E H st. rewrite <- E. apply H. Qed.

Lemma bind_ret_r (m : M Machine unit) st : bind m (fun _ => ret tt) st = m st.
Proof. unfold bind, ret. by destruct (m st) as [st' [e|[]]]. Qed.

Lemma realizes_seq (m1 m2 : M Machine unit) tree1 tree2 broken :
  realizes o y b m1 tree1 false -> steady m1 -> realizes o y b m2 tree2 broken ->
  realizes o y b (bind m1 (fun _ => m2)) (tree1 ++ tree2) broken.
Proof.
  intros H1 Hs H2. eapply realizes_bind; [done|done| |done].
  intros st Ho Hy Hb. destruct (H1 st Ho Hy Hb) as [Hf Hok]. split; [done|].
  rewrite Hok. tauto.
Qed.

Lemma step_print line (k : unit -> M Machine unit) tree broken :
  realizes o y b (k tt) tree broken ->
  realizes o y b (bind (io (Sys.print line)) k) tree broken.
Proof.
  intros Hk. eapply (realizes_bind o y b _ _ [] tree); [done| | |by intros []].
  - steady.
  - intros st _ _ _. apply print_agrees.
Qed.

Lemma step_makedirs (c : string) (k : unit -> M Machine unit) tree broken :
  simple_name c = true ->
  realizes o y b (k tt) tree broken ->
  realizes o y b (bind (io (Sys.makedirs (Py.path_join (base_dir o) c))) k)
    (([c], Dir) :: tree) broken.
Proof.
  intros Hc Hk. eapply (realizes_bind o y b _ _ [([c], Dir)] tree); [done| | |by intros []].
  - steady.
  - intros st Ho _ Hb. apply fs_call_agrees. by apply makedirs_agrees.
Qed.

Lemma step_write (c : string) chunks (k : unit -> M Machine unit) tree broken :
  simple_name c = true ->
  realizes o y b (k tt) tree broken ->
  realizes o y b (bind (io (Sys.open_w (Py.path_join (base_dir o) c) chunks)) k)
    (([c], text chunks) :: tree) broken.
Proof.
  intros Hc Hk.
  eapply (realizes_bind o y b _ _ [([c], text chunks)] tree); [done| | |by intros []].
  - steady.
  - intros st Ho _ Hb. apply open_w_agrees. by apply write_agrees.
Qed.

Lemma step_write_sub (d c : string) chunks (k : unit -> M Machine unit) tree broken :
  simple_name d = true -> simple_name c = true ->
  realizes o y b (k tt) tree broken ->
  realizes o y b
    (bind (io (Sys.open_w (Py.path_join (Py.path_join (base_dir o) d) c) chunks)) k)
    (([d; c], text chunks) :: tree) broken.
Proof.
  intros Hd Hc Hk.
  eapply (realizes_bind o y b _ _ [([d; c], text chunks)] tree); [done| | |by intros []].
  - steady.
  - intros st Ho _ Hb. apply open_w_agrees. by apply write_sub_agrees.
Qed.

Lemma last_write (c : string) chunks :
  simple_name c = true ->
  realizes o y b (io (Sys.open_w (Py.path_join (base_dir o) c) chunks))
    [([c], text chunks)] false.
Proof.
  intros Hc. eapply realizes_ext; [apply bind_ret_r|].
  apply step_write; [done|apply realizes_ret].
Qed.

Lemma last_write_sub (d c : string) chunks :
  simple_name d = true -> simple_name c = true ->
  realizes o y b
    (io (Sys.open_w (Py.path_join (Py.path_join (base_dir o) d) c) chunks))
    [([d; c], text chunks)] false.
Proof.
  intros Hd Hc. eapply realizes_ext; [apply bind_ret_r|].
  apply step_write_sub; [done|done|apply realizes_ret].
Qed.

Lemma last_print line : realizes o y b (io (Sys.print line)) [] false.
Proof.
  eapply realizes_ext; [apply bind_ret_r|]. apply step_print, realizes_ret.
Qed.

Lemma step_year (k : Z -> M Machine unit) tree broken :
  realizes o y b (k y) tree broken ->
  realizes o y b (bind get_current_year k) tree broken.
Proof.
  intros Hk st Ho Hy Hb. unfold bind, get_current_year, io, Sys.now_year. cbn.
  rewrite Hy. destruct st as [s w]. apply (Hk (mkMachine s w)); done.
Qed.

Lemma step_os_name (k : string -> M Machine unit) tree broken :
  (forall name, realizes o y b (k name) tree broken) ->
  realizes o y b (bind (io Sys.get_os_name) k) tree broken.
Proof.
  intros Hk st Ho Hy Hb. unfold bind, io, Sys.get_os_name. cbn.
  destruct st as [s w]. apply (Hk _ (mkMachine s w)); done.
Qed.

(** [venv.create] on the [venv] entry of the project directory. *)
Lemma venv_create_agrees tree st :
  self_obj st = o -> at_base b st ->
  agree (venv_create (Some tree) (Py.path_join (base_dir o) "venv") (fs (world st)))
        (install EmptyString b ((["venv"], Dir) :: below "venv" tree) (fs (world st))).
Proof.
  intros Ho [Hr Hd]. rewrite Ho in Hr. unfold venv_create.
  pose proof (makedirs_join EmptyString _ _ "venv" _ Hr Hd eq_refl) as [M1 M2].
  pose proof (makedirs_extends (Py.path_join (base_dir o) "venv") (fs (world st))) as Hext.
  cbn [install].
  destruct (makedirs (Py.path_join (base_dir o) "venv") (fs (world st))) as [f1 [e|]];
    cbn in M1, M2, Hext.
  - destruct (put EmptyString (b ++ ["venv"]) Dir (fs (world st))) as [f2 [e2|]];
      cbn in M1, M2; [by split|]. destruct M2 as [_ M2]. by specialize (M2 eq_refl).
  - destruct (put EmptyString (b ++ ["venv"]) Dir (fs (world st))) as [f2 [e2|]];
      cbn in M1, M2; [destruct M2 as [M2 _]; by specialize (M2 eq_refl)|].
    subst f2.
    rewrite (resolve_join f1 _ "venv" b (resolve_mono _ _ _ _ Hext Hr) eq_refl).
    rewrite (extends_is_dir _ _ _ Hext Hd).
    rewrite install_below. apply install_message.
Qed.

Lemma venv_create_broken st :
  self_obj st = o -> at_base b st ->
  let r := io (Sys.venv_create None (Py.path_join (base_dir o) "venv")) st in
  fs (world r.1) = (install EmptyString b [(["venv"], Dir)] (fs (world st))).1
  /\ ok r.2 = false.
Proof.
  intros Ho [Hr Hd]. rewrite Ho in Hr.
  unfold io, Sys.venv_create, Sys.fs_call, venv_create.
  pose proof (makedirs_join EmptyString _ _ "venv" _ Hr Hd eq_refl) as [M1 M2].
  rewrite install_one.
  destruct (makedirs (Py.path_join (base_dir o) "venv") (fs (world st))) as [f1 [e|]];
    cbn in *; by rewrite M1.
Qed.

End Steps.

Section Methods.

Import Os Fs.
Context (o : ProjectScaffolder) (y : Z) (b : list string).

Lemma simple_test_module (p : string) :
  Py.contains_char "/" p = false -> simple_name ("test_" +:+ p +:+ ".py") = true.
Proof.
  intros Hp. apply simple_name_spec.
  change ("test_" +:+ p +:+ ".py")
    with (String "t" (String "e" (String "s" (String "t" (String "_" (p +:+ ".py")))))).
  repeat split; try done.
  cbn. by rewrite contains_char_app, Hp.
Qed.

Lemma create_directory_structure_unfold st :
  create_directory_structure st =
  (io (Sys.print ("Creating project: " +:+ project_name (self_obj st)));;
   io (Sys.makedirs (base_dir (self_obj st)));;
   structure_rest (self_obj st))%prog st.
Proof. reflexivity. Qed.

Lemma realizes_structure_rest :
  simple_name (package_name o) = true ->
  realizes o y b (structure_rest o) (structure_entries o) false.
Proof.
  intros Hp. unfold structure_rest, structure_entries. cbv zeta.
  pose proof Hp as Hp'. apply simple_name_spec in Hp' as (_ & _ & _ & Hs).
  apply step_makedirs; [done|].
  apply step_write_sub; [done|done|].
  apply realizes_seq.
  - destruct (use_tests o); [|apply realizes_when_false].
    apply realizes_when_true.
    apply step_makedirs; [done|].
    apply step_write_sub; [done|done|].
    apply last_write_sub; [done|by apply simple_test_module].
  - steady.
  - destruct (use_docs o); [|apply realizes_when_false].
    apply realizes_when_true.
    apply step_makedirs; [done|].
    by apply last_write_sub.
Qed.

Lemma realizes_create_setup_files :
  realizes o y b create_setup_files
    [ (["setup.py"], text (setup_py_chunks o));
      (["pyproject.toml"], text pyproject_chunks);
      (["setup.cfg"], text setup_cfg_chunks) ] false.
Proof.
  unfold create_setup_files. apply realizes_get_self.
  apply step_write; [done|]. apply step_write; [done|]. by apply last_write.
Qed.

Lemma realizes_create_readme :
  realizes o y b (create_readme)
    [ (["README.md"], text (readme_chunks o)) ] false.
Proof. unfold create_readme. apply realizes_get_self. by apply last_write. Qed.

Lemma realizes_create_license :
  realizes o y b create_license [ (["LICENSE"], text (license_chunks o y)) ] false.
Proof.
  unfold create_license. apply realizes_get_self. apply step_year. by apply last_write.
Qed.

Lemma realizes_create_gitignore :
  realizes o y b create_gitignore [ ([".gitignore"], text gitignore_chunks) ] false.
Proof. unfold create_gitignore. apply realizes_get_self. by apply last_write. Qed.

Lemma realizes_create_makefile :
  realizes o y b create_makefile [ (["Makefile"], text makefile_chunks) ] false.
Proof. unfold create_makefile. apply realizes_get_self. by apply last_write. Qed.

Lemma realizes_create_venv :
  realizes o y b (create_venv) (venv_entries o) (broken o).
Proof.
  unfold create_venv, venv_entries, broken. apply realizes_get_self.
  destruct (use_venv o); [|apply realizes_when_false].
  apply realizes_when_true. apply step_print.
  destruct venv_payload as [tree|].
  - rewrite bool_decide_eq_false_2 by done. cbn [andb].
    eapply (realizes_bind o y b _ _ (_ :: _) []); [by rewrite app_nil_r| | |].
    + steady.
    + intros st Ho _ Hb. apply fs_call_agrees. by apply venv_create_agrees.
    + intros []. do 2 apply step_print. apply step_os_name. intros name.
      destruct (bool_decide _); apply last_print.
  - rewrite bool_decide_eq_true_2 by done. cbn [andb].
    apply realizes_broken. intros st Ho _ Hb. by apply venv_create_broken.
Qed.

End Methods.

Section Monad.

Context {S : Type}.

Lemma bind_assoc {A B C} (m : M S A) (f : A -> M S B) (g : B -> M S C) st :
  bind (bind m f) g st = bind m (fun a => bind (f a) g) st.
Proof. unfold bind. by destruct (m st) as [st1 [e|a]]. Qed.

Lemma bind_returns {A B} (m : M S A) (k : A -> M S B) st st1 a :
  m st = (st1, inr a) -> bind m k st = k a st1.
Proof. unfold bind. by intros ->. Qed.

Lemma bind_raises {A B} (m : M S A) (k : A -> M S B) st st1 e :
  m st = (st1, inl e) -> bind m k st = (st1, inl e).
Proof. unfold bind. by intros ->. Qed.

Lemma bind_inv {A B} (m : M S A) (k : A -> M S B) st st2 c :
  bind m k st = (st2, inr c) ->
  exists st1 a, m st = (st1, inr a) /\ k a st1 = (st2, inr c).
Proof. unfold bind. destruct (m st) as [st1 [e|a]]; [done|]. eauto. Qed.

End Monad.

Section Scaffold.

Import Os Fs.

Lemma scaffold_unfold st :
  scaffold st = bind create_directory_structure (fun _ => after_structure) st.
Proof. reflexivity. Qed.

Lemma steady_after_structure : steady after_structure.
Proof.
  pose proof (steady_scaffold) as H.
  unfold after_structure.
  pose proof steady_create_setup_files. pose proof (steady_create_readme).
  pose proof steady_create_license.
  pose proof steady_create_gitignore. pose proof steady_create_makefile.
  pose proof (steady_create_venv).
  repeat first [ assumption | apply steady_bind; [|intros ?] | apply steady_when
               | solve [auto with steady] ].
Qed.

Lemma steady_structure_rest self : steady (structure_rest self).
Proof. unfold structure_rest. cbv zeta. steady. Qed.

Context (o : ProjectScaffolder) (y : Z) (b : list string).

Lemma realizes_then (m1 m2 : M Machine unit) tree flag :
  realizes o y b m1 tree flag -> steady m1 -> realizes o y b m2 [] false ->
  realizes o y b (bind m1 (fun _ => m2)) tree flag.
Proof.
  intros H1 Hs H2. destruct flag.
  - apply realizes_broken. intros st Ho Hy Hb. destruct (H1 st Ho Hy Hb) as [Hf Hok].
    split; [done|]. destruct (ok (m1 st).2); [|done]. destruct Hok as [Hok _].
    by destruct (Hok eq_refl).
  - rewrite <- (app_nil_r tree). by apply realizes_seq.
Qed.

Lemma realizes_after_structure :
  realizes o y b after_structure (top_file_entries o y ++ venv_entries o)
    (broken o).
Proof.
  unfold after_structure, top_file_entries.
  apply (realizes_seq o y b _ _ [_; _; _] (_ :: _));
    [apply realizes_create_setup_files|apply steady_create_setup_files|].
  apply (realizes_seq o y b _ _ [_]);
    [apply realizes_create_readme|apply steady_create_readme|].
  apply (realizes_seq o y b _ _ [_]);
    [apply realizes_create_license|apply steady_create_license|].
  apply (realizes_seq o y b _ _ [_]);
    [apply realizes_create_gitignore|apply steady_create_gitignore|].
  apply (realizes_seq o y b _ _ [_]);
    [apply realizes_create_makefile|apply steady_create_makefile|].
  apply realizes_get_self. apply realizes_then.
  - pose proof (realizes_create_venv o y b) as H.
    unfold venv_entries, broken in *. destruct (use_venv o); [done|].
    apply realizes_when_false.
  - apply steady_when, steady_create_venv.
  - apply realizes_get_self. apply step_print, last_print.
Qed.

Lemma realizes_scaffold_rest :
  simple_name (package_name o) = true ->
  realizes o y b (bind (structure_rest o) (fun _ => after_structure))
    (plan o y) (broken o).
Proof.
  intros Hp. unfold plan. apply realizes_seq.
  - by apply realizes_structure_rest.
  - apply steady_structure_rest.
  - apply realizes_after_structure.
Qed.

End Scaffold.

Section ScaffoldEffect.

Import Os Fs.

(** [create_directory_structure] starts by making the project
    directory; when that fails the run is over. *)
Lemma create_directory_structure_start st :
  let o := self_obj st in
  match makedirs (base_dir o) (fs (world st)) with
  | (f0, Some e) => create_directory_structure st = (announced st f0, inl e)
  | (f0, None) =>
      create_directory_structure st = structure_rest o (announced st f0)
  end.
Proof.
  cbn zeta. rewrite create_directory_structure_unfold.
  rewrite (bind_returns _ _ st
             (mkMachine (self_obj st)
                (add_stdout ("Creating project: " +:+ project_name (self_obj st)) (world st)))
             tt eq_refl).
  destruct (makedirs (base_dir (self_obj st)) (fs (world st))) as [f0 [e|]] eqn:Hm.
  - apply bind_raises. unfold io, Sys.makedirs, Sys.fs_call. cbn. by rewrite Hm.
  - apply (bind_returns _ (fun _ => structure_rest (self_obj st)) _
             (announced st f0) tt).
    unfold io, Sys.makedirs, Sys.fs_call. cbn. by rewrite Hm.
Qed.

Lemma scaffold_start st :
  let o := self_obj st in
  match makedirs (base_dir o) (fs (world st)) with
  | (f0, Some e) => scaffold st = (announced st f0, inl e)
  | (f0, None) =>
      scaffold st =
      bind (structure_rest o) (fun _ => after_structure)
        (announced st f0)
  end.
Proof.
  cbn zeta. pose proof (create_directory_structure_start st) as H. cbn zeta in H.
  rewrite scaffold_unfold.
  destruct (makedirs (base_dir (self_obj st)) (fs (world st))) as [f0 [e|]].
  - by apply bind_raises.
  - unfold bind. by rewrite H.
Qed.

(** After the first step the project directory exists. *)
Lemma announced_at_base st f0 :
  makedirs (base_dir (self_obj st)) (fs (world st)) = (f0, None) ->
  exists b, at_base b (announced st f0).
Proof.
  intros Hm. destruct (makedirs_post _ _ _ Hm) as (b & Hr & Hd). by exists b.
Qed.

(** The whole of [scaffold], for a package name that is one path
    component: it installs the plan below the project directory. *)
Lemma scaffold_effect st f0 :
  let o := self_obj st in
  simple_name (package_name o) = true ->
  makedirs (base_dir o) (fs (world st)) = (f0, None) ->
  exists b, resolve f0 (base_dir o) = Some b /\ is_dir f0 b = true
    /\ fs (world (scaffold st).1)
       = (install EmptyString b (plan o (year (world st))) f0).1
    /\ (ok (scaffold st).2 = true <->
        (install EmptyString b (plan o (year (world st))) f0).2 = None
        /\ broken o = false).
Proof.
  cbn zeta. intros Hp Hm. destruct (announced_at_base _ _ Hm) as (b & Hb).
  exists b. destruct Hb as [Hr Hd]. split; [done|]. split; [done|].
  pose proof (scaffold_start st) as Hs. cbn zeta in Hs. rewrite Hm in Hs. rewrite Hs.
  by apply (realizes_scaffold_rest (self_obj st) (year (world st)) b Hp
           (announced st f0)).
Qed.

(** For any object at all: when [scaffold] returns, the project
    directory is there. *)
Lemma create_directory_structure_at_base st st' :
  create_directory_structure st = (st', inr tt) -> exists b, at_base b st'.
Proof.
  intros H. pose proof (create_directory_structure_start st) as Hs. cbn zeta in Hs.
  destruct (makedirs (base_dir (self_obj st)) (fs (world st))) as [f0 [e|]] eqn:Hm;
    [congruence|].
  destruct (announced_at_base _ _ Hm) as (b & Hb). exists b.
  rewrite Hs in H.
  pose proof (at_base_steady b (structure_rest (self_obj st)) (announced st f0)
                (steady_structure_rest _) Hb) as X.
  by rewrite H in X.
Qed.

Lemma scaffold_at_base st st' :
  scaffold st = (st', inr tt) -> exists b, at_base b st'.
Proof.
  rewrite scaffold_unfold. intros H. apply bind_inv in H as (st1 & [] & H1 & H2).
  destruct (create_directory_structure_at_base _ _ H1) as (b & Hb). exists b.
  pose proof (at_base_steady b (after_structure) st1
                (steady_after_structure) Hb) as X.
  by rewrite H2 in X.
Qed.

End ScaffoldEffect.

(* ================================================================== *)
(** ** The text files a run emits *)
(* ================================================================== *)

Section Emits.

Import Os Fs.
Context (o : ProjectScaffolder) (y : Z).

Lemma emits_bind {A B} (m : M Machine A) (k : A -> M Machine B) l1 l2 l :
  l = l1 ++ l2 -> steady m -> emits o y m l1 -> (forall a, emits o y (k a) l2) ->
  emits o y (bind m k) l.
Proof.
  intros -> Hs Hm Hk st Ho Hy. specialize (Hm st Ho Hy).
  destruct (Hs st) as (Hself & (_ & _ & Hyear & _) & _).
  unfold bind. destruct (m st) as [st1 [e|a]]; cbn in *; [done|].
  intros Hok. rewrite (Hk a st1) by congruence.
  rewrite Hm by done. unfold emitted_under. by rewrite map_app, app_assoc.
Qed.

Lemma emits_ret {A} (a : A) : emits o y (ret a) [].
Proof. intros st _ _ _. cbn. by rewrite app_nil_r. Qed.

Lemma emits_get_self : emits o y get_self [].
Proof. intros st _ _ _. cbn. by rewrite app_nil_r. Qed.

Lemma emits_print line : emits o y (io (Sys.print line)) [].
Proof. intros st _ _ _. cbn. by rewrite app_nil_r. Qed.

Lemma emits_os_name : emits o y (io Sys.get_os_name) [].
Proof. intros st _ _ _. cbn. by rewrite app_nil_r. Qed.

Lemma emits_year : emits o y get_current_year [].
Proof. intros st _ _ _. cbn. by rewrite app_nil_r. Qed.

Lemma emits_fs_call op : emits o y (io (Sys.fs_call op)) [].
Proof.
  intros st _ _ _. unfold io, Sys.fs_call.
  destruct (op (fs (world st))) as [f [e|]]; cbn; by rewrite app_nil_r.
Qed.

Lemma emits_open_w rel chunks :
  emits o y (io (Sys.open_w (join_all (base_dir o) rel) chunks)) [(rel, Py.concat chunks)].
Proof.
  intros st _ _. unfold io, Sys.open_w.
  destruct (write_file _ _ (fs (world st))) as [f [e|]]; cbn; done.
Qed.

Lemma emits_when (c : bool) (m : M Machine unit) l :
  emits o y m l -> emits o y (when c m) (if c then l else []).
Proof. destruct c; [done|]. intros _. apply emits_ret. Qed.

Lemma emits_if {A} (c : bool) (m1 m2 : M Machine A) l :
  emits o y m1 l -> emits o y m2 l -> emits o y (if c then m1 else m2) l.
Proof. by destruct c. Qed.

(** The value that a step hands on is the object, or the year. *)
Lemma emits_with_self {B} (k : ProjectScaffolder -> M Machine B) l :
  emits o y (k o) l -> emits o y (bind get_self k) l.
Proof. intros Hk st Ho Hy. unfold bind, get_self. rewrite Ho. by apply Hk. Qed.

Lemma emits_with_year {B} (k : Z -> M Machine B) l :
  emits o y (k y) l -> emits o y (bind get_current_year k) l.
Proof.
  intros Hk st Ho Hy. unfold bind, get_current_year, io, Sys.now_year. cbn.
  rewrite Hy. destruct st as [s w]. by apply (Hk (mkMachine s w)).
Qed.

End Emits.

Ltac emits_write :=
lazymatch goal with
| |- emits _ _ _ [(?rel, _)] => apply (emits_open_w _ _ rel)
end.

Ltac emits_step :=
first
  [ apply emits_with_self
  | apply emits_with_year
  | eapply (emits_bind _ _ _ _ [] _ _ eq_refl);
      [solve [steady]
      |first [apply emits_print | apply emits_fs_call | apply emits_os_name]
      |intros ?]
  | eapply (emits_bind _ _ _ _ [_] _ _ eq_refl);
      [solve [steady] | emits_write | intros ?]
  | emits_write
  | apply emits_print
  | apply emits_if ].

Section EmitsMethods.

Import Os Fs.
Context (o : ProjectScaffolder) (y : Z).

Lemma emits_create_directory_structure :
  emits o y (create_directory_structure) (structure_emission o).
Proof.
  unfold create_directory_structure, structure_emission. cbv zeta.
  do 5 emits_step.
  eapply (emits_bind _ _ _ _ _ _ _ eq_refl); [steady| |intros ?].
  - apply emits_when. repeat emits_step.
  - apply emits_when. repeat emits_step.
Qed.

Lemma emits_create_setup_files :
  emits o y create_setup_files
    [ (["setup.py"], Py.concat (setup_py_chunks o));
      (["pyproject.toml"], Py.concat pyproject_chunks);
      (["setup.cfg"], Py.concat setup_cfg_chunks) ].
Proof. unfold create_setup_files. repeat emits_step. Qed.

Lemma emits_create_readme :
  emits o y (create_readme)
    [ (["README.md"], Py.concat (readme_chunks o)) ].
Proof. unfold create_readme. repeat emits_step. Qed.

Lemma emits_create_license :
  emits o y create_license [ (["LICENSE"], Py.concat (license_chunks o y)) ].
Proof. unfold create_license. repeat emits_step. Qed.

Lemma emits_create_gitignore :
  emits o y create_gitignore [ ([".gitignore"], Py.concat gitignore_chunks) ].
Proof. unfold create_gitignore. repeat emits_step. Qed.

Lemma emits_create_makefile :
  emits o y create_makefile [ (["Makefile"], Py.concat makefile_chunks) ].
Proof. unfold create_makefile. repeat emits_step. Qed.

Lemma emits_create_venv : emits o y (create_venv) [].
Proof.
  unfold create_venv. emits_step.
  destruct (use_venv o); cbn [when]; [|apply (emits_ret o y tt)].
  repeat emits_step.
Qed.

Lemma emits_scaffold : emits o y (scaffold) (emission o y).
Proof.
  unfold scaffold, emission, top_emission.
  eapply (emits_bind _ _ _ _ _ _ _ eq_refl);
    [apply steady_create_directory_structure|apply emits_create_directory_structure|intros _].
  eapply (emits_bind _ _ _ _ [_; _; _] _ _ eq_refl);
    [apply steady_create_setup_files|apply emits_create_setup_files|intros _].
  eapply (emits_bind _ _ _ _ [_] _ _ eq_refl);
    [apply steady_create_readme|apply emits_create_readme|intros _].
  eapply (emits_bind _ _ _ _ [_] _ _ eq_refl);
    [apply steady_create_license|apply emits_create_license|intros _].
  eapply (emits_bind _ _ _ _ [_] _ _ eq_refl);
    [apply steady_create_gitignore|apply emits_create_gitignore|intros _].
  eapply (emits_bind _ _ _ _ [_] [] _ eq_refl);
    [apply steady_create_makefile|apply emits_create_makefile|intros _].
  emits_step.
  eapply (emits_bind _ _ _ _ [] [] _ eq_refl);
    [apply steady_when, steady_create_venv| |intros _].
  - destruct (use_venv o); cbn [when]; [apply emits_create_venv|apply (emits_ret o y tt)].
  - repeat emits_step.
Qed.

End EmitsMethods.

(* ================================================================== *)
(** ** The entry point *)
(* ================================================================== *)

Section Main.

Import Os Fs.

Lemma init_returns args w :
  init (arg_project_name args) (negb (arg_no_tests args)) (negb (arg_no_docs args))
    (negb (arg_no_venv args)) (arg_author args) (arg_email args) (arg_description args) w
  = (w, inr (scaffolder_for args w)).
Proof. reflexivity. Qed.

Lemma scaffolder_for_base_dir args w : base_dir (scaffolder_for args w) = target args w.
Proof. reflexivity. Qed.

Lemma scaffolder_for_package_name args w :
  package_name (scaffolder_for args w) = derive (arg_project_name args).
Proof. reflexivity. Qed.

Lemma main_rejects args w :
  path_exists (fs w) (target args w) = true ->
  main args w = (add_stdout (error_line args) w, inl (SystemExit 1)).
Proof.
  intros H. unfold main, bind, Sys.getcwd, Sys.path_exists.
  fold (target args w). by rewrite H.
Qed.

Lemma main_runs args w :
  path_exists (fs w) (target args w) = false ->
  main args w =
  (world (scaffold (mkMachine (scaffolder_for args w) w)).1,
   (scaffold (mkMachine (scaffolder_for args w) w)).2).
Proof.
  intros H. unfold main, bind, Sys.getcwd, Sys.path_exists.
  fold (target args w). rewrite H. cbn [ret]. rewrite init_returns. unfold call.
  by destruct (scaffold _).
Qed.

Lemma exit_status_no_exit {A} (r : exn + A) :
  no_exit r -> exit_status r = if ok r then 0 else 1.
Proof. destruct r as [[]|]; try done. Qed.

Lemma run_main_zero args w w' :
  run_main args w = (w', 0) ->
  path_exists (fs w) (target args w) = false
  /\ scaffold (mkMachine (scaffolder_for args w) w)
     = (mkMachine (scaffolder_for args w) w', inr tt).
Proof.
  unfold run_main. destruct (path_exists (fs w) (target args w)) eqn:E.
  - rewrite (main_rejects _ _ E). done.
  - rewrite (main_runs _ _ E). split; [done|].
    destruct (steady_scaffold (mkMachine (scaffolder_for args w) w))
      as (Hs & _ & Hn).
    destruct (scaffold (mkMachine (scaffolder_for args w) w)) as [[o1 w1] [e|[]]];
      cbn in *.
    + destruct e; try done.
    + congruence.
Qed.

End Main.

(* ================================================================== *)
(** ** The properties of the specification *)
(* ================================================================== *)

Section Claims.

Import Os Fs.

(** C1. When the path that [main] checks exists (in particular when
    the working directory has an entry, file or directory, with the
    project name, and in particular in the world that a successful run
    with the same arguments has left), the run prints the error line,
    exits with status 1, and changes nothing else: the file system and
    the record of emitted files are those of the start. *)
Theorem existing_target_rejected (args : Args) (w : World) :
  (path_exists (fs w) (target args w) = true
   \/ (exists cq n,
         resolve (fs w) (cwd w) = Some cq /\ is_dir (fs w) cq = true
         /\ simple_name (arg_project_name args) = true
         /\ fs w !! (cq ++ [arg_project_name args]) = Some n)
   \/ (exists w0, run_main args w0 = (w, 0))) ->
  run_main args w = (add_stdout (error_line args) w, 1).
Proof.
  intros H.
  assert (path_exists (fs w) (target args w) = true) as Hex.
  { destruct H as [H|[(cq & n & Hr & Hd & Hs & Hn)|(w0 & H0)]]; [done| |].
    - unfold path_exists, target. rewrite (resolve_join _ _ _ _ Hr Hs), Hd.
      rewrite node_at_snoc, Hn. apply bool_decide_eq_true. eauto.
    - apply run_main_zero in H0 as [_ H0].
      destruct (scaffold_at_base _ _ H0) as (b & Hb).
      destruct (steady_scaffold (mkMachine (scaffolder_for args w0) w0))
        as (_ & (_ & Hc & _) & _).
      rewrite H0 in Hc. cbn in Hc.
      apply path_isdir_exists. unfold path_isdir, target. rewrite Hc.
      destruct Hb as [Hr Hd]. cbn [world self_obj] in Hr, Hd.
      rewrite scaffolder_for_base_dir in Hr. unfold target in Hr. by rewrite Hr. }
  unfold run_main. by rewrite (main_rejects _ _ Hex).
Qed.

(** C10. Deriving a package name from a derived package name changes
    nothing, and a derived package name has no hyphen. *)
Theorem package_name_idempotent (name : string) (tests docs venv : bool)
    (auth mail descr : string) (w : World) :
  exists obj obj',
    init name tests docs venv auth mail descr w = (w, inr obj)
    /\ init (package_name obj) tests docs venv auth mail descr w = (w, inr obj')
    /\ package_name obj' = package_name obj
    /\ Py.contains_char "-" (package_name obj) = false.
Proof.
  do 2 eexists. split; [reflexivity|]. split; [reflexivity|]. split.
  - apply derive_idem.
  - apply derive_no_hyphen.
Qed.

(** C9. The constructor computes the attributes, and no method
    changes them: each of the eight operations leaves the object as it
    found it, whether it returns or raises. *)
Theorem methods_keep_object (st : Machine) :
  self_obj (create_directory_structure st).1 = self_obj st
  /\ self_obj (create_setup_files st).1 = self_obj st
  /\ self_obj (create_readme st).1 = self_obj st
  /\ self_obj (create_license st).1 = self_obj st
  /\ self_obj (create_gitignore st).1 = self_obj st
  /\ self_obj (create_venv st).1 = self_obj st
  /\ self_obj (create_makefile st).1 = self_obj st
  /\ self_obj (scaffold st).1 = self_obj st.
Proof.
  repeat split.
  - apply steady_create_directory_structure.
  - apply steady_create_setup_files.
  - apply steady_create_readme.
  - apply steady_create_license.
  - apply steady_create_gitignore.
  - apply steady_create_venv.
  - apply steady_create_makefile.
  - apply steady_scaffold.
Qed.

End Claims.

Section PlanFacts.

Import Os Fs.

(** The plan and the emission are functions of the configuration. *)
Lemma plan_same_config o1 o2 y : same_config o1 o2 -> plan o1 y = plan o2 y.
Proof.
  destruct o1, o2. unfold same_config. cbn.
  intros (-> & -> & -> & -> & -> & -> & -> & ->). reflexivity.
Qed.

Lemma emission_same_config o1 o2 y :
  same_config o1 o2 -> emission o1 y = emission o2 y.
Proof.
  destruct o1, o2. unfold same_config. cbn.
  intros (-> & -> & -> & -> & -> & -> & -> & ->). reflexivity.
Qed.

(** The shape of the plan does not depend on the year. *)
Lemma plan_shape o y1 y2 : shape (plan o y1) = shape (plan o y2).
Proof. unfold plan, shape. by rewrite !map_app. Qed.

Lemma venv_entries_head o (c : string) rel :
  c :: rel ∈ map fst (venv_entries o) -> c = "venv" /\ use_venv o = true.
Proof.
  unfold venv_entries. destruct (use_venv o); [|by intros ?%elem_of_nil].
  cbn [map fst]. intros [H|H]%elem_of_cons; [by injection H as -> _|].
  destruct venv_payload as [tree|]; [|by apply elem_of_nil in H].
  unfold below in H. rewrite map_map in H. cbn in H.
  apply list_elem_of_fmap in H as (e & He & _). by injection He as -> _.
Qed.

Lemma venv_entries_dir o : use_venv o = true -> (["venv"], Dir) ∈ venv_entries o.
Proof. unfold venv_entries. intros ->. apply elem_of_cons. by left. Qed.

(** When [scaffold] returns for a package name that is one path
    component, the plan was installed below the project directory. *)
Lemma scaffold_installs st st' :
  let o := self_obj st in
  simple_name (package_name o) = true ->
  scaffold st = (st', inr tt) ->
  exists f0 b,
    makedirs (base_dir o) (fs (world st)) = (f0, None)
    /\ resolve f0 (base_dir o) = Some b /\ is_dir f0 b = true
    /\ install EmptyString b (plan o (year (world st))) f0 = (fs (world st'), None)
    /\ at_base b st' /\ self_obj st' = o /\ broken o = false.
Proof.
  cbn zeta. intros Hp Hs.
  pose proof (scaffold_start st) as H0. cbn zeta in H0.
  destruct (makedirs (base_dir (self_obj st)) (fs (world st))) as [f0 [e|]] eqn:Hm;
    [congruence|].
  destruct (scaffold_effect st f0 Hp Hm) as (b & Hr & Hd & Hf & Hok).
  exists f0, b. rewrite Hs in Hf, Hok. cbn [fst snd ok] in Hf, Hok.
  destruct Hok as [Hok _]. destruct (Hok eq_refl) as [Hi Hbr].
  split; [done|]. split; [done|]. split; [done|]. split.
  { rewrite Hf. clear Hf Hok. destruct (install _ _ _ _) as [f1 r1]. cbn in Hi. by rewrite Hi. }
  destruct (steady_scaffold st) as (Hself & _ & _).
  rewrite Hs in Hself. cbn in Hself. split; [|done].
  destruct (scaffold_at_base _ _ Hs) as (b' & Hb').
  assert (b' = b) as ->; [|done].
  destruct Hb' as [Hr' _]. rewrite Hself in Hr'.
  assert (extends f0 (fs (world st'))) as Hext.
  { rewrite Hf. apply install_extends. }
  rewrite (resolve_mono _ _ _ _ Hext Hr) in Hr'. congruence.
Qed.

(** For any object: when [scaffold] returns, the files and the
    environment of the project directory were installed. *)
Lemma scaffold_top_files st st' :
  let o := self_obj st in
  scaffold st = (st', inr tt) ->
  exists f1 b,
    at_base b st' /\ self_obj st' = o
    /\ install EmptyString b
         (top_file_entries o (year (world st)) ++ venv_entries o) f1
       = (fs (world st'), None).
Proof.
  cbn zeta. rewrite scaffold_unfold. intros H.
  apply bind_inv in H as (st1 & [] & H1 & H2).
  destruct (create_directory_structure_at_base _ _ H1) as (b & Hb).
  destruct (steady_create_directory_structure st) as (Hs1 & (_ & _ & Hy1 & _) & _).
  rewrite H1 in Hs1, Hy1. cbn [fst] in Hs1, Hy1.
  destruct (steady_after_structure st1) as (Hs2 & _ & _).
  pose proof (at_base_steady b _ st1 (steady_after_structure) Hb) as Hb2.
  rewrite H2 in Hs2, Hb2. cbn [fst] in Hs2, Hb2.
  destruct (realizes_after_structure (self_obj st) (year (world st)) b
              st1 Hs1 Hy1 Hb) as [Hf Hok].
  rewrite H2 in Hf, Hok. cbn [fst snd ok] in Hf, Hok.
  destruct Hok as [Hok _]. destruct (Hok eq_refl) as [Hi _].
  exists (fs (world st1)), b. split; [done|]. split; [congruence|].
  rewrite Hf. clear Hf Hok. destruct (install _ _ _ _) as [f2 r2]. cbn in Hi. by rewrite Hi.
Qed.

(** Reading back an entry of the project directory. *)
Lemma read_at_base b st (c x : string) :
  at_base b st -> simple_name c = true ->
  node_at (fs (world st)) (b ++ [c]) = Some (File x) ->
  read_file (fs (world st)) (Py.path_join (base_dir (self_obj st)) c) = Some x.
Proof.
  intros [Hr Hd] Hc Hn. unfold read_file.
  by rewrite (resolve_join _ _ _ _ Hr Hc), Hd, Hn.
Qed.

Lemma read_sub_at_base b st (d c x : string) :
  at_base b st -> simple_name d = true -> simple_name c = true ->
  is_dir (fs (world st)) (b ++ [d]) = true ->
  node_at (fs (world st)) (b ++ [d; c]) = Some (File x) ->
  read_file (fs (world st)) (Py.path_join (Py.path_join (base_dir (self_obj st)) d) c)
  = Some x.
Proof.
  intros [Hr Hd] Hdn Hc Hdd Hn. unfold read_file.
  assert (resolve (fs (world st)) (Py.path_join (base_dir (self_obj st)) d)
          = Some (b ++ [d])) as Hr1 by by rewrite (resolve_join _ _ _ _ Hr Hdn), Hd.
  rewrite (resolve_join _ _ _ _ Hr1 Hc), Hdd.
  replace ((b ++ [d]) ++ [c]) with (b ++ [d; c]) by by rewrite <- app_assoc.
  by rewrite Hn.
Qed.

End PlanFacts.

Section Claims2.

Import Os Fs.

Lemma not_in_venv_entries o (c : string) rel :
  c <> "venv" -> c :: rel ∉ map fst (venv_entries o).
Proof. intros Hc Hin. by apply venv_entries_head in Hin as [? _]. Qed.

Lemma scaffold_setup_cfg st st' :
  scaffold st = (st', inr tt) ->
  read_file (fs (world st')) (Py.path_join (base_dir (self_obj st)) "setup.cfg")
  = Some setup_cfg_text.
Proof.
  intros H. destruct (scaffold_top_files _ _ H) as (f1 & b & Hb & Hs & Hi).
  rewrite <- Hs. apply (read_at_base b); [done|done|].
  eapply (install_last _ _ [_; _] ["setup.cfg"] _ (_ :: _ :: _ :: _ :: venv_entries _));
    [exact Hi|].
  cbn [map fst]. rewrite !not_elem_of_cons. repeat split; try done.
  by apply not_in_venv_entries.
Qed.

Lemma scaffold_makefile st st' :
  scaffold st = (st', inr tt) ->
  read_file (fs (world st')) (Py.path_join (base_dir (self_obj st)) "Makefile")
  = Some makefile_text.
Proof.
  intros H. destruct (scaffold_top_files _ _ H) as (f1 & b & Hb & Hs & Hi).
  rewrite <- Hs. apply (read_at_base b); [done|done|].
  eapply (install_last _ _ [_; _; _; _; _; _] ["Makefile"] _ (venv_entries _));
    [exact Hi|].
  by apply not_in_venv_entries.
Qed.

Lemma scaffold_license st st' :
  scaffold st = (st', inr tt) ->
  read_file (fs (world st')) (Py.path_join (base_dir (self_obj st)) "LICENSE")
  = Some (Py.concat (license_chunks (self_obj st) (year (world st)))).
Proof.
  intros H. destruct (scaffold_top_files _ _ H) as (f1 & b & Hb & Hs & Hi).
  rewrite <- Hs at 1. apply (read_at_base b); [done|done|].
  eapply (install_last _ _ [_; _; _; _] ["LICENSE"] _ (_ :: _ :: venv_entries _));
    [exact Hi|].
  cbn [map fst]. rewrite !not_elem_of_cons. repeat split; try done.
  by apply not_in_venv_entries.
Qed.

Lemma test_module_not_init (p : string) : "test_" +:+ p +:+ ".py" <> "__init__.py".
Proof.
  change ("test_" +:+ p +:+ ".py")
    with (String "t" (String "e" (String "s" (String "t" (String "_" (p +:+ ".py")))))).
  done.
Qed.

Lemma scaffold_tests_init st st' :
  use_tests (self_obj st) = true -> simple_name (package_name (self_obj st)) = true ->
  scaffold st = (st', inr tt) ->
  read_file (fs (world st'))
    (Py.path_join (Py.path_join (base_dir (self_obj st)) "tests") "__init__.py")
  = Some tests_init_text.
Proof.
  intros Ht Hp H.
  destruct (scaffold_installs _ _ Hp H) as (f0 & b & Hm & Hr & Hd & Hi & Hb & Hs & _).
  pose proof (install_fits _ _ _ _ _ Hi) as Hfit.
  unfold plan, structure_entries in Hi, Hfit. rewrite Ht in Hi, Hfit.
  rewrite <- Hs. apply (read_sub_at_base b); [done|done|done| |].
  - unfold fits in Hfit. rewrite Forall_forall in Hfit.
    destruct (Hfit (["tests"], Dir)) as [_ Hk]; [in_list|].
    cbn in Hk. unfold is_dir. by destruct (node_at _ _) as [[?|]|].
  - eapply (install_last _ _ [_; _; _] ["tests"; "__init__.py"] _
              (_ :: ((if use_docs _ then _ else _) ++ _)));
      [exact Hi|].
    cbn [map fst]. rewrite not_elem_of_cons, map_app, not_elem_of_app. split; [|split].
    + intros [=].
    + destruct (use_docs _); cbn [map fst]; not_in_list.
    + rewrite map_app, not_elem_of_app.
      split; [unfold top_file_entries; cbn [map fst]; not_in_list|].
      by apply not_in_venv_entries.
Qed.

(** C5. The text of [setup.cfg], of [Makefile] and of
    [tests/__init__.py] is the same for every object: the three texts
    are constants.  They hold the placeholders as they stand in the
    source: four lines of [setup.cfg], the docstring of
    [tests/__init__.py], and the recipes of the [lint] and [coverage]
    targets of the [Makefile].  When [scaffold] returns, these texts
    are what it has emitted for the three files and what the files
    hold. *)
Theorem placeholders_are_literal (st st' : Machine) :
  scaffold st = (st', inr tt) ->
  let o := self_obj st in
  let emit := emission o (year (world st)) in
  emitted (world st') = emitted (world st) ++ emitted_under (base_dir o) emit
  /\ (["setup.cfg"], setup_cfg_text) ∈ emit
  /\ (["Makefile"], makefile_text) ∈ emit
  /\ (use_tests o = true -> (["tests"; "__init__.py"], tests_init_text) ∈ emit)
  /\ read_file (fs (world st')) (Py.path_join (base_dir o) "setup.cfg")
     = Some setup_cfg_text
  /\ read_file (fs (world st')) (Py.path_join (base_dir o) "Makefile")
     = Some makefile_text
  /\ (use_tests o = true -> simple_name (package_name o) = true ->
      read_file (fs (world st'))
        (Py.path_join (Py.path_join (base_dir o) "tests") "__init__.py")
      = Some tests_init_text)
  /\ Forall (fun l => l ∈ lines setup_cfg_text)
       [ "name = {self.project_name}"; "description = {self.description}";
         "author = {self.author}"; "    {self.package_name}" ]
  /\ contains "{self.package_name}" tests_init_text = true
  /\ contains ("lint:" +:+ Py.nl +:+ Py.tab +:+ "flake8 {self.package_name} tests" +:+ Py.nl)
       makefile_text = true
  /\ contains ("coverage:" +:+ Py.nl +:+ Py.tab
               +:+ "coverage run --source {self.package_name} -m pytest" +:+ Py.nl)
       makefile_text = true.
Proof.
  intros H o emit. split.
  { pose proof (emits_scaffold o (year (world st)) st
                  eq_refl eq_refl) as X.
    rewrite H in X. by apply X. }
  split. { unfold emit, emission, top_emission. in_list. }
  split. { unfold emit, emission, top_emission. in_list. }
  split. { intros Ht. unfold emit, emission, structure_emission. rewrite Ht. in_list. }
  split; [by apply scaffold_setup_cfg|].
  split; [by apply scaffold_makefile|].
  split; [intros; by apply scaffold_tests_init|].
  split. { repeat constructor; by vm_compute; repeat (first [left|right]). }
  repeat split; by vm_compute.
Qed.

End Claims2.

Section Claims3.

Import Os Fs.

(** [scaffold] on the tree that a run of [scaffold] has left. *)
Lemma scaffold_again st st1 w2 :
  simple_name (package_name (self_obj st)) = true ->
  scaffold st = (st1, inr tt) ->
  fs w2 = fs (world st1) ->
  path_exists (fs w2) (base_dir (self_obj st)) = true
  /\ ok (scaffold (mkMachine (self_obj st) w2)).2 = true.
Proof.
  intros Hp H Hfs.
  destruct (scaffold_installs _ _ Hp H) as (f0 & b & Hm & Hr & Hd & Hi & Hb & Hs & Hbr).
  destruct Hb as [Hr1 Hd1]. rewrite Hs in Hr1. rewrite <- Hfs in Hr1, Hd1.
  assert (path_isdir (fs w2) (base_dir (self_obj st)) = true) as Hdir.
  { unfold path_isdir. by rewrite Hr1. }
  split; [by apply path_isdir_exists|].
  pose proof (makedirs_existing _ _ Hdir) as Hm2.
  destruct (scaffold_effect (mkMachine (self_obj st) w2) (fs w2) Hp Hm2)
    as (b2 & Hr2 & Hd2 & _ & Hok).
  cbn [self_obj world] in *. apply Hok. split; [|done].
  assert (b2 = b) as -> by congruence.
  apply install_fits in Hi. rewrite <- Hfs in Hi.
  apply (fits_shape _ _ (plan (self_obj st) (year w2))) in Hi; [|apply plan_shape].
  destruct (fits_install EmptyString _ _ _ Hi) as [f' ->]. done.
Qed.

End Claims3.

Section Layout.

Import Os Fs.
Implicit Types (f : gmap (list string) node) (q b rel : list string) (n : node).

Lemma elem_of_listdir f q (c : string) : c ∈ listdir f q <-> is_Some (f !! (q ++ [c])).
Proof.
  unfold listdir. rewrite elem_of_list_to_set, list_elem_of_omap. split.
  - intros (k & Hk & Hg). apply elem_of_elements, elem_of_dom in Hk.
    destruct (last k) as [c'|]; [|done].
    destruct (decide (k = q ++ [c'])) as [->|]; [|done]. by injection Hg as ->.
  - intros H. exists (q ++ [c]). split.
    + by apply elem_of_elements, elem_of_dom.
    + rewrite last_snoc. by rewrite decide_True.
Qed.

(** In a tree-shaped file system nothing lies below a path that is
    not there. *)
Lemma fresh_below f b rel :
  tree_shaped f -> b <> [] -> f !! b = None -> f !! (b ++ rel) = None.
Proof.
  intros Ht Hb Hn. induction rel as [|c rel IH] using rev_ind.
  - by rewrite app_nil_r.
  - destruct (f !! (b ++ rel ++ [c])) as [n|] eqn:E; [|done]. exfalso.
    rewrite app_assoc in E.
    assert (is_dir f (b ++ rel) = true) as Hd by (apply (Ht _ c); eauto).
    unfold is_dir in Hd. rewrite node_at_ne in Hd by by destruct b.
    by rewrite IH in Hd.
Qed.


Lemma same_kind_is_dir f q : same_kind (node_at f q) Dir = true <-> is_dir f q = true.
Proof. unfold is_dir. by destruct (node_at f q) as [[?|]|]. Qed.

Lemma same_kind_is_file f q c : same_kind (node_at f q) (File c) = true <-> is_file f q = true.
Proof. unfold is_file. by destruct (node_at f q) as [[?|]|]. Qed.

Lemma is_dir_Some f q : is_dir f q = true -> is_Some (node_at f q).
Proof. unfold is_dir. destruct (node_at f q) as [[?|]|]; eauto; done. Qed.

Lemma is_file_Some f q : is_file f q = true -> is_Some (node_at f q).
Proof. unfold is_file. destruct (node_at f q) as [[?|]|]; eauto; done. Qed.

(** A successful installation into a fresh directory leaves exactly
    the entries of the tree below it. *)
Lemma install_exact s b tree f f' :
  tree_shaped f -> b <> [] -> f !! b = None ->
  install s b tree (<[b := Dir]> f) = (f', None) ->
  forall rel, is_Some (f' !! (b ++ rel)) <-> rel = [] \/ rel ∈ map fst tree.
Proof.
  intros Ht Hb Hn Hi rel. split.
  - intros Hs. destruct (decide (rel = [])) as [|Hrel]; [by left|]. right.
    destruct (decide (rel ∈ map fst tree)) as [|Hnot]; [done|]. exfalso.
    assert (f' !! (b ++ rel) = (<[b := Dir]> f) !! (b ++ rel)) as E.
    { replace f' with (install s b tree (<[b := Dir]> f)).1 by by rewrite Hi.
      apply install_frame. intros Hin.
      apply list_elem_of_fmap in Hin as ([rel' n'] & Heq & Hin). cbn in Heq.
      apply app_inv_head in Heq as ->. apply Hnot, list_elem_of_fmap. by exists (rel', n'). }
    rewrite E, lookup_insert_ne in Hs.
    + rewrite (fresh_below _ _ _ Ht Hb Hn) in Hs. by destruct Hs.
    + intros Heq. apply Hrel. rewrite <- (app_nil_r b) in Heq at 1.
      by apply app_inv_head in Heq.
  - assert (extends (<[b := Dir]> f) f') as Hext.
    { pose proof (install_extends s b tree (<[b := Dir]> f)) as X. by rewrite Hi in X. }
    intros [->|Hin].
    + rewrite app_nil_r. specialize (Hext b). rewrite lookup_insert_eq in Hext.
      rewrite Hext. eauto.
    + apply list_elem_of_fmap in Hin as ([rel' n'] & -> & Hin). cbn.
      apply install_fits in Hi. unfold fits in Hi. rewrite Forall_forall in Hi.
      destruct (Hi _ Hin) as [_ Hk]. cbn in Hk.
      rewrite <- node_at_ne by by destruct b.
      destruct (node_at f' (b ++ rel')) as [?|]; [eauto|done].
Qed.

End Layout.

Section PlanEntries.

Import Os Fs.

Context (o : ProjectScaffolder) (y : Z).

Lemma plan_paths :
  map fst (plan o y) =
  [ [package_name o]; [package_name o; "__init__.py"] ]
  ++ (if use_tests o
      then [ ["tests"]; ["tests"; "__init__.py"];
             ["tests"; "test_" +:+ package_name o +:+ ".py"] ]
      else [])
  ++ (if use_docs o then [ ["docs"]; ["docs"; "index.md"] ] else [])
  ++ [ ["setup.py"]; ["pyproject.toml"]; ["setup.cfg"]; ["README.md"]; ["LICENSE"];
       [".gitignore"]; ["Makefile"] ]
  ++ map fst (venv_entries o).
Proof.
  unfold plan, structure_entries. rewrite !map_app.
  by destruct (use_tests o), (use_docs o).
Qed.

Lemma venv_single (c : string) :
  [c] ∈ map fst (venv_entries o) <-> c = "venv" /\ use_venv o = true.
Proof.
  split; [apply venv_entries_head|]. intros [-> H].
  apply list_elem_of_fmap. exists (["venv"], Dir). split; [done|].
  by apply venv_entries_dir.
Qed.

Lemma single_cons_one (c x : string) (l : list (list string)) :
  [c] ∈ [x] :: l <-> c = x \/ [c] ∈ l.
Proof. rewrite elem_of_cons. split; intros [H|H]; auto; left; congruence. Qed.

Lemma single_cons_two (c x x' : string) (t : list string) (l : list (list string)) :
  [c] ∈ (x :: x' :: t) :: l <-> [c] ∈ l.
Proof. rewrite elem_of_cons. split; [by intros [H|H]|auto]. Qed.

Lemma top_names_plan (c : string) : [c] ∈ map fst (plan o y) <-> c ∈ top_names o.
Proof.
  rewrite plan_paths. unfold top_names. rewrite !elem_of_app, venv_single.
  assert ([c] ∈ [[package_name o]; [package_name o; "__init__.py"]]
          <-> c = package_name o) as E1.
  { rewrite single_cons_one, single_cons_two, elem_of_nil. tauto. }
  assert ([c] ∈ (if use_tests o
                 then [["tests"]; ["tests"; "__init__.py"];
                       ["tests"; "test_" +:+ package_name o +:+ ".py"]]
                 else [])
          <-> c ∈ (if use_tests o then ["tests"] else [])) as E2.
  { destruct (use_tests o); [|by rewrite !elem_of_nil].
    rewrite single_cons_one, !single_cons_two, elem_of_cons, !elem_of_nil. tauto. }
  assert ([c] ∈ (if use_docs o then [["docs"]; ["docs"; "index.md"]] else [])
          <-> c ∈ (if use_docs o then ["docs"] else [])) as E3.
  { destruct (use_docs o); [|by rewrite !elem_of_nil].
    rewrite single_cons_one, !single_cons_two, elem_of_cons, !elem_of_nil. tauto. }
  assert ([c] ∈ [["setup.py"]; ["pyproject.toml"]; ["setup.cfg"]; ["README.md"];
                 ["LICENSE"]; [".gitignore"]; ["Makefile"]]
          <-> c ∈ ["setup.py"; "pyproject.toml"; "setup.cfg"; "README.md"; "LICENSE";
                   ".gitignore"; "Makefile"]) as E4.
  { rewrite !single_cons_one, !elem_of_cons, !elem_of_nil. tauto. }
  assert (c ∈ (if use_venv o then ["venv"] else []) <-> c = "venv" /\ use_venv o = true)
    as E5.
  { destruct (use_venv o); rewrite ?elem_of_cons, !elem_of_nil; intuition done. }
  rewrite (elem_of_cons _ c (package_name o)). tauto.
Qed.

Lemma tests_module_planned :
  ["tests"; "test_" +:+ package_name o +:+ ".py"] ∈ map fst (plan o y) ->
  use_tests o = true.
Proof.
  rewrite plan_paths, !elem_of_app.
  destruct (use_tests o); [done|]. intros H. exfalso.
  destruct H as [H|[H|[H|[H|H]]]]; try absent H.
  - destruct (use_docs o); absent H.
  - by apply venv_entries_head in H as [[=] _].
Qed.

Lemma docs_index_planned :
  ["docs"; "index.md"] ∈ map fst (plan o y) -> use_docs o = true.
Proof.
  rewrite plan_paths, !elem_of_app.
  destruct (use_docs o); [done|]. intros H. exfalso.
  destruct H as [H|[H|[H|[H|H]]]]; try absent H.
  - destruct (use_tests o); absent H.
  - by apply venv_entries_head in H as [[=] _].
Qed.

Lemma venv_name_listed :
  "venv" ∈ top_names o -> use_venv o = true \/ package_name o = "venv".
Proof.
  unfold top_names. rewrite !elem_of_app. intros [H|[H|[H|H]]].
  - apply elem_of_cons in H as [H|H]; [by right|]. absent H.
  - destruct (use_tests o); absent H.
  - destruct (use_docs o); absent H.
  - destruct (use_venv o); [by left|absent H].
Qed.

(** The entries that are always planned, and those planned under a
    flag. *)
Lemma planned_always :
  ([package_name o], Dir) ∈ plan o y
  /\ (exists c, ([package_name o; "__init__.py"], File c) ∈ plan o y)
  /\ Forall (fun name => exists c, ([name], File c) ∈ plan o y)
       [ "setup.py"; "pyproject.toml"; "setup.cfg"; "README.md"; "LICENSE";
         ".gitignore"; "Makefile" ].
Proof.
  unfold plan, structure_entries, top_file_entries, text.
  split; [in_list|]. split; [eexists; in_list|].
  repeat constructor; eexists; in_list.
Qed.

Lemma planned_tests :
  use_tests o = true ->
  (["tests"], Dir) ∈ plan o y
  /\ (exists c, (["tests"; "__init__.py"], File c) ∈ plan o y)
  /\ (exists c, (["tests"; "test_" +:+ package_name o +:+ ".py"], File c) ∈ plan o y).
Proof.
  intros H. unfold plan, structure_entries, text. rewrite H.
  split; [in_list|]. split; eexists; in_list.
Qed.

Lemma planned_docs :
  use_docs o = true ->
  (["docs"], Dir) ∈ plan o y /\ (exists c, (["docs"; "index.md"], File c) ∈ plan o y).
Proof.
  intros H. unfold plan, structure_entries, text. rewrite H.
  split; [in_list|]. eexists; in_list.
Qed.

Lemma planned_venv : use_venv o = true -> (["venv"], Dir) ∈ plan o y.
Proof.
  intros H. unfold plan. rewrite !elem_of_app. right. right.
  by apply venv_entries_dir.
Qed.

End PlanEntries.

Section Claims4.

Import Os Fs.

(** The first step of a run on a fresh name in a working directory
    that is there: the project directory is made, and only it. *)
Lemma fresh_target args w cq :
  resolve (fs w) (cwd w) = Some cq -> is_dir (fs w) cq = true ->
  simple_name (arg_project_name args) = true ->
  path_exists (fs w) (target args w) = false ->
  let b := cq ++ [arg_project_name args] in
  fs w !! b = None
  /\ makedirs (target args w) (fs w) = (<[b := Dir]> (fs w), None)
  /\ resolve (<[b := Dir]> (fs w)) (target args w) = Some b.
Proof.
  intros Hr Hd Hs Hex b.
  assert (resolve (fs w) (target args w) = Some b) as Hrb.
  { unfold target. by rewrite (resolve_join _ _ _ _ Hr Hs), Hd. }
  assert (fs w !! b = None) as Hn.
  { unfold path_exists in Hex. rewrite Hrb in Hex.
    apply bool_decide_eq_false in Hex. unfold b in *. rewrite node_at_snoc in Hex.
    destruct (fs w !! (cq ++ [arg_project_name args])); [|done]. destruct Hex. eauto. }
  split; [done|].
  pose proof (makedirs_join EmptyString _ _ _ _ Hr Hd Hs) as [M1 M2].
  fold (target args w) in M1, M2. fold b in M1, M2.
  unfold put in M1, M2. unfold b in M1, M2 at 1. rewrite removelast_snoc, Hd in M1, M2.
  fold b in M1, M2. rewrite (node_at_ne _ b) in M1, M2 by (unfold b; by destruct cq).
  rewrite Hn in M1, M2. cbn in M1, M2.
  assert (makedirs (target args w) (fs w) = (<[b := Dir]> (fs w), None)) as Hm.
  { destruct (makedirs (target args w) (fs w)) as [f0 r0]. cbn in *.
    subst f0. f_equal. by apply M2. }
  split; [done|].
  eapply resolve_mono; [|exact Hrb].
  pose proof (makedirs_extends (target args w) (fs w)) as X. by rewrite Hm in X.
Qed.

(** C2 (as amended). A run of [scaffold] that returns, started on a
    fresh project name in a working directory that is there, leaves
    below the project directory exactly the entries of the plan.  The
    project directory holds exactly the package directory, the seven
    files, and [tests], [docs] and [venv] for the flags that are set;
    the package directory holds [__init__.py]; a [tests] directory with
    its two files is there exactly when the tests flag is set, a [docs]
    directory with [index.md] exactly when the docs flag is set, and a
    [venv] directory exactly when the environment flag is set or the
    package is itself called venv. *)
Theorem fresh_scaffold_layout (args : Args) (w : World) (cq : list string)
    (st' : Machine) :
  tree_shaped (fs w) ->
  resolve (fs w) (cwd w) = Some cq -> is_dir (fs w) cq = true ->
  simple_name (arg_project_name args) = true ->
  path_exists (fs w) (target args w) = false ->
  scaffold (mkMachine (scaffolder_for args w) w) = (st', inr tt) ->
  let o := scaffolder_for args w in
  let b := cq ++ [arg_project_name args] in
  let f' := fs (world st') in
  resolve f' (base_dir o) = Some b
  /\ (forall rel, is_Some (f' !! (b ++ rel)) <-> rel = [] \/ rel ∈ map fst (plan o (year w)))
  /\ listdir f' b = list_to_set (top_names o)
  /\ is_dir f' b = true
  /\ is_dir f' (b ++ [package_name o]) = true
  /\ is_file f' (b ++ [package_name o; "__init__.py"]) = true
  /\ Forall (fun name => is_file f' (b ++ [name]) = true)
       [ "setup.py"; "pyproject.toml"; "setup.cfg"; "README.md"; "LICENSE";
         ".gitignore"; "Makefile" ]
  /\ (is_dir f' (b ++ ["tests"]) = true
      /\ is_file f' (b ++ ["tests"; "__init__.py"]) = true
      /\ is_file f' (b ++ ["tests"; "test_" +:+ package_name o +:+ ".py"]) = true
      <-> use_tests o = true)
  /\ (is_dir f' (b ++ ["docs"]) = true /\ is_file f' (b ++ ["docs"; "index.md"]) = true
      <-> use_docs o = true)
  /\ (is_dir f' (b ++ ["venv"]) = true
      <-> use_venv o = true \/ package_name o = "venv").
Proof.
  intros Ht Hr Hd Hs Hex Hrun o b f'.
  assert (simple_name (package_name o) = true) as Hp by by apply derive_simple.
  destruct (fresh_target args w cq Hr Hd Hs Hex) as (Hn & Hm & Hrb). fold b in Hn, Hm, Hrb.
  destruct (scaffold_installs (mkMachine o w) st' Hp Hrun)
    as (f0 & b' & Hm' & Hr' & Hd' & Hi & [Hb1 Hb2] & Hso & _).
  cbn [self_obj] in Hso. rewrite Hso in Hb1. fold f' in Hb1, Hb2.
  cbn [self_obj world] in Hm', Hr', Hi. fold o in Hm', Hr', Hi.
  change (base_dir o) with (target args w) in Hm', Hr'.
  rewrite Hm in Hm'. injection Hm' as <-.
  assert (b' = b) as -> by congruence. fold f' in Hi.
  assert (b <> []) as Hbne by (unfold b; by destruct cq).
  pose proof (install_exact _ _ _ _ _ Ht Hbne Hn Hi) as Hexact.
  pose proof (install_fits _ _ _ _ _ Hi) as Hfit.
  unfold fits in Hfit. rewrite Forall_forall in Hfit.
  assert (forall rel, is_dir f' (b ++ rel) = true -> rel <> [] ->
            rel ∈ map fst (plan o (year w))) as Hdir_in.
  { intros rel H Hne. apply is_dir_Some in H. rewrite node_at_ne in H by by destruct b.
    apply Hexact in H as [?|?]; done. }
  assert (forall rel, is_file f' (b ++ rel) = true -> rel <> [] ->
            rel ∈ map fst (plan o (year w))) as Hfile_in.
  { intros rel H Hne. apply is_file_Some in H. rewrite node_at_ne in H by by destruct b.
    apply Hexact in H as [?|?]; done. }
  assert (forall rel, (rel, Dir) ∈ plan o (year w) -> is_dir f' (b ++ rel) = true) as Hdir.
  { intros rel H. apply same_kind_is_dir. by destruct (Hfit _ H). }
  assert (forall rel, (exists c, (rel, File c) ∈ plan o (year w)) ->
            is_file f' (b ++ rel) = true) as Hfile.
  { intros rel [c H]. apply (same_kind_is_file _ _ c). by destruct (Hfit _ H). }
  destruct (planned_always o (year w)) as (P1 & P2 & P3).
  split; [done|]. split; [done|]. split.
  { apply set_eq. intros c. rewrite elem_of_listdir, elem_of_list_to_set.
    rewrite (Hexact [c]), <- top_names_plan.
    split; [by intros [[=]|?]|auto]. }
  split; [done|]. split; [by apply Hdir|]. split; [by apply Hfile|]. split.
  { eapply Forall_impl; [exact P3|]. intros name H. by apply Hfile. }
  split; [|split].
  - split.
    + intros (_ & _ & H). apply Hfile_in in H; [|done].
      by apply tests_module_planned in H.
    + intros H. destruct (planned_tests o (year w) H) as (T1 & T2 & T3).
      auto.
  - split.
    + intros (_ & H). apply Hfile_in in H; [|done]. by apply docs_index_planned in H.
    + intros H. destruct (planned_docs o (year w) H) as (T1 & T2).
      auto.
  - split.
    + intros H. apply Hdir_in in H; [|done]. apply top_names_plan in H.
      by apply venv_name_listed.
    + intros [H|H].
      * by apply Hdir, planned_venv.
      * rewrite <- H. by apply Hdir.
Qed.

End Claims4.

Section Claims5.

Import Os Fs.

Lemma emission_paths o y : map fst (emission o y) = text_files o.
Proof.
  unfold emission, structure_emission, text_files. rewrite !map_app.
  by destruct (use_tests o), (use_docs o).
Qed.

Lemma text_file_planned o y rel :
  rel ∈ text_files o -> exists c, (rel, File c) ∈ plan o y.
Proof.
  unfold text_files, plan, structure_entries, top_file_entries, text.
  rewrite !elem_of_app.
  destruct (use_tests o), (use_docs o); rewrite !elem_of_cons, !elem_of_nil;
    intros H; repeat (destruct H as [H|H]); try done; subst rel; eexists; in_list.
Qed.

Lemma text_file_shape o rel :
  simple_name (package_name o) = true ->
  rel ∈ text_files o ->
  (exists c, rel = [c] /\ simple_name c = true)
  \/ (exists d c, rel = [d; c] /\ simple_name d = true /\ simple_name c = true).
Proof.
  intros Hp. pose proof Hp as Hp'. apply simple_name_spec in Hp' as (_ & _ & _ & Hs).
  pose proof (simple_test_module _ Hs) as Hm.
  unfold text_files. rewrite !elem_of_app.
  destruct (use_tests o), (use_docs o); rewrite !elem_of_cons, !elem_of_nil;
    intros H; repeat (destruct H as [H|H]); try done; subst rel;
    first [ left; eexists; split; [reflexivity|done]
          | right; do 2 eexists; split; [reflexivity|by split] ].
Qed.

Lemma read_join_all b st rel (x : string) :
  at_base b st ->
  ((exists c, rel = [c] /\ simple_name c = true)
   \/ (exists d c, rel = [d; c] /\ simple_name d = true /\ simple_name c = true)) ->
  is_dir (fs (world st)) (removelast (b ++ rel)) = true ->
  node_at (fs (world st)) (b ++ rel) = Some (File x) ->
  read_file (fs (world st)) (join_all (base_dir (self_obj st)) rel) = Some x.
Proof.
  intros Hb [(c & -> & Hc)|(d & c & -> & Hd & Hc)] Hdir Hn.
  - by apply (read_at_base b).
  - apply (read_sub_at_base b); try done.
    replace (b ++ [d; c]) with ((b ++ [d]) ++ [c]) in Hdir by by rewrite <- app_assoc.
    by rewrite removelast_snoc in Hdir.
Qed.

(** C4 (as amended). Two runs of [scaffold] that return, on objects
    with the same configuration and in the same calendar year, emit
    the same text files with the same texts, wherever the two project
    directories are and whatever was there before; and when the
    package name is one path component, every text file holds the same
    text after the two runs. *)
Theorem same_year_same_files (st1 st2 st1' st2' : Machine) :
  same_config (self_obj st1) (self_obj st2) ->
  year (world st1) = year (world st2) ->
  scaffold st1 = (st1', inr tt) ->
  scaffold st2 = (st2', inr tt) ->
  let o1 := self_obj st1 in
  let o2 := self_obj st2 in
  (exists l,
     map fst l = text_files o1
     /\ emitted (world st1') = emitted (world st1) ++ emitted_under (base_dir o1) l
     /\ emitted (world st2') = emitted (world st2) ++ emitted_under (base_dir o2) l)
  /\ (simple_name (package_name o1) = true ->
      forall rel, rel ∈ text_files o1 ->
        exists c,
          read_file (fs (world st1')) (join_all (base_dir o1) rel) = Some c
          /\ read_file (fs (world st2')) (join_all (base_dir o2) rel) = Some c).
Proof.
  intros Hcfg Hy H1 H2 o1 o2. split.
  - exists (emission o1 (year (world st1))). split; [apply emission_paths|]. split.
    + pose proof (emits_scaffold o1 (year (world st1)) st1
                    eq_refl eq_refl) as X.
      rewrite H1 in X. by apply X.
    + rewrite (emission_same_config _ _ _ Hcfg
), Hy.
      pose proof (emits_scaffold o2 (year (world st2)) st2
                    eq_refl eq_refl) as X.
      rewrite H2 in X. by apply X.
  - intros Hp1 rel Hrel.
    assert (simple_name (package_name o2) = true) as Hp2.
    { destruct Hcfg as (_ & E & _). unfold o2. by rewrite <- E. }
    destruct (scaffold_installs st1 st1' Hp1 H1)
      as (f1 & b1 & _ & _ & _ & Hi1 & Hb1 & Hs1 & _).
    destruct (scaffold_installs st2 st2' Hp2 H2)
      as (f2 & b2 & _ & _ & _ & Hi2 & Hb2 & Hs2 & _).
    fold o1 in Hi1, Hs1. fold o2 in Hi2, Hs2.
    rewrite <- (plan_same_config _ _ _ Hcfg), <- Hy in Hi2.
    destruct (text_file_planned o1 (year (world st1)) rel Hrel) as [c0 Hin].
    pose proof (text_file_shape o1 rel Hp1 Hrel) as Hshape.
    assert (rel ∈ map fst (plan o1 (year (world st1)))) as Hin'.
    { apply list_elem_of_fmap. by exists (rel, File c0). }
    pose proof (install_same _ _ _ _ _ _ _ _ _ rel Hi1 Hi2 Hin') as Hsame.
    pose proof (install_fits _ _ _ _ _ Hi1) as Hfit1.
    pose proof (install_fits _ _ _ _ _ Hi2) as Hfit2.
    unfold fits in Hfit1, Hfit2. rewrite Forall_forall in Hfit1, Hfit2.
    destruct (Hfit1 _ Hin) as [Hd1 Hk1]. destruct (Hfit2 _ Hin) as [Hd2 Hk2].
    cbn [fst snd] in Hd1, Hk1, Hd2, Hk2.
    destruct (node_at (fs (world st1')) (b1 ++ rel)) as [[c|]|] eqn:E1; try done.
    exists c. split.
    + rewrite <- Hs1. by apply (read_join_all b1).
    + rewrite <- Hs2. by apply (read_join_all b2).
Qed.

End Claims5.

(* ================================================================== *)
(** ** Further properties of the constructor *)
(* ================================================================== *)

Section NameFacts.

Lemma string_map_length (f : ascii -> ascii) (s : string) :
  String.length (string_map f s) = String.length s.
Proof. induction s as [|c s IH]; [done|]. cbn. by rewrite IH. Qed.

Lemma derive_char_fixed (c : ascii) :
  derive_char c = c <-> c <> "-"%char /\ Py.lower_char c = c.
Proof.
  unfold derive_char, hyphen_to_underscore.
  destruct (decide (c = "-"%char)) as [->|Hc].
  - split; [discriminate|]. by intros [? _].
  - tauto.
Qed.

Lemma derive_spec_fixed (s : string) :
  derive_spec s = s <-> Py.contains_char "-" s = false /\ Py.lower s = s.
Proof.
  induction s as [|c s IH]; [done|].
  cbn [derive_spec string_map Py.contains_char Py.lower].
  fold (derive_char c). fold (derive_spec s). split.
  - intros [= Hc Hs]. apply derive_char_fixed in Hc as [Hc Hl].
    apply IH in Hs as [Hs1 Hs2].
    destruct (decide (c = "-"%char)); [done|]. by rewrite Hl, Hs2.
  - destruct (decide (c = "-"%char)) as [|Hc]; [by intros [? _]|].
    intros [Hs1 [= Hl Hs2]].
    f_equal; [by apply derive_char_fixed|]. by apply IH.
Qed.

Lemma derive_absolute (s : string) :
  Py.startswith "/" s = true -> Py.startswith "/" (derive s) = true.
Proof.
  rewrite derive_refines. destruct s as [|c s]; [done|]. cbn.
  destruct (decide ("/"%char = c)) as [<-|]; [|done]. done.
Qed.

Lemma path_join_absolute (a b : string) :
  Py.startswith "/" b = true -> Py.path_join a b = b.
Proof. unfold Py.path_join. by intros ->. Qed.

(** X5. On the strings of the embedding (code points below U+0100,
    where [str.lower] maps character to character) the package name
    has as many characters as the project name, and it is the project
    name itself exactly when that has no hyphen and is in lower case
    already. *)
Theorem package_name_shape (name : string) (tests docs venv : bool)
    (auth mail descr : string) (w : World) :
  exists obj,
    init name tests docs venv auth mail descr w = (w, inr obj)
    /\ String.length (package_name obj) = String.length name
    /\ (package_name obj = name
        <-> Py.contains_char "-" name = false /\ Py.lower name = name).
Proof.
  eexists. split; [reflexivity|]. cbn [package_name]. fold (derive name).
  rewrite derive_refines. split; [apply string_map_length|apply derive_spec_fixed].
Qed.

End NameFacts.

(* ================================================================== *)
(** ** Further properties of the methods and of main *)
(* ================================================================== *)

Section Outcomes.

Import Os Fs.
Implicit Types (f : gmap (list string) node) (q b : list string).

Lemma read_file_mono f f' s c :
  extends f f' -> read_file f s = Some c -> exists c', read_file f' s = Some c'.
Proof.
  intros He. unfold read_file. destruct (resolve f s) as [q|] eqn:E; [|done].
  rewrite (resolve_mono _ _ _ _ He E).
  pose proof (extends_node_at _ _ q He) as Hn.
  destruct (node_at f q) as [[x|]|]; [|done|done].
  destruct Hn as [c' ->]. eauto.
Qed.

Lemma io_makedirs_returns s st st' :
  io (Sys.makedirs s) st = (st', inr tt) -> path_isdir (fs (world st')) s = true.
Proof.
  unfold io, Sys.makedirs, Sys.fs_call.
  destruct (makedirs s (fs (world st))) as [f1 [e|]] eqn:E; [done|].
  intros [= <-]. cbn. destruct (makedirs_post _ _ _ E) as (q & Hr & Hd).
  unfold path_isdir. by rewrite Hr.
Qed.

Lemma io_open_w_returns s chunks st st' :
  io (Sys.open_w s chunks) st = (st', inr tt) ->
  read_file (fs (world st')) s = Some (Py.concat chunks).
Proof.
  unfold io, Sys.open_w.
  destruct (write_file s (Py.concat chunks) (fs (world st))) as [f1 [e|]] eqn:E; [done|].
  intros [= <-]. cbn. by eapply write_file_read.
Qed.

Lemma steady_extends {A} (m : M Machine A) st :
  steady m -> extends (fs (world st)) (fs (world (m st).1)).
Proof. intros H. by destruct (H st) as (_ & (He & _) & _). Qed.

(** X4. A project name that is an absolute path: the working directory
    plays no part, the project directory is the name itself, and the
    package directory is the derived name itself, another absolute
    path.  When [create_directory_structure] returns, both are
    directories and the package's [__init__.py] lies in the second. *)
Theorem absolute_project_name (name : string) (tests docs venv : bool)
    (auth mail descr : string) (w : World) :
  Py.startswith "/" name = true ->
  exists obj,
    init name tests docs venv auth mail descr w = (w, inr obj)
    /\ base_dir obj = name
    /\ Py.path_join (base_dir obj) (package_name obj) = package_name obj
    /\ forall w1 st',
         create_directory_structure (mkMachine obj w1) = (st', inr tt) ->
         path_isdir (fs (world st')) name = true
         /\ path_isdir (fs (world st')) (package_name obj) = true
         /\ exists c, read_file (fs (world st'))
                        (Py.path_join (package_name obj) "__init__.py") = Some c.
Proof.
  intros Habs. eexists. split; [reflexivity|].
  match goal with |- base_dir ?o = _ /\ _ => set (obj := o) end.
  assert (Py.path_join (base_dir obj) (package_name obj) = package_name obj) as Hj.
  { apply path_join_absolute, derive_absolute, Habs. }
  assert (base_dir obj = name) as Hb by (by apply path_join_absolute).
  split; [done|]. split; [done|]. intros w1 st' H.
  rewrite create_directory_structure_unfold in H. cbn [self_obj] in H.
  apply bind_inv in H as (st1 & [] & _ & H).
  apply bind_inv in H as (st2 & [] & H2 & H).
  apply io_makedirs_returns in H2. rewrite Hb in H2.
  pose proof (steady_extends _ st2 (steady_structure_rest obj)) as He.
  rewrite H in He. cbn [fst] in He.
  split; [by eapply path_isdir_mono|].
  unfold structure_rest in H. cbv zeta in H. rewrite Hj in H.
  apply bind_inv in H as (st3 & [] & H3 & H).
  apply io_makedirs_returns in H3.
  match type of H with ?m st3 = _ =>
    assert (steady m) as Hs3 by steady;
    pose proof (steady_extends _ st3 Hs3) as He3
  end.
  rewrite H in He3. cbn [fst] in He3.
  split; [by eapply path_isdir_mono|].
  apply bind_inv in H as (st4 & [] & H4 & H).
  apply io_open_w_returns in H4.
  match type of H with ?m st4 = _ =>
    assert (steady m) as Hs4 by steady;
    pose proof (steady_extends _ st4 Hs4) as He4
  end.
  rewrite H in He4. cbn [fst] in He4.
  by eapply read_file_mono.
Qed.

(** X3. Once [parse_args] has returned, the exit status of the
    process is 0 or 1: it is 1 when the checked path exists, and
    otherwise it is 0 exactly when [scaffold] returns. *)
Theorem exit_status_cases (args : Args) (w : World) :
  (run_main args w).2 =
  if path_exists (fs w) (target args w) then 1
  else if ok (scaffold (mkMachine (scaffolder_for args w) w)).2 then 0 else 1.
Proof.
  unfold run_main. destruct (path_exists _ _) eqn:E.
  - by rewrite (main_rejects _ _ E).
  - rewrite (main_runs _ _ E). cbn [snd].
    apply exit_status_no_exit.
    by destruct (steady_scaffold (mkMachine (scaffolder_for args w) w)) as (_ & _ & Hn).
Qed.

(** X9. Neither [scaffold] nor [main] removes an entry or changes its
    kind: every directory stays a directory and every regular file
    stays a regular file, whether the run returns or raises. *)
Theorem nothing_is_removed (st : Machine) (args : Args) (w : World) :
  extends (fs (world st)) (fs (world (scaffold st).1))
  /\ extends (fs w) (fs (main args w).1).
Proof.
  split; [apply steady_extends, steady_scaffold|].
  destruct (path_exists (fs w) (target args w)) eqn:E.
  - rewrite (main_rejects _ _ E). apply extends_refl.
  - rewrite (main_runs _ _ E). cbn [fst].
    apply (steady_extends _ (mkMachine (scaffolder_for args w) w)), steady_scaffold.
Qed.

End Outcomes.

Section EdgeCases.

Import Os Fs.
Implicit Types (f : gmap (list string) node) (q b : list string).

(** [join_components] for any second part without a separator. *)
Lemma join_components_plain f (a c : string) q :
  resolve f a = Some q -> Py.contains_char "/" c = false ->
  Py.path_join a c <> EmptyString /\
  exists L, components (Py.path_join a c) = L ++ [c] /\ walk f [] L = Some q.
Proof.
  intros Hr Hc. unfold Py.path_join.
  assert (Py.startswith "/" c = false) as ->.
  { destruct c as [|x c]; [done|]. cbn in *. by destruct (decide _); destruct (decide _). }
  unfold resolve in Hr. destruct (decide (a = EmptyString)) as [|Ha]; [done|].
  destruct (Py.endswith_char "/" a) eqn:E.
  - apply endswith_slash in E as [a' ->]. split.
    { rewrite app_assoc_str. apply app_nonempty_r. }
    exists (components a'). rewrite app_assoc_str, components_app_slash.
    rewrite (components_simple c Hc). split; [done|].
    replace (a' +:+ "/") with (a' +:+ "/" +:+ EmptyString) in Hr by done.
    rewrite components_app_slash, walk_app in Hr. cbn in Hr.
    destruct (walk f [] (components a')) as [q0|]; [|done]. cbn in Hr.
    destruct (is_dir f q0); [|done]. done.
  - split; [apply app_nonempty_r|].
    exists (components a). rewrite components_app_slash.
    by rewrite (components_simple c Hc).
Qed.

Lemma parent_exists f q :
  tree_shaped f -> is_dir f q = true -> is_Some (node_at f (removelast q)).
Proof.
  intros Ht Hd. destruct q as [|x q _] using rev_ind; [by eexists|].
  rewrite removelast_snoc. apply is_dir_Some, (Ht _ x).
  rewrite <- node_at_snoc. by apply is_dir_Some.
Qed.

Lemma dot_path_exists f (c name : string) :
  tree_shaped f -> path_isdir f c = true -> name ∈ [EmptyString; "."; ".."] ->
  path_exists f (Py.path_join c name) = true.
Proof.
  intros Ht Hd Hn. unfold path_isdir in Hd.
  destruct (resolve f c) as [q|] eqn:Hr; [|done].
  assert (Py.contains_char "/" name = false) as Hc.
  { repeat (apply elem_of_cons in Hn as [->|Hn]; [done|]). by apply elem_of_nil in Hn. }
  destruct (join_components_plain _ _ _ _ Hr Hc) as (Hne & L & HL & Hw).
  unfold path_exists, resolve. rewrite decide_False by done.
  rewrite HL, walk_app, Hw. cbn [mbind option_bind walk]. rewrite Hd.
  repeat (apply elem_of_cons in Hn as [->|Hn];
          [cbn; apply bool_decide_eq_true;
           first [by apply is_dir_Some | by apply parent_exists]|]).
  by apply elem_of_nil in Hn.
Qed.

(** X10. An empty project name, [.] and [..] are always rejected: the
    checked path is the working directory or its parent, which exist. *)
Theorem degenerate_names_rejected (args : Args) (w : World) :
  tree_shaped (fs w) -> path_isdir (fs w) (cwd w) = true ->
  arg_project_name args ∈ [EmptyString; "."; ".."] ->
  run_main args w = (add_stdout (error_line args) w, 1).
Proof.
  intros Ht Hd Hn. unfold run_main.
  by rewrite (main_rejects _ _ (dot_path_exists _ _ _ Ht Hd Hn)).
Qed.

Lemma set_fs_same (w : World) : set_fs (fs w) w = w.
Proof. by destruct w. Qed.

Lemma makedirs_on_file f (a c x : string) q :
  resolve f a = Some q -> is_dir f q = true -> simple_name c = true ->
  f !! (q ++ [c]) = Some (File x) ->
  makedirs (Py.path_join a c) f = (f, Some (FileExistsError (Py.path_join a c))).
Proof.
  intros Hr Hq Hc Hx. destruct (join_components _ _ _ _ Hr Hc) as (Hne & L & HL & Hw).
  unfold makedirs. rewrite decide_False by done.
  rewrite HL, (makedirs_walk_app _ _ _ _ _ _ Hw Hq).
  apply simple_name_spec in Hc as (H0 & H1 & H2 & _).
  cbn [makedirs_walk]. rewrite Hq. unfold stays.
  rewrite !bool_decide_eq_false_2 by done. cbn.
  rewrite node_at_snoc, Hx. unfold is_dir. by rewrite node_at_snoc, Hx.
Qed.

(** X7. [scaffold] called where the project path is a regular file:
    [exist_ok] covers directories only, so [os.makedirs] raises
    [FileExistsError]; the announcement has been printed and nothing
    else has happened. *)
Theorem regular_file_target (args : Args) (w : World) (cq : list string) (c : string) :
  resolve (fs w) (cwd w) = Some cq -> is_dir (fs w) cq = true ->
  simple_name (arg_project_name args) = true ->
  fs w !! (cq ++ [arg_project_name args]) = Some (File c) ->
  scaffold (mkMachine (scaffolder_for args w) w)
  = (mkMachine (scaffolder_for args w)
       (add_stdout ("Creating project: " +:+ arg_project_name args) w),
     inl (FileExistsError (target args w))).
Proof.
  intros Hr Hd Hs Hc.
  pose proof (scaffold_start (mkMachine (scaffolder_for args w) w)) as H.
  cbn [self_obj world] in H. rewrite scaffolder_for_base_dir in H.
  unfold target in H at 1. rewrite (makedirs_on_file _ _ _ _ _ Hr Hd Hs Hc) in H.
  rewrite H. unfold announced. cbn [self_obj world]. by destruct w.
Qed.

Lemma with_self {B} (k : ProjectScaffolder -> M Machine B) (st : Machine) :
  bind get_self k st = k (self_obj st) st.
Proof. reflexivity. Qed.

Lemma open_w_missing_parent (a c : string) chunks st q :
  resolve (fs (world st)) a = Some q -> node_at (fs (world st)) q = None ->
  simple_name c = true ->
  io (Sys.open_w (Py.path_join a c) chunks) st
  = (st, inl (FileNotFoundError (Py.path_join a c))).
Proof.
  intros Hr Hn Hc. unfold io, Sys.open_w, write_file.
  rewrite (resolve_join _ _ _ _ Hr Hc). unfold is_dir. rewrite Hn.
  rewrite set_fs_same. by destruct st.
Qed.

(** X12. The methods that write the top files do not make the project
    directory: called when it is missing (its parent exists), each of
    them raises [FileNotFoundError] for its first file and changes
    nothing. *)
Theorem methods_need_project_directory (st : Machine) (q : list string) :
  let o := self_obj st in
  resolve (fs (world st)) (base_dir o) = Some q ->
  node_at (fs (world st)) q = None ->
  create_setup_files st
  = (st, inl (FileNotFoundError (Py.path_join (base_dir o) "setup.py")))
  /\ create_readme st
     = (st, inl (FileNotFoundError (Py.path_join (base_dir o) "README.md")))
  /\ create_license st
     = (st, inl (FileNotFoundError (Py.path_join (base_dir o) "LICENSE")))
  /\ create_gitignore st
     = (st, inl (FileNotFoundError (Py.path_join (base_dir o) ".gitignore")))
  /\ create_makefile st
     = (st, inl (FileNotFoundError (Py.path_join (base_dir o) "Makefile"))).
Proof.
  intros o Hr Hn. subst o. destruct st as [o w]. cbn [self_obj world] in *.
  assert (forall (c : string) chunks, simple_name c = true ->
            io (Sys.open_w (Py.path_join (base_dir o) c) chunks) (mkMachine o w)
            = (mkMachine o w, inl (FileNotFoundError (Py.path_join (base_dir o) c))))
    as Hopen by (intros; by apply (open_w_missing_parent _ _ _ _ q)).
  repeat split.
  - unfold create_setup_files. rewrite with_self. cbn [self_obj].
    by rewrite (bind_raises _ _ _ _ _ (Hopen "setup.py" _ eq_refl)).
  - unfold create_readme. rewrite with_self. by apply Hopen.
  - unfold create_license. rewrite with_self. cbn [self_obj].
    rewrite (bind_returns get_current_year _ (mkMachine o w) (mkMachine o w) (year w) eq_refl).
    by apply Hopen.
  - unfold create_gitignore. rewrite with_self. by apply Hopen.
  - unfold create_makefile. rewrite with_self. by apply Hopen.
Qed.

End EdgeCases.

(* ================================================================== *)
(** ** Further properties of the files *)
(* ================================================================== *)

Section Files.

Import Os Fs.
Implicit Types (f : gmap (list string) node) (q b rel : list string).
Implicit Types (tree : list (list string * node)).

Lemma put_frame s q n f k : k <> q -> (put s q n f).1 !! k = f !! k.
Proof.
  intros Hk. unfold put. destruct (is_dir f (removelast q)); [|done].
  destruct n, (node_at f q) as [[?|]|]; cbn; by rewrite ?lookup_insert_ne.
Qed.

Lemma makedirs_join_frame f (a c : string) q k :
  resolve f a = Some q -> is_dir f q = true -> simple_name c = true ->
  k <> q ++ [c] -> (makedirs (Py.path_join a c) f).1 !! k = f !! k.
Proof.
  intros Hr Hd Hc Hk.
  destruct (makedirs_join EmptyString _ _ _ _ Hr Hd Hc) as [-> _].
  by apply put_frame.
Qed.

Lemma install_frame_prefix s b tree f k :
  ~ b `prefix_of` k -> (install s b tree f).1 !! k = f !! k.
Proof.
  intros Hk. apply install_frame. intros (e & -> & _)%list_elem_of_fmap.
  apply Hk. by eexists.
Qed.

(** X1. With a project name that is one directory entry, [scaffold]
    and [main] touch nothing outside the project directory, whether
    they return or raise: every other path holds what it held. *)
Theorem scaffold_stays_in_project (args : Args) (w : World) (cq k : list string) :
  resolve (fs w) (cwd w) = Some cq -> is_dir (fs w) cq = true ->
  simple_name (arg_project_name args) = true ->
  ~ (cq ++ [arg_project_name args]) `prefix_of` k ->
  fs (world (scaffold (mkMachine (scaffolder_for args w) w)).1) !! k = fs w !! k
  /\ fs (main args w).1 !! k = fs w !! k.
Proof.
  intros Hr Hd Hs Hk.
  set (st := mkMachine (scaffolder_for args w) w).
  set (b := cq ++ [arg_project_name args]) in *.
  assert (fs (world (scaffold st).1) !! k = fs w !! k) as Hsc.
  { assert (k <> b) as Hkb by (by intros ->).
    pose proof (makedirs_join_frame _ _ _ _ k Hr Hd Hs Hkb) as Hm.
    fold (target args w) in Hm.
    pose proof (scaffold_start st) as H0. cbn zeta in H0.
    assert (simple_name (package_name (self_obj st)) = true) as Hp.
    { cbn [st self_obj]. rewrite scaffolder_for_package_name. by apply derive_simple. }
    pose proof (scaffold_effect st) as He. cbn zeta in He.
    cbn [st self_obj world] in H0, He. rewrite scaffolder_for_base_dir in H0, He.
    destruct (makedirs (target args w) (fs w)) as [f0 [e|]] eqn:Em.
    - fold st in H0. rewrite H0. cbn. exact Hm.
    - destruct (He f0 Hp eq_refl) as (b' & Hr' & _ & -> & _).
      rewrite install_frame_prefix; [exact Hm|].
      assert (extends (fs w) f0) as Hext.
      { pose proof (makedirs_extends (target args w) (fs w)) as Hx. by rewrite Em in Hx. }
      unfold target in Hr'.
      rewrite (resolve_join _ _ _ _ (resolve_mono _ _ _ _ Hext Hr) Hs) in Hr'.
      rewrite (extends_is_dir _ _ _ Hext Hd) in Hr'. by injection Hr' as <-. }
  split; [exact Hsc|].
  destruct (path_exists (fs w) (target args w)) eqn:E.
  - by rewrite (main_rejects _ _ E).
  - by rewrite (main_runs _ _ E).
Qed.

Lemma venv_entries_nonempty o : [] ∉ map fst (venv_entries o).
Proof.
  unfold venv_entries. destruct (use_venv o); [|apply not_elem_of_nil].
  cbn [map fst]. apply not_elem_of_cons. split; [done|].
  destruct venv_payload as [tree|]; [|apply not_elem_of_nil].
  unfold below. rewrite map_map. by intros (e & He & _)%list_elem_of_fmap.
Qed.

Lemma plan_nonempty o y : [] ∉ map fst (plan o y).
Proof.
  rewrite plan_paths. rewrite !not_elem_of_app. split; [not_in_list|].
  split; [destruct (use_tests o); not_in_list|].
  split; [destruct (use_docs o); not_in_list|].
  split; [not_in_list|apply venv_entries_nonempty].
Qed.

(** Installing a tree on the file system that its installation has
    left changes nothing. *)
Lemma install_again s s' b tree f f' :
  [] ∉ map fst tree ->
  install s b tree f = (f', None) -> install s' b tree f' = (f', None).
Proof.
  intros Hne Hi.
  destruct (fits_install s' _ _ _ (install_fits _ _ _ _ _ Hi)) as [f'' Hi'].
  rewrite Hi'. f_equal. apply map_eq. intros k.
  destruct (decide (k ∈ map (fun e => b ++ e.1) tree)) as [Hin|Hout].
  - apply list_elem_of_fmap in Hin as (e & -> & He).
    assert (e.1 ∈ map fst tree) as Hrel by (apply list_elem_of_fmap; eauto).
    pose proof (install_same _ _ _ _ _ _ _ _ _ _ Hi' Hi Hrel) as Hn.
    assert (b ++ e.1 <> []) as Hk.
    { intros [_ H0]%app_eq_nil. apply Hne. by rewrite <- H0. }
    by rewrite !node_at_ne in Hn.
  - pose proof (install_frame s' b tree f' k Hout) as Hfr. by rewrite Hi' in Hfr.
Qed.

(** X8. Running [scaffold] again in the same year on the tree that a
    run has left returns again and leaves the file system exactly as
    it was. *)
Theorem scaffold_idempotent (st st1 : Machine) (w2 : World) :
  simple_name (package_name (self_obj st)) = true ->
  scaffold st = (st1, inr tt) ->
  fs w2 = fs (world st1) -> year w2 = year (world st) ->
  ok (scaffold (mkMachine (self_obj st) w2)).2 = true
  /\ fs (world (scaffold (mkMachine (self_obj st) w2)).1) = fs (world st1).
Proof.
  intros Hp H Hfs Hy.
  destruct (scaffold_again _ _ w2 Hp H Hfs) as [Hex Hok]. split; [done|].
  destruct (scaffold_installs _ _ Hp H) as (f0 & b & Hm & Hr & Hd & Hi & Hb & Hs & Hbr).
  destruct Hb as [Hr1 Hd1]. rewrite Hs in Hr1. rewrite <- Hfs in Hr1, Hd1.
  assert (path_isdir (fs w2) (base_dir (self_obj st)) = true) as Hdir.
  { unfold path_isdir. by rewrite Hr1. }
  pose proof (makedirs_existing _ _ Hdir) as Hm2.
  destruct (scaffold_effect (mkMachine (self_obj st) w2) (fs w2) Hp Hm2)
    as (b2 & Hr2 & Hd2 & Hf & _).
  cbn [self_obj world] in *. assert (b2 = b) as -> by congruence.
  rewrite Hf, Hy, Hfs.
  by rewrite (install_again _ EmptyString _ _ _ _ (plan_nonempty _ _) Hi).
Qed.

End Files.

Section Texts.

Import Os Fs.
Implicit Types (f : gmap (list string) node) (q b rel : list string).

Lemma contains_unfold (sub s : string) :
  contains sub s
  = Py.startswith sub s || match s with
                           | EmptyString => false
                           | String _ r => contains sub r
                           end.
Proof. by destruct s. Qed.

Lemma startswith_app (p s r : string) :
  Py.startswith p s = true -> Py.startswith p (s +:+ r) = true.
Proof.
  revert s. induction p as [|a p IH]; intros s; [by destruct s, r|].
  destruct s as [|c s]; [done|]. rewrite app_String. cbn.
  destruct (decide (a = c)); [apply IH|done].
Qed.

Lemma startswith_refl (p : string) : Py.startswith p p = true.
Proof. induction p as [|a p IH]; [done|]. cbn. by rewrite decide_True. Qed.

Lemma contains_refl (s : string) : contains s s = true.
Proof. by rewrite contains_unfold, startswith_refl. Qed.

Lemma contains_app_l (sub s r : string) :
  contains sub s = true -> contains sub (s +:+ r) = true.
Proof.
  induction s as [|c s IH].
  - rewrite app_empty_l. destruct sub as [|a sub]; [|done].
    intros _. rewrite contains_unfold. by destruct r.
  - rewrite app_String, !(contains_unfold sub (String _ _)).
    intros [H|H]%orb_true_iff.
    + by rewrite <- app_String, (startswith_app _ _ r H).
    + by rewrite (IH H), orb_true_r.
Qed.

Lemma contains_app_r (sub a s : string) :
  contains sub s = true -> contains sub (a +:+ s) = true.
Proof.
  intros H. induction a as [|c a IH]; [by rewrite app_empty_l|].
  by rewrite app_String, contains_unfold, IH, orb_true_r.
Qed.

Lemma contains_concat (sub : string) (chunks : list string) :
  (exists chunk, chunk ∈ chunks /\ contains sub chunk = true) ->
  contains sub (Py.concat chunks) = true.
Proof.
  intros (chunk & Hin & Hc). induction chunks as [|x chunks IH]; [by apply elem_of_nil in Hin|].
  cbn [Py.concat foldr]. apply elem_of_cons in Hin as [<-|Hin].
  - by apply contains_app_l.
  - apply contains_app_r. by apply IH.
Qed.

(** X6. The package's [__init__.py] after a run that returns (the
    package not being called venv): it holds the docstring and the
    version, unless the package is called tests and tests are asked
    for; then the tests directory is the package directory, the second
    [__init__.py] replaces the first, and the version is gone. *)
Theorem package_init_text (st st' : Machine) :
  let o := self_obj st in
  let init_py := Py.path_join (Py.path_join (base_dir o) (package_name o)) "__init__.py" in
  simple_name (package_name o) = true -> package_name o <> "venv" ->
  scaffold st = (st', inr tt) ->
  (use_tests o = true /\ package_name o = "tests" ->
   read_file (fs (world st')) init_py = Some tests_init_text
   /\ contains "__version__" tests_init_text = false)
  /\ (~ (use_tests o = true /\ package_name o = "tests") ->
      read_file (fs (world st')) init_py = Some (Py.concat (package_init_chunks o))
      /\ contains ("__version__ = " +:+ Py.dq +:+ "0.1.0" +:+ Py.dq +:+ Py.nl)
           (Py.concat (package_init_chunks o)) = true).
Proof.
  intros o init_py Hp Hv H.
  destruct (scaffold_installs _ _ Hp H) as (f0 & b & Hm & Hr & Hd & Hi & Hb & Hs & _).
  fold o in Hi, Hs.
  assert (is_dir (fs (world st')) (b ++ [package_name o]) = true) as Hpd.
  { pose proof (install_fits _ _ _ _ _ Hi) as Hfit.
    unfold fits in Hfit. rewrite Forall_forall in Hfit.
    destruct (Hfit ([package_name o], Dir)) as [_ Hk];
      [unfold plan, structure_entries; in_list|].
    cbn in Hk. unfold is_dir. by destruct (node_at _ _) as [[?|]|]. }
  assert (forall x, node_at (fs (world st')) (b ++ [package_name o; "__init__.py"])
                    = Some (File x) ->
                    read_file (fs (world st')) init_py = Some x) as Hread.
  { intros x Hx. subst init_py. rewrite <- Hs.
    by apply (read_sub_at_base b); rewrite ?Hs. }
  assert (([package_name o; "__init__.py"] ∉ map fst (top_file_entries o (year (world st))))
          /\ ([package_name o; "__init__.py"] ∉ map fst (venv_entries o))) as Htop.
  { split; [unfold top_file_entries; cbn [map fst]; not_in_list|].
    by apply not_in_venv_entries. }
  split.
  - intros [Ht Hn]. split; [|by vm_compute]. apply Hread.
    unfold plan, structure_entries in Hi. rewrite Ht, Hn in Hi. rewrite Hn.
    eapply (install_last _ _ [_; _; _] ["tests"; "__init__.py"] _
              (_ :: ((if use_docs _ then _ else _) ++ _)));
      [exact Hi|].
    cbn [map fst]. rewrite not_elem_of_cons, map_app, not_elem_of_app. split; [|split].
    + intros [=].
    + destruct (use_docs _); cbn [map fst]; not_in_list.
    + rewrite <- Hn, map_app, not_elem_of_app. apply Htop.
  - intros Hno. split.
    + apply Hread. unfold plan, structure_entries in Hi.
      rewrite <- !app_assoc in Hi. cbn [app] in Hi.
      eapply (install_last _ _ [_] [package_name o; "__init__.py"] _
                ((if use_tests _ then _ else _) ++ (if use_docs _ then _ else _) ++ _));
        [exact Hi|].
      rewrite !map_app, !not_elem_of_app. split; [|split; [|apply Htop]].
      * destruct (use_tests o) eqn:Ht; cbn [map fst]; [|apply not_elem_of_nil].
        rewrite !not_elem_of_cons. repeat split; try done; [|apply not_elem_of_nil].
        intros [= Hn]. apply Hno. by split.
      * destruct (use_docs o); cbn [map fst]; not_in_list.
    + apply contains_concat. eexists. split; [|apply contains_refl].
      unfold package_init_chunks. in_list.
Qed.

(** X11. Unlike [setup.cfg], [setup.py] is written with the values of
    the object: after a run that returns it holds the lines with the
    project name, the author, the e-mail address, the description and
    the URL made of author and project name. *)
Theorem setup_py_substitutes (st st' : Machine) :
  let o := self_obj st in
  scaffold st = (st', inr tt) ->
  exists text,
    read_file (fs (world st')) (Py.path_join (base_dir o) "setup.py") = Some text
    /\ Forall (fun l => contains l text = true)
         [ "    name=" +:+ Py.dq +:+ project_name o +:+ Py.dq +:+ "," +:+ Py.nl;
           "    author=" +:+ Py.dq +:+ author o +:+ Py.dq +:+ "," +:+ Py.nl;
           "    author_email=" +:+ Py.dq +:+ email o +:+ Py.dq +:+ "," +:+ Py.nl;
           "    description=" +:+ Py.dq +:+ description o +:+ Py.dq +:+ "," +:+ Py.nl;
           "    url=" +:+ Py.dq +:+ "https://github.com/" +:+ author o +:+ "/"
             +:+ project_name o +:+ Py.dq +:+ "," +:+ Py.nl ].
Proof.
  intros o H. exists (Py.concat (setup_py_chunks o)). split.
  - destruct (scaffold_top_files _ _ H) as (f1 & b & Hb & Hs & Hi). fold o in Hs, Hi.
    assert (node_at (fs (world st')) (b ++ ["setup.py"])
            = Some (File (Py.concat (setup_py_chunks o)))) as Hn.
    { eapply (install_last _ _ [] ["setup.py"] _
                (_ :: _ :: _ :: _ :: _ :: _ :: venv_entries _));
        [exact Hi|].
      cbn [map fst]. rewrite !not_elem_of_cons. repeat split; try done.
      by apply not_in_venv_entries. }
    pose proof (read_at_base b st' "setup.py" _ Hb eq_refl Hn) as Hrd.
    by rewrite Hs in Hrd.
  - repeat constructor; apply contains_concat; eexists;
      (split; [|apply contains_refl]); unfold setup_py_chunks; in_list.
Qed.

End Texts.

(* ================================================================== *)
(** ** What a run prints *)
(* ================================================================== *)

Section Prints.

Import Os Fs.
Context (o : ProjectScaffolder) (name : string).

Lemma prints_bind {A B} (m : M Machine A) (k : A -> M Machine B) l1 l2 l :
  l = l1 ++ l2 -> steady m -> prints o name m l1 -> (forall a, prints o name (k a) l2) ->
  prints o name (bind m k) l.
Proof.
  intros -> Hs Hm Hk st Ho Hn. specialize (Hm st Ho Hn).
  destruct (Hs st) as (Hself & (_ & _ & _ & Hos & _) & _).
  unfold bind. destruct (m st) as [st1 [e|a]]; cbn in *; [done|].
  intros Hok. rewrite (Hk a st1) by congruence.
  rewrite Hm by done. by rewrite app_assoc.
Qed.

Lemma prints_ret {A} (a : A) : prints o name (ret a) [].
Proof. intros st _ _ _. cbn. by rewrite app_nil_r. Qed.

Lemma prints_print line : prints o name (io (Sys.print line)) [line].
Proof. by intros st _ _ _. Qed.

Lemma prints_fs_call op : prints o name (io (Sys.fs_call op)) [].
Proof.
  intros st _ _ _. unfold io, Sys.fs_call.
  destruct (op (fs (world st))) as [f [e|]]; cbn; by rewrite app_nil_r.
Qed.

Lemma prints_open_w s chunks : prints o name (io (Sys.open_w s chunks)) [].
Proof.
  intros st _ _ _. unfold io, Sys.open_w.
  destruct (write_file _ _ (fs (world st))) as [f [e|]]; cbn; by rewrite app_nil_r.
Qed.

Lemma prints_with_self {B} (k : ProjectScaffolder -> M Machine B) l :
  prints o name (k o) l -> prints o name (bind get_self k) l.
Proof. intros Hk st Ho Hn. unfold bind, get_self. rewrite Ho. by apply Hk. Qed.

Lemma prints_with_year {B} (k : Z -> M Machine B) l :
  (forall y, prints o name (k y) l) -> prints o name (bind get_current_year k) l.
Proof.
  intros Hk st Ho Hn. unfold bind, get_current_year, io, Sys.now_year. cbn.
  destruct st as [s w]. by apply (Hk (year w) (mkMachine s w)).
Qed.

Lemma prints_with_os_name {B} (k : string -> M Machine B) l :
  prints o name (k name) l -> prints o name (bind (io Sys.get_os_name) k) l.
Proof.
  intros Hk st Ho Hn. unfold bind, io, Sys.get_os_name. cbn.
  rewrite Hn. destruct st as [s w]. by apply (Hk (mkMachine s w)).
Qed.

Lemma prints_when (c : bool) (m : M Machine unit) l :
  prints o name m l -> prints o name (when c m) (if c then l else []).
Proof. destruct c; [done|]. intros _. apply prints_ret. Qed.

End Prints.

Ltac prints_step :=
first
  [ apply prints_with_self
  | apply prints_with_year; intros ?
  | apply prints_with_os_name
  | eapply (prints_bind _ _ _ _ [] _ _ eq_refl);
      [solve [steady]
      |first [apply prints_fs_call | apply prints_open_w]
      |intros ?]
  | eapply (prints_bind _ _ _ _ [_] _ _ eq_refl);
      [solve [steady] | apply prints_print | intros ?]
  | apply prints_print
  | apply prints_fs_call
  | apply prints_open_w ].

Section PrintsMethods.

Import Os Fs.
Context (o : ProjectScaffolder) (name : string).

Lemma prints_create_directory_structure :
  prints o name create_directory_structure ["Creating project: " +:+ project_name o].
Proof.
  unfold create_directory_structure. cbv zeta.
  do 5 prints_step.
  eapply (prints_bind _ _ _ _ [] [] _ eq_refl); [steady| |intros ?].
  - destruct (use_tests o); cbn [when]; [|apply (prints_ret o name tt)].
    repeat prints_step.
  - destruct (use_docs o); cbn [when]; [|apply (prints_ret o name tt)].
    repeat prints_step.
Qed.

Lemma prints_create_setup_files : prints o name create_setup_files [].
Proof. unfold create_setup_files. repeat prints_step. Qed.

Lemma prints_create_readme : prints o name create_readme [].
Proof. unfold create_readme. repeat prints_step. Qed.

Lemma prints_create_license : prints o name create_license [].
Proof. unfold create_license. repeat prints_step. Qed.

Lemma prints_create_gitignore : prints o name create_gitignore [].
Proof. unfold create_gitignore. repeat prints_step. Qed.

Lemma prints_create_makefile : prints o name create_makefile [].
Proof. unfold create_makefile. repeat prints_step. Qed.

Lemma prints_create_venv : prints o name create_venv (venv_lines o name).
Proof.
  unfold create_venv, venv_lines. prints_step.
  destruct (use_venv o); cbn [when]; [|apply (prints_ret o name tt)].
  do 5 prints_step. destruct (bool_decide (name = "nt")); apply prints_print.
Qed.

End PrintsMethods.

Section PrintsScaffold.

Import Os Fs.

(** X2. What a run of [scaffold] that returns has printed: the
    announcement, the four lines of [create_venv] when an environment
    is asked for (the last one names the activation command for
    [os.name]), and the two closing lines. *)
Theorem scaffold_prints (st st' : Machine) :
  scaffold st = (st', inr tt) ->
  stdout (world st')
  = stdout (world st) ++ printed (self_obj st) (os_name (world st)).
Proof.
  intros H.
  assert (prints (self_obj st) (os_name (world st)) scaffold
            (printed (self_obj st) (os_name (world st)))) as Hp.
  { set (o' := self_obj st). set (n := os_name (world st)).
    unfold scaffold, printed.
    eapply (prints_bind _ _ _ _ [_] _ _ eq_refl);
      [apply steady_create_directory_structure
      |apply prints_create_directory_structure|intros _].
    eapply (prints_bind _ _ _ _ [] _ _ eq_refl);
      [apply steady_create_setup_files|apply prints_create_setup_files|intros _].
    eapply (prints_bind _ _ _ _ [] _ _ eq_refl);
      [apply steady_create_readme|apply prints_create_readme|intros _].
    eapply (prints_bind _ _ _ _ [] _ _ eq_refl);
      [apply steady_create_license|apply prints_create_license|intros _].
    eapply (prints_bind _ _ _ _ [] _ _ eq_refl);
      [apply steady_create_gitignore|apply prints_create_gitignore|intros _].
    eapply (prints_bind _ _ _ _ [] _ _ eq_refl);
      [apply steady_create_makefile|apply prints_create_makefile|intros _].
    prints_step.
    eapply (prints_bind _ _ _ _ (venv_lines o' n) [_; _] _ eq_refl);
      [apply steady_when, steady_create_venv| |intros _].
    - unfold venv_lines.
      destruct (use_venv o') eqn:E; cbn [when].
      + pose proof (prints_create_venv o' n) as Hv. unfold venv_lines in Hv.
        by rewrite E in Hv.
      + apply (prints_ret o' n tt).
    - repeat prints_step. }
  specialize (Hp st eq_refl eq_refl). rewrite H in Hp. by apply Hp.
Qed.

End PrintsScaffold.

(* ================================================================== *)
(** ** The package name against its specification *)
(* ================================================================== *)

Section NameSpec.

(** The embedding of [str.lower] and the lower case of the
    specification agree on each of the 256 characters. *)
Lemma lower_char_lowercase (c : ascii) : Py.lower_char c = lowercase c.
Proof. by destruct c as [[] [] [] [] [] [] [] []]. Qed.

Lemma package_name_spec_derive (s : string) : derive s = package_name_spec s.
Proof.
  rewrite derive_refines. unfold derive_spec, package_name_spec.
  induction s as [|c s IH]; [done|]. cbn [string_map].
  by rewrite IH, lower_char_lowercase.
Qed.

(** C3. The constructor derives the package name from the project
    name as the specification says: every hyphen is replaced with an
    underscore and the result is put in lower case ([package_name_spec]
    is written without the embedding of [str.replace] and
    [str.lower]); any two constructions from the same project name,
    whatever the other arguments and the world, give the same package
    name. *)
Theorem package_name_derivation (name : string) (tests docs venv : bool)
    (auth mail descr : string) (w : World) :
  exists obj,
    init name tests docs venv auth mail descr w = (w, inr obj)
    /\ package_name obj = package_name_spec name
    /\ forall tests' docs' venv' auth' mail' descr' w',
         exists obj',
           init name tests' docs' venv' auth' mail' descr' w' = (w', inr obj')
           /\ package_name obj' = package_name obj.
Proof.
  eexists. split; [reflexivity|]. split; [apply package_name_spec_derive|].
  intros. eexists. split; reflexivity.
Qed.

End NameSpec.

(* ================================================================== *)
(** ** The calls of a run *)
(* ================================================================== *)

Section Run.

Import Os Fs.

Lemma run_app (ops1 ops2 : list op) (w : World) :
  run (ops1 ++ ops2) w = bind (run ops1) (fun _ => run ops2) w.
Proof.
  revert w. induction ops1 as [|c ops1 IH]; intros w; [reflexivity|].
  cbn [app run]. unfold bind.
  destruct (perform c w) as [w1 [e|[]]]; [done|]. apply IH.
Qed.

Lemma calm_perform (c : op) : calm (perform c).
Proof. destruct c; cbn [perform]; auto with steady. Qed.

Lemma calm_run (ops : list op) : calm (run ops).
Proof.
  induction ops as [|c ops IH]; intros w; cbn [run].
  - split; [apply quiet_refl|done].
  - unfold bind. destruct (calm_perform c w) as [Hq Hn].
    destruct (perform c w) as [w1 [e|[]]]; [done|].
    destruct (IH w1) as [Hq1 Hn1]. split; [by eapply quiet_trans|done].
Qed.

Lemma run_raises (pre : list op) (c : op) (post : list op) (w w1 w2 : World) (e : exn) :
  run pre w = (w1, inr tt) -> perform c w1 = (w2, inl e) ->
  run (pre ++ c :: post) w = (w2, inl e).
Proof.
  intros Hpre Hc. rewrite run_app. unfold bind. rewrite Hpre.
  cbn [run]. unfold bind. by rewrite Hc.
Qed.

Lemma all_succeed_run (ops : list op) (w : World) :
  all_succeed ops w = ok (run ops w).2.
Proof.
  revert w. induction ops as [|c ops IH]; intros w; [done|].
  cbn [all_succeed run]. unfold bind.
  destruct (perform c w) as [w1 [e|[]]]; [done|]. apply IH.
Qed.

Lemma all_succeed_returns (ops : list op) (w : World) :
  all_succeed ops w = true -> run ops w = ((run ops w).1, inr tt).
Proof.
  rewrite all_succeed_run. by destruct (run ops w) as [w1 [e|[]]].
Qed.

End Run.

Section Performs.

Import Os Fs.
Context (o : ProjectScaffolder) (y : Z) (name : string).

Lemma performs_bind (m : M Machine unit) (k : unit -> M Machine unit) ops1 ops2 ops :
  ops = ops1 ++ ops2 ->
  performs o y name m ops1 -> (forall a, performs o y name (k a) ops2) ->
  performs o y name (bind m k) ops.
Proof.
  intros -> Hm Hk st Ho Hy Hn. unfold bind at 1. rewrite (Hm st Ho Hy Hn).
  unfold io. rewrite run_app. unfold bind.
  destruct (calm_run ops1 (world st)) as [(_ & _ & Hy1 & Hn1 & _) _].
  destruct (run ops1 (world st)) as [w1 [e|[]]]; [done|]. cbn [fst] in *.
  rewrite (Hk tt (mkMachine (self_obj st) w1)); cbn [self_obj world]; [done|done|..];
    congruence.
Qed.

Lemma performs_ret : performs o y name (ret tt) [].
Proof. intros st _ _ _. by destruct st. Qed.

Lemma performs_io (c : op) : performs o y name (io (perform c)) [c].
Proof.
  intros st _ _ _. unfold io. cbn [run]. unfold bind.
  by destruct (perform c (world st)) as [w1 [e|[]]].
Qed.

Lemma performs_cons (c : op) (k : unit -> M Machine unit) ops :
  (forall a, performs o y name (k a) ops) ->
  performs o y name (bind (io (perform c)) k) (c :: ops).
Proof. intros Hk. by apply (performs_bind _ _ [c] ops); [|apply performs_io|]. Qed.

Lemma performs_with_self (k : ProjectScaffolder -> M Machine unit) ops :
  performs o y name (k o) ops -> performs o y name (bind get_self k) ops.
Proof. intros Hk st Ho Hy Hn. unfold bind, get_self. rewrite Ho. by apply Hk. Qed.

Lemma performs_with_year (k : Z -> M Machine unit) ops :
  performs o y name (k y) ops -> performs o y name (bind get_current_year k) ops.
Proof.
  intros Hk st Ho Hy Hn. unfold bind, get_current_year, io, Sys.now_year. cbn.
  rewrite Hy. destruct st as [s w]. by apply (Hk (mkMachine s w)).
Qed.

Lemma performs_with_os_name (k : string -> M Machine unit) ops :
  performs o y name (k name) ops -> performs o y name (bind (io Sys.get_os_name) k) ops.
Proof.
  intros Hk st Ho Hy Hn. unfold bind, io, Sys.get_os_name. cbn.
  rewrite Hn. destruct st as [s w]. by apply (Hk (mkMachine s w)).
Qed.

Lemma performs_when (c : bool) (m : M Machine unit) ops :
  performs o y name m ops -> performs o y name (when c m) (if c then ops else []).
Proof. destruct c; [done|]. intros _. apply performs_ret. Qed.

End Performs.

(** The next call of a method, which heads the list of the goal. *)
Ltac performs_step :=
  cbn [app];
  lazymatch goal with
  | |- performs _ _ _ (bind get_self _) _ => apply performs_with_self
  | |- performs _ _ _ (bind get_current_year _) _ => apply performs_with_year
  | |- performs _ _ _ (bind (io Sys.get_os_name) _) _ => apply performs_with_os_name
  | |- performs _ _ _ (bind _ _) (?c :: _) => apply (performs_cons _ _ _ c); intros ?
  | |- performs _ _ _ _ [?c] => apply (performs_io _ _ _ c)
  end.

Section PerformsMethods.

Import Os Fs.
Context (o : ProjectScaffolder) (y : Z) (name : string).

Lemma performs_create_directory_structure :
  performs o y name create_directory_structure
    (Print ("Creating project: " +:+ project_name o) :: structure_script o).
Proof.
  unfold create_directory_structure, structure_script. cbv zeta.
  do 5 performs_step.
  eapply (performs_bind _ _ _ _ _ _ _ _ eq_refl); [|intros ?].
  - apply performs_when. repeat performs_step.
  - apply performs_when. repeat performs_step.
Qed.

Lemma performs_create_setup_files :
  performs o y name create_setup_files
    [ OpenW (Py.path_join (base_dir o) "setup.py") (setup_py_chunks o);
      OpenW (Py.path_join (base_dir o) "pyproject.toml") pyproject_chunks;
      OpenW (Py.path_join (base_dir o) "setup.cfg") setup_cfg_chunks ].
Proof. unfold create_setup_files. repeat performs_step. Qed.

Lemma performs_create_readme :
  performs o y name create_readme
    [ OpenW (Py.path_join (base_dir o) "README.md") (readme_chunks o) ].
Proof. unfold create_readme. repeat performs_step. Qed.

Lemma performs_create_license :
  performs o y name create_license
    [ OpenW (Py.path_join (base_dir o) "LICENSE") (license_chunks o y) ].
Proof. unfold create_license. repeat performs_step. Qed.

Lemma performs_create_gitignore :
  performs o y name create_gitignore
    [ OpenW (Py.path_join (base_dir o) ".gitignore") gitignore_chunks ].
Proof. unfold create_gitignore. repeat performs_step. Qed.

Lemma performs_create_makefile :
  performs o y name create_makefile
    [ OpenW (Py.path_join (base_dir o) "Makefile") makefile_chunks ].
Proof. unfold create_makefile. repeat performs_step. Qed.

Lemma performs_create_venv : performs o y name create_venv (venv_script o name).
Proof.
  unfold create_venv, venv_script. performs_step.
  destruct (use_venv o); cbn [when]; [|apply performs_ret].
  do 5 performs_step. destruct (bool_decide (name = "nt")); performs_step.
Qed.

Lemma performs_scaffold : performs o y name scaffold (script o y name).
Proof.
  unfold scaffold, script, top_script.
  eapply (performs_bind _ _ _ _ _ (_ :: structure_script o) _ _ eq_refl);
    [apply performs_create_directory_structure|intros _].
  eapply (performs_bind _ _ _ _ _ [_; _; _] _ _ eq_refl);
    [apply performs_create_setup_files|intros _].
  eapply (performs_bind _ _ _ _ _ [_] _ _ eq_refl); [apply performs_create_readme|intros _].
  eapply (performs_bind _ _ _ _ _ [_] _ _ eq_refl); [apply performs_create_license|intros _].
  eapply (performs_bind _ _ _ _ _ [_] _ _ eq_refl); [apply performs_create_gitignore|intros _].
  eapply (performs_bind _ _ _ _ _ [_] _ _ eq_refl); [apply performs_create_makefile|intros _].
  performs_step.
  eapply (performs_bind _ _ _ _ _ (venv_script o name) [_; _] _ eq_refl); [|intros _].
  - unfold venv_script. destruct (use_venv o) eqn:E; cbn [when].
    + pose proof performs_create_venv as Hv. unfold venv_script in Hv. by rewrite E in Hv.
    + apply performs_ret.
  - repeat performs_step.
Qed.

End PerformsMethods.

Section Script.

Import Os Fs.

(** [scaffold] is the sequence of its calls. *)
Lemma scaffold_is_script (st : Machine) :
  scaffold st
  = io (run (script (self_obj st) (year (world st)) (os_name (world st)))) st.
Proof. by apply performs_scaffold. Qed.

(** So is [main] when the checked path does not exist. *)
Lemma main_is_script (args : Args) (w : World) :
  path_exists (fs w) (target args w) = false ->
  main args w = run (script (scaffolder_for args w) (year w) (os_name w)) w.
Proof.
  intros H. rewrite (main_runs _ _ H), scaffold_is_script.
  unfold io. cbn [self_obj world]. by destruct (run _ w).
Qed.

(** C6. When the checked path does not exist, [main] is the sequence
    of the calls of [scaffold] and nothing more: no call is guarded,
    retried or undone.  So when the calls before [c] have returned and
    [c] (an [os.makedirs], an [open] with its writes, [venv.create])
    raises [e], the outcome of [main] is [e] in the world that [c] has
    left: the calls after [c] are not made, and the process ends with
    the exit status of the uncaught [e]. *)
Theorem other_failures_propagate (args : Args) (w : World) :
  path_exists (fs w) (target args w) = false ->
  let ops := script (scaffolder_for args w) (year w) (os_name w) in
  main args w = run ops w
  /\ forall pre c post w1 w2 e,
       ops = pre ++ c :: post ->
       run pre w = (w1, inr tt) ->
       perform c w1 = (w2, inl e) ->
       main args w = (w2, inl e)
       /\ run_main args w = (w2, exit_status (inl e : exn + unit)).
Proof.
  intros H ops. pose proof (main_is_script _ _ H) as Hm. fold ops in Hm.
  split; [exact Hm|]. intros pre c post w1 w2 e Hops Hpre Hc.
  assert (main args w = (w2, inl e)) as Hr.
  { rewrite Hm, Hops. by eapply run_raises. }
  split; [exact Hr|]. unfold run_main. by rewrite Hr.
Qed.

(** C8 (as amended). When the checked path does not exist and every
    call of the run returns when its turn comes (each [os.makedirs],
    each [open] with its writes and, when an environment is asked for,
    [venv.create] with its pip bootstrap), the process ends with
    status 0, in the world that the last call has left. *)
Theorem fresh_target_exits_zero (args : Args) (w : World) :
  path_exists (fs w) (target args w) = false ->
  let ops := script (scaffolder_for args w) (year w) (os_name w) in
  all_succeed ops w = true ->
  run_main args w = ((run ops w).1, 0).
Proof.
  intros H ops Hall. unfold run_main.
  rewrite (main_is_script _ _ H). fold ops.
  by rewrite (all_succeed_returns _ _ Hall).
Qed.

Lemma perform_stdout (c : op) (w : World) :
  stdout (perform c w).1
  = stdout w ++ match c with Print line => [line] | _ => [] end.
Proof.
  destruct c as [line|s|s chunks|s]; cbn [perform]; [done|..].
  - unfold Sys.makedirs, Sys.fs_call.
    destruct (makedirs s (fs w)) as [f [e|]]; cbn; by rewrite app_nil_r.
  - unfold Sys.open_w.
    destruct (write_file s _ (fs w)) as [f [e|]]; cbn; by rewrite app_nil_r.
  - unfold Sys.venv_create, Sys.fs_call.
    destruct (venv_create _ s (fs w)) as [f [e|]]; cbn; by rewrite app_nil_r.
Qed.

Lemma run_stdout_silent (ops : list op) (w : World) :
  forallb (fun c => negb (is_print c)) ops = true ->
  stdout (run ops w).1 = stdout w.
Proof.
  revert w. induction ops as [|c ops IH]; intros w; [done|].
  cbn [forallb run]. intros [Hc Hops]%andb_true_iff. unfold bind.
  pose proof (perform_stdout c w) as Hp.
  destruct c; [done|..];
    (destruct (perform _ w) as [w1 [e|[]]]; cbn [fst] in *;
     [by rewrite Hp, app_nil_r|rewrite (IH w1 Hops); by rewrite Hp, app_nil_r]).
Qed.

(** Where a call of the first of two lists lies that the second list
    has none of. *)
Lemma split_in_first (P : op -> bool) (l1 l2 pre : list op) (c : op) (post : list op) :
  l1 ++ l2 = pre ++ c :: post -> P c = true -> forallb (fun x => negb (P x)) l2 = true ->
  exists mid, l1 = pre ++ c :: mid.
Proof.
  revert pre. induction l1 as [|x l1 IH]; intros pre Heq Hc Hl2.
  - cbn [app] in Heq. subst l2. rewrite forallb_app in Hl2.
    apply andb_true_iff in Hl2 as [_ Hl2]. cbn in Hl2. by rewrite Hc in Hl2.
  - destruct pre as [|p pre]; cbn [app] in Heq; injection Heq as -> Heq.
    + by exists l1.
    + destruct (IH pre Heq Hc Hl2) as [mid ->]. by exists mid.
Qed.

Lemma prefix_silent (l pre : list op) (c : op) (mid : list op) :
  l = pre ++ c :: mid -> forallb (fun x => negb (is_print x)) l = true ->
  forallb (fun x => negb (is_print x)) pre = true.
Proof. intros -> H. rewrite forallb_app in H. by apply andb_true_iff in H as [H _]. Qed.

(** X13. A run of [scaffold] in which one of its own file operations
    (an [os.makedirs] or an [open]) raises: the exception is the
    outcome of [scaffold], and the run has printed the announcement
    and nothing more. *)
Theorem scaffold_raises_after (st : Machine) (pre : list op) (c : op) (post : list op)
    (w1 w2 : World) (e : exn) :
  let o := self_obj st in
  script o (year (world st)) (os_name (world st)) = pre ++ c :: post ->
  is_file_operation c = true ->
  run pre (world st) = (w1, inr tt) ->
  perform c w1 = (w2, inl e) ->
  scaffold st = (mkMachine o w2, inl e)
  /\ stdout w2 = stdout (world st) ++ ["Creating project: " +:+ project_name o].
Proof.
  intros o Hs Hf Hpre Hc. split.
  - rewrite scaffold_is_script. fold o. rewrite Hs. unfold io.
    by rewrite (run_raises _ _ _ _ _ _ _ Hpre Hc).
  - unfold script in Hs. rewrite app_assoc in Hs.
    remember (structure_script o ++ top_script o (year (world st))) as F eqn:HF.
    remember (venv_script o (os_name (world st))
              ++ [ Print (Py.nl +:+ "Project " +:+ project_name o +:+ " created successfully!");
                   Print ("Get started with: cd " +:+ project_name o) ]) as R eqn:HR.
    assert (forallb (fun x => negb (is_file_operation x)) R = true) as Hrest.
    { subst R. unfold venv_script. by destruct (use_venv o). }
    assert (forallb (fun x => negb (is_print x)) F = true) as Hsil.
    { subst F. unfold structure_script, top_script. by destruct (use_tests o), (use_docs o). }
    clear HF HR.
    destruct pre as [|p pre]; cbn [app] in Hs; injection Hs as Hp Hs.
    { by rewrite <- Hp in Hf. }
    subst p.
    destruct (split_in_first _ _ _ _ _ _ Hs Hf Hrest) as [mid Hmid].
    pose proof (prefix_silent _ _ _ _ Hmid Hsil) as Hq.
    cbn [run] in Hpre. unfold bind in Hpre. cbn [perform Sys.print] in Hpre.
    match type of Hpre with run pre ?w = _ =>
      pose proof (run_stdout_silent pre w Hq) as Ho
    end.
    rewrite Hpre in Ho. cbn [fst] in Ho.
    pose proof (perform_stdout c w1) as Hw. rewrite Hc in Hw. cbn [fst] in Hw.
    rewrite Hw, Ho. destruct c; [done|by rewrite app_nil_r..].
Qed.

End Script.

(* ================================================================== *)
(** ** A run on an existing project directory *)
(* ================================================================== *)

Section Admits.

Import Os Fs.
Implicit Types (f : gmap (list string) node) (q b rel : list string) (n : node).
Implicit Types (tree : list (list string * node)) (made : list (list string)).












End Admits.

End Program.

(* ================================================================== *)
(** ** The properties on sample runs *)
(* ================================================================== *)

Section Runs.

Import Os Fs.

Local Abbreviation sample_scaffold := (scaffold Sample.title Sample.payload).
Local Abbreviation sample_main := (main Sample.title Sample.payload).
Local Abbreviation sample_run := (run_main Sample.title Sample.payload).

(** The machine that [main] starts [scaffold] on. *)
Local Abbreviation start args w := (mkMachine (scaffolder_for args w) w).

(** The calls of a sample run. *)
Local Abbreviation sample_script args w :=
  (script Sample.title (scaffolder_for args w) (year w) (os_name w)).

Lemma tree_shaped_empty : tree_shaped ∅.
Proof. intros q c [n Hn]. by rewrite lookup_empty in Hn. Qed.

(** A run is determined by its state once its result is known. *)
Lemma returned_unit {S : Type} (x : S * (exn + unit)) :
  ok x.2 = true -> x = (x.1, inr tt).
Proof. destruct x as [s [e|[]]]; [discriminate|reflexivity]. Qed.

Lemma exited_with (x : World * Z) (z : Z) : x.2 = z -> x = (x.1, z).
Proof. destruct x as [w z']. cbn. by intros ->. Qed.

Lemma fs_world_of f c y : fs (Sample.world_of f c y) = f.
Proof. reflexivity. Qed.

Lemma raised_with {S A : Type} (x : S * (exn + A)) (e : exn) :
  x.2 = inl e -> x = (x.1, inl e).
Proof. destruct x as [s r]. cbn. by intros ->. Qed.

(** C1 on a sample: the second of two runs with the same arguments is
    rejected. *)
Lemma existing_target_rejected_witness :
  sample_run Sample.my_app (sample_run Sample.my_app (Sample.at_root 2024)).1
  = (add_stdout (error_line Sample.my_app)
       (sample_run Sample.my_app (Sample.at_root 2024)).1, 1).
Proof.
  apply (existing_target_rejected Sample.title Sample.payload).
  right. right. exists (Sample.at_root 2024).
  apply exited_with. vm_compute. reflexivity.
Defined.

(** C2 on a sample: the names in a project directory made with all
    flags set. *)
Lemma fresh_scaffold_layout_witness :
  listdir (fs (world (sample_scaffold (start Sample.my_app (Sample.at_root 2024))).1))
    ["My-App"]
  = list_to_set (top_names (scaffolder_for Sample.my_app (Sample.at_root 2024))).
Proof.
  refine (proj1 (proj2 (proj2
    (fresh_scaffold_layout Sample.title Sample.payload Sample.my_app (Sample.at_root 2024) []
       (sample_scaffold (start Sample.my_app (Sample.at_root 2024))).1
       tree_shaped_empty _ _ _ _ _)))).
  - vm_compute. reflexivity.
  - vm_compute. reflexivity.
  - vm_compute. reflexivity.
  - vm_compute. reflexivity.
  - apply returned_unit. vm_compute. reflexivity.
Defined.

(** C2 as stated fails: a project called venv, made with the
    environment switched off, has a [venv] directory (its package). *)
Lemma venv_directory_without_flag :
  path_exists (fs (Sample.at_root 2024)) (target (Sample.bare "venv") (Sample.at_root 2024))
  = false
  /\ ok (sample_scaffold (start (Sample.bare "venv") (Sample.at_root 2024))).2 = true
  /\ ~ (is_dir (fs (world (sample_scaffold (start (Sample.bare "venv")
                                              (Sample.at_root 2024))).1))
          ["venv"; "venv"] = true
        <-> use_venv (scaffolder_for (Sample.bare "venv") (Sample.at_root 2024)) = true).
Proof.
  split; [by vm_compute|]. split; [by vm_compute|].
  intros [H _]. assert (false = true) as X; [|done].
  apply H. by vm_compute.
Qed.

(** C4 on a sample: the same arguments in two places in one year. *)
Lemma same_year_same_files_witness :
  exists c,
    read_file (fs (world (sample_scaffold (start Sample.my_app (Sample.at_root 2024))).1))
      "/My-App/LICENSE" = Some c
    /\ read_file (fs (world (sample_scaffold (start Sample.my_app (Sample.at_home 2024))).1))
         "/home/My-App/LICENSE" = Some c.
Proof.
  refine (proj2
    (same_year_same_files Sample.title Sample.payload
       (start Sample.my_app (Sample.at_root 2024)) (start Sample.my_app (Sample.at_home 2024))
       (sample_scaffold (start Sample.my_app (Sample.at_root 2024))).1
       (sample_scaffold (start Sample.my_app (Sample.at_home 2024))).1
       _ _ _ _) _ ["LICENSE"] _).
  - repeat split; vm_compute; reflexivity.
  - vm_compute. reflexivity.
  - apply returned_unit. vm_compute. reflexivity.
  - apply returned_unit. vm_compute. reflexivity.
  - vm_compute. reflexivity.
  - vm_compute. in_list.
Defined.

(** C4 as stated fails: the same arguments in the same place in two
    years give two license texts. *)
Lemma license_differs_across_years :
  same_config (scaffolder_for Sample.my_app (Sample.at_root 2024))
              (scaffolder_for Sample.my_app (Sample.at_root 2025))
  /\ ok (sample_scaffold (start Sample.my_app (Sample.at_root 2024))).2 = true
  /\ ok (sample_scaffold (start Sample.my_app (Sample.at_root 2025))).2 = true
  /\ read_file (fs (world (sample_scaffold (start Sample.my_app (Sample.at_root 2024))).1))
       "/My-App/LICENSE"
     <> read_file (fs (world (sample_scaffold (start Sample.my_app (Sample.at_root 2025))).1))
          "/My-App/LICENSE".
Proof.
  split; [by repeat split; vm_compute|]. split; [by vm_compute|]. split; [by vm_compute|].
  vm_compute. discriminate.
Qed.

(** C5 on a sample. *)
Lemma placeholders_are_literal_witness :
  read_file (fs (world (sample_scaffold (start Sample.my_app (Sample.at_root 2024))).1))
    "/My-App/setup.cfg" = Some setup_cfg_text.
Proof.
  refine (proj1 (proj2 (proj2 (proj2 (proj2
    (placeholders_are_literal Sample.title Sample.payload
       (start Sample.my_app (Sample.at_root 2024))
       (sample_scaffold (start Sample.my_app (Sample.at_root 2024))).1 _)))))).
  apply returned_unit. vm_compute. reflexivity.
Defined.


(** X1 on a sample: the home directory after a run in it. *)
Lemma scaffold_stays_in_project_witness :
  fs (world (sample_scaffold (start Sample.my_app (Sample.at_home 2024))).1) !! ["home"]
  = fs (Sample.at_home 2024) !! ["home"]
  /\ fs (sample_main Sample.my_app (Sample.at_home 2024)).1 !! ["home"]
     = fs (Sample.at_home 2024) !! ["home"].
Proof.
  apply (scaffold_stays_in_project Sample.title Sample.payload Sample.my_app
           (Sample.at_home 2024) ["home"] ["home"]).
  - vm_compute. reflexivity.
  - vm_compute. reflexivity.
  - vm_compute. reflexivity.
  - intros [l Hl]. discriminate Hl.
Defined.

(** X2 on a sample. *)
Lemma scaffold_prints_witness :
  stdout (world (sample_scaffold (start Sample.my_app (Sample.at_root 2024))).1)
  = stdout (world (start Sample.my_app (Sample.at_root 2024)))
    ++ printed (self_obj (start Sample.my_app (Sample.at_root 2024)))
         (os_name (world (start Sample.my_app (Sample.at_root 2024)))).
Proof.
  apply (scaffold_prints Sample.title Sample.payload).
  apply returned_unit. vm_compute. reflexivity.
Defined.

(** X4 on a sample. *)
Lemma absolute_project_name_witness :
  exists obj,
    init "/srv/My-App" true true true "Ann" "ann@example.org" "A Python package"
      (Sample.at_root 2024) = (Sample.at_root 2024, inr obj)
    /\ base_dir obj = "/srv/My-App"
    /\ Py.path_join (base_dir obj) (package_name obj) = package_name obj.
Proof.
  destruct (absolute_project_name Sample.title "/srv/My-App" true true true
              "Ann" "ann@example.org" "A Python package" (Sample.at_root 2024))
    as (obj & Hi & Hb & Hj & _).
  - vm_compute. reflexivity.
  - exists obj. split; [exact Hi|]. split; [exact Hb|exact Hj].
Defined.

(** X6 on a sample: a project called tests. *)
Lemma package_init_text_witness :
  read_file
    (fs (world (sample_scaffold
                  (start (Sample.args_of "tests" false true true) (Sample.at_root 2024))).1))
    "/tests/tests/__init__.py"
  = Some tests_init_text.
Proof.
  refine (proj1 (proj1
    (package_init_text Sample.title Sample.payload
       (start (Sample.args_of "tests" false true true) (Sample.at_root 2024))
       (sample_scaffold
          (start (Sample.args_of "tests" false true true) (Sample.at_root 2024))).1
       _ _ _) _)).
  - vm_compute. reflexivity.
  - vm_compute. discriminate.
  - apply returned_unit. vm_compute. reflexivity.
  - split; vm_compute; reflexivity.
Defined.

(** X7 on a sample: the project path is a regular file. *)
Lemma regular_file_target_witness :
  sample_scaffold
    (start Sample.my_app (Sample.world_of (<[ ["My-App"] := File "x" ]> ∅) "/" 2024))
  = (mkMachine
       (scaffolder_for Sample.my_app
          (Sample.world_of (<[ ["My-App"] := File "x" ]> ∅) "/" 2024))
       (add_stdout ("Creating project: " +:+ arg_project_name Sample.my_app)
          (Sample.world_of (<[ ["My-App"] := File "x" ]> ∅) "/" 2024)),
     inl (FileExistsError
            (target Sample.my_app
               (Sample.world_of (<[ ["My-App"] := File "x" ]> ∅) "/" 2024)))).
Proof.
  apply (regular_file_target Sample.title Sample.payload Sample.my_app
           (Sample.world_of (<[ ["My-App"] := File "x" ]> ∅) "/" 2024) [] "x").
  - vm_compute. reflexivity.
  - vm_compute. reflexivity.
  - vm_compute. reflexivity.
  - vm_compute. reflexivity.
Defined.

(** X8 on a sample. *)
Lemma scaffold_idempotent_witness :
  ok (sample_scaffold
        (mkMachine (self_obj (start Sample.my_app (Sample.at_root 2024)))
           (Sample.world_of
              (fs (world (sample_scaffold (start Sample.my_app (Sample.at_root 2024))).1))
              "/" 2024))).2 = true
  /\ fs (world (sample_scaffold
                  (mkMachine (self_obj (start Sample.my_app (Sample.at_root 2024)))
                     (Sample.world_of
                        (fs (world (sample_scaffold
                                      (start Sample.my_app (Sample.at_root 2024))).1))
                        "/" 2024))).1)
     = fs (world (sample_scaffold (start Sample.my_app (Sample.at_root 2024))).1).
Proof.
  apply (scaffold_idempotent Sample.title Sample.payload).
  - vm_compute. reflexivity.
  - apply returned_unit. vm_compute. reflexivity.
  - apply fs_world_of.
  - vm_compute. reflexivity.
Defined.

(** X10 on a sample. *)
Lemma degenerate_names_rejected_witness :
  sample_run (Sample.bare ".") (Sample.at_root 2024)
  = (add_stdout (error_line (Sample.bare ".")) (Sample.at_root 2024), 1).
Proof.
  apply (degenerate_names_rejected Sample.title Sample.payload).
  - apply tree_shaped_empty.
  - vm_compute. reflexivity.
  - vm_compute. in_list.
Defined.

(** X11 on a sample. *)
Lemma setup_py_substitutes_witness :
  exists text,
    read_file (fs (world (sample_scaffold (start Sample.my_app (Sample.at_root 2024))).1))
      "/My-App/setup.py" = Some text
    /\ contains ("    name=" +:+ Py.dq +:+ "My-App" +:+ Py.dq +:+ "," +:+ Py.nl) text = true.
Proof.
  destruct (setup_py_substitutes Sample.title Sample.payload
              (start Sample.my_app (Sample.at_root 2024))
              (sample_scaffold (start Sample.my_app (Sample.at_root 2024))).1)
    as (text & Hr & Hf).
  - apply returned_unit. vm_compute. reflexivity.
  - exists text. split; [exact Hr|exact (Forall_inv Hf)].
Defined.

(** X12 on a sample: [create_readme] before anything else. *)
Lemma methods_need_project_directory_witness :
  create_readme Sample.title (start Sample.my_app (Sample.at_root 2024))
  = (start Sample.my_app (Sample.at_root 2024),
     inl (FileNotFoundError
            (Py.path_join (base_dir (self_obj (start Sample.my_app (Sample.at_root 2024))))
               "README.md"))).
Proof.
  refine (proj1 (proj2
    (methods_need_project_directory Sample.title
       (start Sample.my_app (Sample.at_root 2024)) ["My-App"] _ _))).
  - vm_compute. reflexivity.
  - vm_compute. reflexivity.
Defined.

(** C6 on a sample: a project called setup.py.  The package directory
    takes the place of the file [setup.py], so the fifth call, the
    [open] of [setup.py], raises; its exception is the outcome of
    [main]. *)
Lemma other_failures_propagate_witness :
  sample_main (Sample.bare "setup.py") (Sample.at_root 2024)
  = ((perform Sample.payload
        (OpenW "/setup.py/setup.py"
           (setup_py_chunks (scaffolder_for (Sample.bare "setup.py") (Sample.at_root 2024))))
        (run Sample.payload
           (take 4 (sample_script (Sample.bare "setup.py") (Sample.at_root 2024)))
           (Sample.at_root 2024)).1).1,
     inl (IsADirectoryError "/setup.py/setup.py")).
Proof.
  refine (proj1 (proj2
    (other_failures_propagate Sample.title Sample.payload (Sample.bare "setup.py")
       (Sample.at_root 2024) _)
    (take 4 (sample_script (Sample.bare "setup.py") (Sample.at_root 2024)))
    (OpenW "/setup.py/setup.py"
       (setup_py_chunks (scaffolder_for (Sample.bare "setup.py") (Sample.at_root 2024))))
    (drop 5 (sample_script (Sample.bare "setup.py") (Sample.at_root 2024)))
    _ _ _ _ _ _)).
  - vm_compute. reflexivity.
  - symmetry. apply take_drop_middle. vm_compute. reflexivity.
  - apply all_succeed_returns. vm_compute. reflexivity.
  - apply raised_with. vm_compute. reflexivity.
Defined.


(** C8 on a sample. *)
Lemma fresh_target_exits_zero_witness :
  sample_run Sample.my_app (Sample.at_root 2024)
  = ((run Sample.payload (sample_script Sample.my_app (Sample.at_root 2024))
        (Sample.at_root 2024)).1, 0).
Proof.
  apply (fresh_target_exits_zero Sample.title Sample.payload).
  - vm_compute. reflexivity.
  - vm_compute. reflexivity.
Defined.

(** C8 as stated fails: with a builder whose pip bootstrap fails, the
    target does not exist, every call before [venv.create] returns
    (these are all the [os.makedirs] and [open] calls of the run: none
    comes later), the directory of the environment is made, and the
    process ends with status 1. *)
Lemma builder_failure_exits_one :
  path_exists (fs (Sample.at_root 2024)) (target Sample.my_app (Sample.at_root 2024)) = false
  /\ sample_script Sample.my_app (Sample.at_root 2024) !! 17%nat
     = Some (VenvCreate "/My-App/venv")
  /\ all_succeed None (take 17 (sample_script Sample.my_app (Sample.at_root 2024)))
       (Sample.at_root 2024) = true
  /\ forallb (fun c => negb (is_file_operation c))
       (drop 17 (sample_script Sample.my_app (Sample.at_root 2024))) = true
  /\ (makedirs "/My-App/venv"
        (fs (run None (take 17 (sample_script Sample.my_app (Sample.at_root 2024)))
               (Sample.at_root 2024)).1)).2 = None
  /\ (run_main Sample.title None Sample.my_app (Sample.at_root 2024)).2 = 1.
Proof. repeat split; by vm_compute. Qed.

(** X13 on a sample: the run for a project called setup.py. *)
Lemma scaffold_raises_after_witness :
  stdout
    (perform Sample.payload
       (OpenW "/setup.py/setup.py"
          (setup_py_chunks (scaffolder_for (Sample.bare "setup.py") (Sample.at_root 2024))))
       (run Sample.payload
          (take 4 (sample_script (Sample.bare "setup.py") (Sample.at_root 2024)))
          (Sample.at_root 2024)).1).1
  = stdout (world (start (Sample.bare "setup.py") (Sample.at_root 2024)))
    ++ ["Creating project: "
        +:+ project_name (self_obj (start (Sample.bare "setup.py") (Sample.at_root 2024)))].
Proof.
  refine (proj2
    (scaffold_raises_after Sample.title Sample.payload
       (start (Sample.bare "setup.py") (Sample.at_root 2024))
       (take 4 (sample_script (Sample.bare "setup.py") (Sample.at_root 2024)))
       (OpenW "/setup.py/setup.py"
          (setup_py_chunks (scaffolder_for (Sample.bare "setup.py") (Sample.at_root 2024))))
       (drop 5 (sample_script (Sample.bare "setup.py") (Sample.at_root 2024)))
       _ _ (IsADirectoryError "/setup.py/setup.py") _ _ _ _)).
  - symmetry. apply take_drop_middle. vm_compute. reflexivity.
  - reflexivity.
  - apply all_succeed_returns. vm_compute. reflexivity.
  - apply raised_with. vm_compute. reflexivity.
Defined.

End Runs.
